(** * IOFAE decision and risk engine: a shallow embedding

    The development follows the Python sources module by module:

    - [ScoreCalculator]  (score_calculator.py): execution-zone scoring,
      zone scan and best-zone query;
    - [RiskController]   (risk_controller.py): daily / lifetime risk gate;
    - [PositionManager]  (position_manager.py): exhaustion detection and
      the per-tick exit decision;
    - [SignalGenerator]  (core/signal_generator.py): signal generation with
      correlation confirmation.

    Modelling conventions.

    - Python [float] values are modelled by exact rationals ([Q]); the
      comparisons and the arithmetic are the ones the source writes, without
      binary64 rounding. The VWAP score is given a second time on binary64
      floats ([Binary64]) to evaluate the scenario of the specification with
      the rounding of the interpreter.
    - A Python division raises [ZeroDivisionError] on a zero divisor; such
      divisions are written with [pydiv] and the enclosing function returns
      a [result].
    - [np.random.uniform] reads and advances the global numpy generator; the
      generator is an explicit state ([RandomState]) threaded by the monad
      [M].
    - Answers of the trading terminal, the clock and the database are inputs
      of the function that asks for them. *)

From Stdlib Require Import QArith Qabs Qround Qminmax Lqa Lia ZArith.
From Stdlib Require Import List String Bool Sorted Permutation PrimFloat.
Import ListNotations.

Set Warnings "-inexact-float".

Open Scope Q_scope.

(** ** Python numerics on [Q] *)

Definition Qltb (x y : Q) : bool := negb (Qle_bool y x).

Infix "<=?" := Qle_bool (at level 70, no associativity) : Q_scope.
Infix "<?" := Qltb (at level 70, no associativity) : Q_scope.
Infix "=?" := Qeq_bool (at level 70, no associativity) : Q_scope.

(** [round(x)] with one argument: nearest integer, ties to even. *)
Definition py_round (x : Q) : Z :=
  let f := Qfloor x in
  match Qcompare (x - inject_Z f) (1 # 2) with
  | Lt => f
  | Gt => (f + 1)%Z
  | Eq => if Z.even f then f else (f + 1)%Z
  end.

(** [round(x, 2)]. *)
Definition py_round2 (x : Q) : Q := inject_Z (py_round (x * 100)) / 100.

(** [int(x)]: truncation towards zero. *)
Definition py_int (x : Q) : Z :=
  if 0 <=? x then Qfloor x else Qceiling x.

(** [range(a, b)]. *)
Definition py_range (a b : Z) : list Z :=
  map (fun i => (a + Z.of_nat i)%Z) (seq 0 (Z.to_nat (b - a))).

(** [l[-n:]] for a positive [n]. *)
Definition last_n {A : Type} (n : nat) (l : list A) : list A :=
  skipn (List.length l - n) l.

(** [sum(l)] and [np.mean(l)]. *)
Definition py_sum (l : list Q) : Q := fold_left Qplus l 0.
Definition np_mean (l : list Q) : Q := py_sum l / inject_Z (Z.of_nat (List.length l)).

(** [max(l)] and [min(l)] of a list with first element [x]. *)
Definition py_max (x : Q) (l : list Q) : Q := fold_left Qmax l x.
Definition py_min (x : Q) (l : list Q) : Q := fold_left Qmin l x.

(** ** Exceptions and the global random generator *)

Inductive PyExn : Set :=
| ZeroDivisionError
| ValueError
| AttributeError
| DatabaseError
| TerminalError.

Inductive result (A : Type) : Type :=
| Ok (a : A)
| Raise (e : PyExn).

Arguments Ok {A} a.
Arguments Raise {A} e.

Definition bind_result {A B : Type} (r : result A) (k : A -> result B) : result B :=
  match r with
  | Ok a => k a
  | Raise e => Raise e
  end.

Notation "'let?' x ':=' r 'in' k" :=
  (bind_result r (fun x => k))
  (at level 10, x pattern, r at level 100, k at level 200).

(** [x / y] on Python floats. *)
Definition pydiv (x y : Q) : result Q :=
  if y =? 0 then Raise ZeroDivisionError else Ok (x / y).

(** The numpy generator: [draws n] is the [n]-th value [random_sample()]
    yields, a number of the half-open unit interval; [cursor] counts the
    values already consumed. *)
Record RandomState : Type := mkRandomState {
  draws : nat -> Q;
  cursor : nat
}.

Definition unit_interval_draws (rs : RandomState) : Prop :=
  forall n, 0 <= draws rs n /\ draws rs n < 1.

Definition M (A : Type) : Type := RandomState -> result (A * RandomState).

Definition ret {A : Type} (a : A) : M A := fun rs => Ok (a, rs).

Definition bind {A B : Type} (m : M A) (k : A -> M B) : M B :=
  fun rs =>
    match m rs with
    | Ok (a, rs') => k a rs'
    | Raise e => Raise e
    end.

Definition lift {A : Type} (r : result A) : M A :=
  fun rs =>
    match r with
    | Ok a => Ok (a, rs)
    | Raise e => Raise e
    end.

Notation "x <- m ;; k" :=
  (bind m (fun x => k))
  (at level 100, m at next level, right associativity).

(** [np.random.uniform(low, high)]. *)
Definition uniform (low high : Q) : M Q :=
  fun rs =>
    Ok (low + (high - low) * draws rs (cursor rs),
        {| draws := draws rs; cursor := S (cursor rs) |}).

(** ** Dictionaries in insertion order *)

Definition dict (V : Type) : Type := list (string * V).

Fixpoint dict_get {V : Type} (d : dict V) (k : string) : option V :=
  match d with
  | [] => None
  | (k', v) :: d' => if String.eqb k' k then Some v else dict_get d' k
  end.

Definition dict_values {V : Type} (d : dict V) : list V := map snd d.

(** [max(d, key=d.get)]: the first key, in insertion order, whose value is
    maximal. *)
Fixpoint argmax_from (best : string * Q) (d : dict Q) : string * Q :=
  match d with
  | [] => best
  | (k, v) :: d' => argmax_from (if snd best <? v then (k, v) else best) d'
  end.

Definition dict_argmax (d : dict Q) : result (string * Q) :=
  match d with
  | [] => Raise ValueError
  | kv :: d' => Ok (argmax_from kv d')
  end.

(** ** Stable sorting, as [sorted] does *)

Section StableSort.
Context {A : Type}.
(** [before x y]: [x] may stay in front of [y]. *)
Variable before : A -> A -> bool.

Fixpoint insert_sorted (x : A) (l : list A) : list A :=
  match l with
  | [] => [x]
  | y :: l' => if before x y then x :: y :: l' else y :: insert_sorted x l'
  end.

Fixpoint py_sorted (l : list A) : list A :=
  match l with
  | [] => []
  | x :: l' => insert_sorted x (py_sorted l')
  end.
End StableSort.

(** ** data_collector.py: the snapshot the core consumes *)

Inductive Direction : Set := LONG | SHORT.

Module MarketTick.
Record t : Type := mk {
  time : Q;
  bid : Q;
  ask : Q;
  spread : Q;
  last : Q;
  volume : Q;
  flags : Z
}.
End MarketTick.

Module MarketData.
Record t : Type := mk {
  symbol : string;
  timestamp : Q;
  bid : Q;
  ask : Q;
  spread : Q;
  spread_points : Z;
  last_price : Q;
  tick_volume : Q;
  open : Q;
  high : Q;
  low : Q;
  close : Q;
  volume : Q;
  vwap : Q;
  bid_ask_delta : Q;
  dom_bids : list (Q * Q);
  dom_asks : list (Q * Q);
  swing_high : Q;
  swing_low : Q;
  fib_levels : dict Q
}.
End MarketData.

(** ** database/dom_logger.py: the one query the scorer issues *)

Module DOMLogger.
(** [get_avg_volume_at_level symbol price_level tolerance days_back]: the
    SQL average, or the exception the session raised. *)
Record t : Type := mk {
  get_avg_volume_at_level : string -> Q -> Q -> Z -> result Q
}.
End DOMLogger.

(** ** score_calculator.py *)

Module ExecutionZone.
Record t : Type := mk {
  price : Q;
  score : Q;
  direction : Direction;
  score_breakdown : dict Q;
  zone_type : string;
  trigger_price : Q;
  stop_loss : Q;
  confidence_level : string
}.
End ExecutionZone.

(** The signal [SignalGenerator] emits and [PositionManager] executes. *)

Module TradeSignal.
(** The dictionary [_check_correlation] returns. [dxy_change_pct] is absent
    when the opening price of the secondary instrument is zero (numpy
    yields a non-finite value there). *)
Record CorrelationResult : Type := mkResult {
  confirmed : bool;
  status : string;
  dxy_trend : option string;
  dxy_change : option Q;
  dxy_change_pct : option Q
}.

(** [correlation_details]: the dictionary above, or the one-entry
    dictionary of the stop-hunt path. *)
Inductive CorrelationDetails : Type :=
| DetailsStopHunt
| DetailsOf (result : CorrelationResult).

(** The interpolated parts of the [reason] text. *)
Inductive Reason : Type :=
| ZoneReason (zone_type : string) (score : Q) (status : string)
| StopHuntAbove (yesterday_high : Q)
| StopHuntBelow (yesterday_low : Q).

Record t : Type := mk {
  symbol : string;
  timestamp : Q;
  direction : Direction;
  zone : ExecutionZone.t;
  entry_price : Q;
  stop_loss : Q;
  suggested_lot : Q;
  confidence : Q;
  correlation_confirmed : bool;
  correlation_details : CorrelationDetails;
  reason : Reason
}.
End TradeSignal.

Module ScoreCalculator.

(** The values [__init__] reads from the configuration, after the [.get]
    defaults have been applied. *)
Record Config : Type := mkConfig {
  vwap_max_points : Q;
  round_number_max_points : Q;
  fibonacci_max_points : Q;
  dom_volume_max_points : Q;
  delta_imbalance_max_points : Q;
  dom_volume_threshold : Q;
  delta_imbalance_threshold : Q;
  fibonacci_proximity_pips : Q;
  entry_offset_pips : Q;
  stop_loss_pips : Q
}.

Definition default_config : Config :=
  {| vwap_max_points := 30;
     round_number_max_points := 25;
     fibonacci_max_points := 20;
     dom_volume_max_points := 15;
     delta_imbalance_max_points := 10;
     dom_volume_threshold := 1500;
     delta_imbalance_threshold := 8000;
     fibonacci_proximity_pips := 5;
     entry_offset_pips := 7;
     stop_loss_pips := 10 |}.

(** The attributes of a [ScoreCalculator] instance. *)
Record t : Type := mk {
  db : option DOMLogger.t;
  VWAP_MAX : Q;
  ROUND_MAX : Q;
  FIB_MAX : Q;
  DOM_MAX : Q;
  DELTA_MAX : Q;
  VWAP_CRITICAL : Q;
  VWAP_HIGH : Q;
  VWAP_LOW : Q;
  DOM_THRESHOLD : Q;
  DELTA_THRESHOLD : Q;
  FIB_PROXIMITY_PIPS : Q;
  ENTRY_OFFSET_PIPS : Q;
  STOP_LOSS_PIPS : Q;
  pip_value : Q;
  _round_numbers : list Q
}.

Definition _generate_round_numbers : list Q :=
  py_sorted Qle_bool
    (flat_map
       (fun major =>
          map (fun minor => inject_Z major / 100 + inject_Z minor / 10000)
              [0%Z; 50%Z])
       (py_range 100 150)).

Definition __init__ (config : Config) (db : option DOMLogger.t) : t :=
  {| db := db;
     VWAP_MAX := vwap_max_points config;
     ROUND_MAX := round_number_max_points config;
     FIB_MAX := fibonacci_max_points config;
     DOM_MAX := dom_volume_max_points config;
     DELTA_MAX := delta_imbalance_max_points config;
     VWAP_CRITICAL := 0.003;
     VWAP_HIGH := 0.002;
     VWAP_LOW := 0.001;
     DOM_THRESHOLD := dom_volume_threshold config;
     DELTA_THRESHOLD := delta_imbalance_threshold config;
     FIB_PROXIMITY_PIPS := fibonacci_proximity_pips config;
     ENTRY_OFFSET_PIPS := entry_offset_pips config;
     STOP_LOSS_PIPS := stop_loss_pips config;
     pip_value := 0.0001;
     _round_numbers := _generate_round_numbers |}.

Definition set_pip_value (self : t) (pip : Q) : t :=
  {| db := db self;
     VWAP_MAX := VWAP_MAX self;
     ROUND_MAX := ROUND_MAX self;
     FIB_MAX := FIB_MAX self;
     DOM_MAX := DOM_MAX self;
     DELTA_MAX := DELTA_MAX self;
     VWAP_CRITICAL := VWAP_CRITICAL self;
     VWAP_HIGH := VWAP_HIGH self;
     VWAP_LOW := VWAP_LOW self;
     DOM_THRESHOLD := DOM_THRESHOLD self;
     DELTA_THRESHOLD := DELTA_THRESHOLD self;
     FIB_PROXIMITY_PIPS := FIB_PROXIMITY_PIPS self;
     ENTRY_OFFSET_PIPS := ENTRY_OFFSET_PIPS self;
     STOP_LOSS_PIPS := STOP_LOSS_PIPS self;
     pip_value := pip;
     _round_numbers := _generate_round_numbers |}.

(** The first branch also computes a local [extra] that is never used. *)
Definition _calculate_vwap_score (self : t) (price_level vwap : Q) : Q :=
  if vwap =? 0 then 0
  else
    let distance_pct := Qabs (price_level - vwap) / vwap in
    if VWAP_CRITICAL self <=? distance_pct then
      VWAP_MAX self
    else if VWAP_HIGH self <=? distance_pct then
      let base := VWAP_MAX self * 0.5 in
      let range_pct :=
        (distance_pct - VWAP_HIGH self) / (VWAP_CRITICAL self - VWAP_HIGH self) in
      base + VWAP_MAX self * 0.5 * range_pct
    else if VWAP_LOW self <=? distance_pct then
      let base := VWAP_MAX self * 0.17 in
      let range_pct :=
        (distance_pct - VWAP_LOW self) / (VWAP_HIGH self - VWAP_LOW self) in
      base + VWAP_MAX self * 0.33 * range_pct
    else
      (distance_pct / VWAP_LOW self) * (VWAP_MAX self * 0.17).

Definition _calculate_round_number_score (self : t) (price_level : Q)
  : result (Q * string) :=
  let? q := pydiv price_level (pip_value self) in
  let pips_value := py_round q in
  let last_two := (pips_value mod 100)%Z in
  if (last_two =? 0)%Z then Ok (ROUND_MAX self, "MAJOR_ROUND"%string)
  else if (last_two =? 50)%Z then Ok (ROUND_MAX self * 0.72, "HALF_ROUND"%string)
  else if ((last_two =? 25) || (last_two =? 75))%Z then
    Ok (ROUND_MAX self * 0.40, "QUARTER_ROUND"%string)
  else if (last_two mod 10 =? 0)%Z then
    Ok (ROUND_MAX self * 0.20, "10PIP_LEVEL"%string)
  else
    let nearest_round := inject_Z (py_round (price_level / 0.005)) * 0.005 in
    let distance := Qabs (price_level - nearest_round) in
    if distance <=? 0.0010 then
      let proximity_score := ROUND_MAX self * 0.3 * (1 - distance / 0.0010) in
      Ok (proximity_score, "NEAR_ROUND"%string)
    else Ok (0, "NONE"%string).

Definition fib_weights : dict Q :=
  [("0.618", 1.0); ("0.5", 0.85); ("0.382", 0.75); ("0.786", 0.70);
   ("0.236", 0.60)]%string.

(** One iteration of the loop over [fib_levels.items()]. *)
Definition fib_loop_body (self : t) (price_level proximity_threshold : Q)
  (best : Q * string) (item : string * Q) : result (Q * string) :=
  let '(level_name, level_price) := item in
  let distance := Qabs (price_level - level_price) in
  if distance <=? proximity_threshold then
    let weight :=
      match dict_get fib_weights level_name with
      | Some w => w
      | None => 0.5
      end in
    let? ratio := pydiv distance proximity_threshold in
    let proximity_factor := 1 - ratio in
    let score := FIB_MAX self * weight * proximity_factor in
    if fst best <? score then Ok (score, level_name) else Ok best
  else Ok best.

Fixpoint fib_loop (self : t) (price_level proximity_threshold : Q)
  (items : dict Q) (best : Q * string) : result (Q * string) :=
  match items with
  | [] => Ok best
  | item :: items' =>
      let? best' := fib_loop_body self price_level proximity_threshold best item in
      fib_loop self price_level proximity_threshold items' best'
  end.

Definition _calculate_fibonacci_score (self : t) (price_level : Q)
  (fib_levels : dict Q) : result (Q * string) :=
  match fib_levels with
  | [] => Ok (0, ""%string)
  | _ =>
      let proximity_threshold := FIB_PROXIMITY_PIPS self * pip_value self in
      fib_loop self price_level proximity_threshold fib_levels (0, ""%string)
  end.

(** The body of the [try] block of [_calculate_dom_score]. *)
Definition dom_score_of_volume (self : t) (avg_volume : Q) : result Q :=
  if DOM_THRESHOLD self <=? avg_volume then Ok (DOM_MAX self)
  else if DOM_THRESHOLD self * 0.6 <=? avg_volume then
    let? factor :=
      pydiv (avg_volume - DOM_THRESHOLD self * 0.6) (DOM_THRESHOLD self * 0.4) in
    Ok (DOM_MAX self * 0.6 + DOM_MAX self * 0.4 * factor)
  else if 0 <? avg_volume then
    let? r := pydiv avg_volume (DOM_THRESHOLD self * 0.6) in
    Ok (r * (DOM_MAX self * 0.6))
  else Ok 0.

Definition _calculate_dom_score (self : t) (price_level : Q) (symbol : string)
  : M Q :=
  match db self with
  | None => uniform 0 (DOM_MAX self * 0.4)
  | Some logger =>
      let attempt :=
        let? avg_volume :=
          DOMLogger.get_avg_volume_at_level logger symbol price_level
            (pip_value self * 5) 20 in
        dom_score_of_volume self avg_volume in
      match attempt with
      | Ok s => ret s
      | Raise _ => ret 0
      end
  end.

Definition _calculate_delta_score (self : t) (delta : Q) : Q :=
  let abs_delta := Qabs delta in
  if DELTA_THRESHOLD self <=? abs_delta then DELTA_MAX self
  else if DELTA_THRESHOLD self * 0.5 <=? abs_delta then
    let factor :=
      (abs_delta - DELTA_THRESHOLD self * 0.5) / (DELTA_THRESHOLD self * 0.5) in
    DELTA_MAX self * 0.5 + DELTA_MAX self * 0.5 * factor
  else
    (abs_delta / (DELTA_THRESHOLD self * 0.5)) * (DELTA_MAX self * 0.5).

Definition _determine_zone_type (self : t) (breakdown : dict Q)
  (round_type fib_level : string) : result string :=
  let? best := dict_argmax breakdown in
  let '(max_component, max_score) := best in
  if String.eqb max_component "vwap" && (VWAP_MAX self * 0.8 <=? max_score) then
    Ok "VWAP_REVERSION"%string
  else if String.eqb max_component "round_number"
          && negb (String.eqb round_type "NONE") then
    if String.eqb round_type "MAJOR_ROUND" then Ok "INSTITUTIONAL_ROUND"%string
    else Ok ("ROUND_" ++ round_type)%string
  else if String.eqb max_component "fibonacci"
          && negb (String.eqb fib_level "") then
    Ok ("FIB_" ++ fib_level)%string
  else if String.eqb max_component "dom" then Ok "DOM_CLUSTER"%string
  else if String.eqb max_component "delta" then Ok "DELTA_IMBALANCE"%string
  else
    let high_scores := filter (fun kv => 15 <? snd kv) breakdown in
    if (2 <=? List.length high_scores)%nat then Ok "CONFLUENCE_ZONE"%string
    else Ok "MIXED"%string.

(** [delta_bias] and [vwap_bias] are computed by the source and dropped:
    the position bias alone is returned. *)
Definition _determine_direction (self : t) (price_level : Q)
  (market_data : MarketData.t) : Direction :=
  let current_price := MarketData.bid market_data in
  if current_price <? price_level then LONG else SHORT.

Definition _calculate_trigger_price (self : t) (zone_price : Q)
  (direction : Direction) : Q :=
  let offset := ENTRY_OFFSET_PIPS self * pip_value self in
  match direction with
  | LONG => zone_price - offset
  | SHORT => zone_price + offset
  end.

Definition _calculate_stop_loss (self : t) (trigger_price : Q)
  (direction : Direction) : Q :=
  let sl_offset := STOP_LOSS_PIPS self * pip_value self in
  match direction with
  | LONG => trigger_price - sl_offset
  | SHORT => trigger_price + sl_offset
  end.

Definition confidence_of (total_score : Q) : string :=
  if 95 <=? total_score then "VERY_HIGH"
  else if 90 <=? total_score then "HIGH"
  else if 80 <=? total_score then "MEDIUM"
  else "LOW".

Definition calculate_score (self : t) (price_level : Q)
  (market_data : MarketData.t) : M ExecutionZone.t :=
  let vwap_score :=
    _calculate_vwap_score self price_level (MarketData.vwap market_data) in
  round <- lift (_calculate_round_number_score self price_level) ;;
  let '(round_score, round_type) := round in
  fib <- lift (_calculate_fibonacci_score self price_level
                 (MarketData.fib_levels market_data)) ;;
  let '(fib_score, fib_level) := fib in
  dom_score <- _calculate_dom_score self price_level
                 (MarketData.symbol market_data) ;;
  let delta_score :=
    _calculate_delta_score self (MarketData.bid_ask_delta market_data) in
  let breakdown : dict Q :=
    [("vwap", vwap_score); ("round_number", round_score);
     ("fibonacci", fib_score); ("dom", dom_score);
     ("delta", delta_score)]%string in
  let total_score := Qmin (py_sum (dict_values breakdown)) 100 in
  zone_type <- lift (_determine_zone_type self breakdown round_type fib_level) ;;
  let direction := _determine_direction self price_level market_data in
  let trigger_price := _calculate_trigger_price self price_level direction in
  let stop_loss := _calculate_stop_loss self trigger_price direction in
  ret {| ExecutionZone.price := price_level;
         ExecutionZone.score := total_score;
         ExecutionZone.direction := direction;
         ExecutionZone.score_breakdown := breakdown;
         ExecutionZone.zone_type := zone_type;
         ExecutionZone.trigger_price := trigger_price;
         ExecutionZone.stop_loss := stop_loss;
         ExecutionZone.confidence_level := confidence_of total_score |}.

(** The [for pip_offset in range(...)] loop of [scan_all_zones]; [zones] is
    the list built so far. *)
Fixpoint scan_loop (self : t) (market_data : MarketData.t) (current_price : Q)
  (offsets : list Z) (zones : list ExecutionZone.t) : M (list ExecutionZone.t) :=
  match offsets with
  | [] => ret zones
  | pip_offset :: offsets' =>
      let price_level := current_price + inject_Z pip_offset * pip_value self in
      zone <- calculate_score self price_level market_data ;;
      let zones' :=
        if 50 <=? ExecutionZone.score zone then zones ++ [zone] else zones in
      scan_loop self market_data current_price offsets' zones'
  end.

(** [sorted(zones, key=lambda z: z.score, reverse=True)]: a stable sort, so
    a zone stays in front of a later one of equal score. *)
Definition score_desc (a b : ExecutionZone.t) : bool :=
  ExecutionZone.score b <=? ExecutionZone.score a.

Definition scan_all_zones (self : t) (market_data : MarketData.t)
  (range_pips : Z) : M (list ExecutionZone.t) :=
  let current_price := MarketData.bid market_data in
  zones <- scan_loop self market_data current_price
             (py_range (- range_pips) (range_pips + 1)) [] ;;
  ret (py_sorted score_desc zones).

(** [get_best_zone] scans with the default [range_pips = 20]. *)
Definition get_best_zone (self : t) (market_data : MarketData.t) (min_score : Q)
  : M (option ExecutionZone.t) :=
  zones <- scan_all_zones self market_data 20 ;;
  match zones with
  | z :: _ => if min_score <=? ExecutionZone.score z then ret (Some z) else ret None
  | [] => ret None
  end.

(** The zones [calculate_score] yields for the levels of a scan window, in
    scan order and before the filter on the score. *)
Fixpoint score_window (self : t) (market_data : MarketData.t) (current_price : Q)
  (offsets : list Z) : M (list ExecutionZone.t) :=
  match offsets with
  | [] => ret []
  | pip_offset :: offsets' =>
      let price_level := current_price + inject_Z pip_offset * pip_value self in
      zone <- calculate_score self price_level market_data ;;
      zones <- score_window self market_data current_price offsets' ;;
      ret (zone :: zones)
  end.

(** A scorer as [__init__] and [set_pip_value] build it from a
    configuration with non-negative maxima, a positive proximity window and
    a positive pip size. *)
Record well_formed (self : t) : Prop := mk_well_formed {
  wf_critical : VWAP_CRITICAL self = 0.003;
  wf_high : VWAP_HIGH self = 0.002;
  wf_low : VWAP_LOW self = 0.001;
  wf_vwap_max : 0 <= VWAP_MAX self;
  wf_round_max : 0 <= ROUND_MAX self;
  wf_fib_max : 0 <= FIB_MAX self;
  wf_dom_max : 0 <= DOM_MAX self;
  wf_delta_max : 0 <= DELTA_MAX self;
  wf_fib_proximity : 0 < FIB_PROXIMITY_PIPS self;
  wf_pip_value : 0 < pip_value self
}.

(** The score breakdown is the five named components, each within its
    maximum. *)
Definition breakdown_bounded (self : t) (breakdown : dict Q) : Prop :=
  exists vwap_score round_score fib_score dom_score delta_score,
    breakdown =
      [("vwap", vwap_score); ("round_number", round_score);
       ("fibonacci", fib_score); ("dom", dom_score);
       ("delta", delta_score)]%string /\
    (0 <= vwap_score /\ vwap_score <= VWAP_MAX self) /\
    (0 <= round_score /\ round_score <= ROUND_MAX self) /\
    (0 <= fib_score /\ fib_score <= FIB_MAX self) /\
    (0 <= dom_score /\ dom_score <= DOM_MAX self) /\
    (0 <= delta_score /\ delta_score <= DELTA_MAX self).


(** The order of a list sorted by descending score. *)
Definition non_increasing (a b : ExecutionZone.t) : Prop :=
  ExecutionZone.score b <= ExecutionZone.score a.

End ScoreCalculator.

(** ** risk_controller.py

    Log lines and Telegram notifications are not modelled; the text of a
    refusal is kept as a [Message] carrying the interpolated values. *)

Module RiskController.

Record Config : Type := mkConfig {
  cfg_risk_per_trade : Q;
  cfg_max_daily_loss : Q;
  cfg_max_total_drawdown : Q;
  cfg_max_trades_per_day : Z;
  cfg_min_trade_interval_seconds : Q;
  cfg_profit_target : Q;
  cfg_challenge_days : Z
}.

Definition default_config : Config :=
  {| cfg_risk_per_trade := 0.01;
     cfg_max_daily_loss := 0.05;
     cfg_max_total_drawdown := 0.10;
     cfg_max_trades_per_day := 3;
     cfg_min_trade_interval_seconds := 10800;
     cfg_profit_target := 0.10;
     cfg_challenge_days := 30 |}.

(** What the database answers to [initialize]: today's statistics and the
    last trade time together with whether its date is today. *)
Record TodayStats : Type := mkTodayStats {
  total_trades : Z;
  total_profit : Q;
  last_trade_time : option (Q * bool)
}.

(** The attributes of a [RiskController]; times are seconds on the clock
    [datetime.now()] reads. *)
Record t : Type := mk {
  risk_per_trade : Q;
  max_daily_loss : Q;
  max_total_dd : Q;
  max_trades_day : Z;
  min_trade_interval : Q;
  profit_target : Q;
  challenge_days : Z;
  pip_value : Q;
  pip_dollar_value : Q;
  _starting_balance : Q;
  _highest_balance : Q;
  _today_starting : Q;
  _today_loss : Q;
  _today_trades : Z;
  _last_trade_time : option Q;
  _bot_stopped : bool
}.

Definition __init__ (config : Config) : t :=
  {| risk_per_trade := cfg_risk_per_trade config;
     max_daily_loss := cfg_max_daily_loss config;
     max_total_dd := cfg_max_total_drawdown config;
     max_trades_day := cfg_max_trades_per_day config;
     min_trade_interval := cfg_min_trade_interval_seconds config;
     profit_target := cfg_profit_target config;
     challenge_days := cfg_challenge_days config;
     pip_value := 0.0001;
     pip_dollar_value := 10;
     _starting_balance := 0;
     _highest_balance := 0;
     _today_starting := 0;
     _today_loss := 0;
     _today_trades := 0;
     _last_trade_time := None;
     _bot_stopped := false |}.

(** Assignment to the mutable attributes; the configured ones are kept. *)
Definition with_state (self : t) (starting highest today_starting today_loss : Q)
  (today_trades : Z) (last_trade : option Q) (stopped : bool) : t :=
  {| risk_per_trade := risk_per_trade self;
     max_daily_loss := max_daily_loss self;
     max_total_dd := max_total_dd self;
     max_trades_day := max_trades_day self;
     min_trade_interval := min_trade_interval self;
     profit_target := profit_target self;
     challenge_days := challenge_days self;
     pip_value := pip_value self;
     pip_dollar_value := pip_dollar_value self;
     _starting_balance := starting;
     _highest_balance := highest;
     _today_starting := today_starting;
     _today_loss := today_loss;
     _today_trades := today_trades;
     _last_trade_time := last_trade;
     _bot_stopped := stopped |}.

Definition initialize (self : t) (balance : Q) (db : option TodayStats) : t :=
  match db with
  | None =>
      with_state self balance balance balance 0 0
        (_last_trade_time self) (_bot_stopped self)
  | Some stats =>
      with_state self balance balance balance
        (Qabs (Qmin 0 (total_profit stats)))
        (total_trades stats)
        (match last_trade_time stats with
         | Some (time, true) => Some time
         | _ => _last_trade_time self
         end)
        (_bot_stopped self)
  end.

Definition update_balance (self : t) (current_balance : Q) : t :=
  let highest :=
    if _highest_balance self <? current_balance then current_balance
    else _highest_balance self in
  let today_loss :=
    if current_balance <? _today_starting self
    then _today_starting self - current_balance
    else _today_loss self in
  with_state self (_starting_balance self) highest (_today_starting self)
    today_loss (_today_trades self) (_last_trade_time self) (_bot_stopped self).

Definition _check_daily_loss (self : t) : bool :=
  let max_loss := _today_starting self * max_daily_loss self in
  _today_loss self <? max_loss.

Definition _check_total_drawdown (self : t) : result bool :=
  let current := _today_starting self - _today_loss self in
  let? dd_pct := pydiv (_starting_balance self - current) (_starting_balance self) in
  Ok (dd_pct <? max_total_dd self).

Definition _check_trade_count (self : t) : bool :=
  (_today_trades self <? max_trades_day self)%Z.

Definition _check_trade_interval (self : t) (now : Q) : bool :=
  match _last_trade_time self with
  | None => true
  | Some last =>
      let elapsed := now - last in
      min_trade_interval self <=? elapsed
  end.

Definition _get_interval_remaining (self : t) (now : Q) : Z :=
  match _last_trade_time self with
  | None => 0%Z
  | Some last =>
      let elapsed := now - last in
      let remaining := min_trade_interval self - elapsed in
      Z.max 0 (py_int (remaining / 60))
  end.

Inductive Message : Type :=
| MsgBotStopped                        (* "Bot is stopped due to risk limits" *)
| MsgDailyLoss (today_loss : Q)        (* "Daily loss limit reached: $..." *)
| MsgTotalDrawdown                     (* "Total drawdown limit reached" *)
| MsgMaxTrades (today_trades : Z)      (* "Max trades per day reached: ..." *)
| MsgTradeInterval (remaining : Z)     (* "Trade interval not met. Wait ... minutes" *)
| MsgOK.                               (* "OK" *)

Definition set_bot_stopped (self : t) : t :=
  with_state self (_starting_balance self) (_highest_balance self)
    (_today_starting self) (_today_loss self) (_today_trades self)
    (_last_trade_time self) true.

(** [can_trade] returns the controller after the call and either the pair
    the source returns or the exception that left the call; [now] is the
    clock reading of the interval check (the remaining-minutes message reads
    the clock again and is given the same instant). *)
Definition can_trade (self : t) (now : Q) : t * result (bool * Message) :=
  if _bot_stopped self then (self, Ok (false, MsgBotStopped))
  else if negb (_check_daily_loss self) then
    (self, Ok (false, MsgDailyLoss (_today_loss self)))
  else
    match _check_total_drawdown self with
    | Raise e => (self, Raise e)
    | Ok false => (set_bot_stopped self, Ok (false, MsgTotalDrawdown))
    | Ok true =>
        if negb (_check_trade_count self) then
          (self, Ok (false, MsgMaxTrades (_today_trades self)))
        else if negb (_check_trade_interval self now) then
          (self, Ok (false, MsgTradeInterval (_get_interval_remaining self now)))
        else (self, Ok (true, MsgOK))
    end.

Definition calculate_lot_size (self : t) (balance stop_loss_pips : Q) : result Q :=
  let risk_amount := balance * risk_per_trade self in
  let? lot_size := pydiv risk_amount (stop_loss_pips * pip_dollar_value self) in
  let lot_size := py_round2 lot_size in
  Ok (Qmax 0.01 (Qmin lot_size 100)).

Definition record_trade (self : t) (now profit : Q) : t :=
  let today_loss :=
    if profit <? 0 then _today_loss self + Qabs profit else _today_loss self in
  with_state self (_starting_balance self) (_highest_balance self)
    (_today_starting self) today_loss (_today_trades self + 1)%Z (Some now)
    (_bot_stopped self).

Definition reset_daily (self : t) (new_balance : Q) : t :=
  with_state self (_starting_balance self) (_highest_balance self)
    new_balance 0 0%Z (_last_trade_time self) (_bot_stopped self).

Definition stop_bot (self : t) : t := set_bot_stopped self.

Definition is_stopped (self : t) : bool := _bot_stopped self.

(** The calls the orchestrator makes on a controller. *)
Inductive Op : Type :=
| Initialize (balance : Q) (db : option TodayStats)
| UpdateBalance (current_balance : Q)
| CanTrade (now : Q)
| RecordTrade (now profit : Q)
| ResetDaily (new_balance : Q)
| StopBot.

(** A call that raises leaves the attributes as they were. *)
Definition step (self : t) (op : Op) : t :=
  match op with
  | Initialize balance db => initialize self balance db
  | UpdateBalance b => update_balance self b
  | CanTrade now => fst (can_trade self now)
  | RecordTrade now profit => record_trade self now profit
  | ResetDaily b => reset_daily self b
  | StopBot => stop_bot self
  end.

Definition run (self : t) (ops : list Op) : t := fold_left step ops self.

(** The calls made within one trading day of a running controller: neither
    the start-up [initialize] nor the rollover [reset_daily]. *)
Definition intraday (op : Op) : bool :=
  match op with
  | Initialize _ _ | ResetDaily _ => false
  | _ => true
  end.

Definition is_initialize (op : Op) : bool :=
  match op with
  | Initialize _ _ => true
  | _ => false
  end.

(** The realized daily loss has reached the daily limit. *)
Definition daily_limit_reached (self : t) : Prop :=
  _today_starting self * max_daily_loss self <= _today_loss self.

(** An intraday call that is not a balance update reporting a balance
    strictly between the day's start minus the limit and the day's start. *)
Definition keeps_daily_limit (self : t) (op : Op) : Prop :=
  match op with
  | Initialize _ _ | ResetDaily _ => False
  | UpdateBalance b =>
      _today_starting self <= b \/
      b <= _today_starting self - _today_starting self * max_daily_loss self
  | _ => True
  end.

(** The calls that leave the time of the last trade alone. *)
Definition keeps_last_trade (op : Op) : bool :=
  match op with
  | Initialize _ _ | RecordTrade _ _ => false
  | _ => true
  end.

End RiskController.

(** ** position_manager.py

    The execution venue is the function [order_send] the placing calls are
    given; a stop-loss modification [monitor_position] asks for is recorded
    in its outcome. *)

Module DataCollector.
(** The buffers of the collector the position manager reads. The collector
    is shared with the main loop, which appends to them on every poll. *)
Record t : Type := mk {
  _tick_buffer : list MarketTick.t;
  _volume_buffer : list Q
}.

Definition get_volume_ema (self : t) (period : nat) : Q :=
  if (List.length (_volume_buffer self) <? 2)%nat then 0
  else np_mean (last_n period (_volume_buffer self)).

Definition get_recent_ticks (self : t) (count : nat) : list MarketTick.t :=
  last_n count (_tick_buffer self).

(** A bar as [mt5.copy_rates_range] and [mt5.copy_rates_from_pos] return
    it. *)
Record RateBar : Type := mkRateBar {
  rate_high : Q;
  rate_low : Q;
  rate_close : Q;
  rate_tick_volume : Q
}.

(** [_calculate_vwap]; [bars] is the answer of [copy_rates_range] for the
    one-minute bars of the day. *)
Definition _calculate_vwap (bars : result (option (list RateBar))) : Q :=
  match bars with
  | Raise _ => 0
  | Ok None | Ok (Some []) => 0
  | Ok (Some rates) =>
      let typical_price :=
        fun b => (rate_high b + rate_low b + rate_close b) / 3 in
      let pv := map (fun b => typical_price b * rate_tick_volume b) rates in
      let total_volume := py_sum (map rate_tick_volume rates) in
      if 0 <? total_volume then py_sum pv / total_volume else 0
  end.

(** [_get_swing_levels]; [bars] is the answer of [copy_rates_from_pos] for
    the last five daily bars. *)
Definition _get_swing_levels (bars : result (option (list RateBar))) : Q * Q :=
  match bars with
  | Raise _ => (0, 0)
  | Ok None | Ok (Some []) => (0, 0)
  | Ok (Some (b :: rates)) =>
      (py_max (rate_high b) (map rate_high rates),
       py_min (rate_low b) (map rate_low rates))
  end.

Definition _calculate_fibonacci (swing_high swing_low : Q) : dict Q :=
  if (swing_high =? 0) || (swing_low =? 0) then []
  else
    let diff := swing_high - swing_low in
    [("0.236", swing_high - diff * 0.236);
     ("0.382", swing_high - diff * 0.382);
     ("0.5", swing_high - diff * 0.5);
     ("0.618", swing_high - diff * 0.618);
     ("0.786", swing_high - diff * 0.786)]%string.
End DataCollector.

Module Position.
Record t : Type := mk {
  ticket : Z;
  symbol : string;
  direction : Direction;
  volume : Q;
  entry_price : Q;
  current_price : Q;
  stop_loss : Q;
  take_profit : Q;
  profit : Q;
  pips : Q;
  entry_time : Q;
  magic : Z;
  zone_type : string;
  score : Q
}.

(** The same position with another stop price. *)
Definition with_stop_loss (p : t) (stop : Q) : t :=
  mk (ticket p) (symbol p) (direction p) (volume p) (entry_price p)
    (current_price p) stop (take_profit p) (profit p) (pips p) (entry_time p)
    (magic p) (zone_type p) (score p).
End Position.

Module Terminal.
(** A position as [mt5.positions_get] reports it. *)
Record BrokerPosition : Type := mkBrokerPosition {
  pos_ticket : Z;
  pos_symbol : string;
  pos_is_buy : bool;
  pos_volume : Q;
  pos_price_open : Q;
  pos_sl : Q;
  pos_tp : Q;
  pos_profit : Q;
  pos_time : Q;
  pos_magic : Z
}.

(** What the terminal and the clock answer during one polling tick:
    [snapshot] is the market data the main loop collected for the tick,
    [copy_ticks_range] the volumes of the ticks of the last ten seconds,
    [symbol_info_tick] the current bid and ask, [positions_get] the open
    positions of the symbol. *)
Record t : Type := mk {
  now : Q;
  snapshot : MarketData.t;
  copy_ticks_range : result (option (list Q));
  symbol_info_tick : result (option (Q * Q));
  positions_get : option (list BrokerPosition)
}.

(** The same answers around another snapshot. *)
Definition with_snapshot (terminal : t) (market_data : MarketData.t) : t :=
  mk (now terminal) market_data (copy_ticks_range terminal)
    (symbol_info_tick terminal) (positions_get terminal).
End Terminal.

Module OrderSend.
(** The request dictionary of [mt5.order_send]; a key the caller leaves out
    is [None]. [order_type] is [true] for a buy order. *)
Inductive Action : Set := TRADE_ACTION_DEAL | TRADE_ACTION_SLTP.

Record Request : Type := mkRequest {
  action : Action;
  symbol : string;
  volume : option Q;
  order_type : option bool;
  position : option Z;
  price : option Q;
  sl : option Q;
  tp : option Q;
  deviation : option Z;
  magic : option Z;
  comment : option string
}.

(** The answer of the terminal, [None] when it gives none. *)
Record Result : Type := mkResult {
  retcode : Z;
  order : Z
}.

Definition TRADE_RETCODE_DONE : Z := 10009.

Definition done (answer : option Result) : bool :=
  match answer with
  | None => false
  | Some r => (retcode r =? TRADE_RETCODE_DONE)%Z
  end.
End OrderSend.

Module PositionManager.

Record Meta : Type := mkMeta {
  meta_zone_type : string;
  meta_score : Q;
  meta_confidence : Q
}.

Record t : Type := mk {
  collector : option DataCollector.t;
  symbol : string;
  magic_number : Z;
  deviation : Z;
  max_hold_minutes : Q;
  volume_drop_threshold : Q;
  spread_widen_threshold : Q;
  price_stall_pips : Q;
  ema_period : Z;
  pip_value : Q;
  _position_entry_times : list (Z * Q);
  _position_meta : list (Z * Meta);
  _volume_history : list Q;
  _spread_history : list Q
}.

(** [__init__] with the defaults of the configuration. *)
Definition __init__ (collector : option DataCollector.t) : t :=
  {| collector := collector;
     symbol := "EURUSD";
     magic_number := 123456;
     deviation := 10;
     max_hold_minutes := 15;
     volume_drop_threshold := 0.70;
     spread_widen_threshold := 1.50;
     price_stall_pips := 2;
     ema_period := 50;
     pip_value := 0.0001;
     _position_entry_times := [];
     _position_meta := [];
     _volume_history := [];
     _spread_history := [] |}.

Definition with_history (self : t) (volumes spreads : list Q) : t :=
  {| collector := collector self;
     symbol := symbol self;
     magic_number := magic_number self;
     deviation := deviation self;
     max_hold_minutes := max_hold_minutes self;
     volume_drop_threshold := volume_drop_threshold self;
     spread_widen_threshold := spread_widen_threshold self;
     price_stall_pips := price_stall_pips self;
     ema_period := ema_period self;
     pip_value := pip_value self;
     _position_entry_times := _position_entry_times self;
     _position_meta := _position_meta self;
     _volume_history := volumes;
     _spread_history := spreads |}.

Fixpoint ticket_get {V : Type} (d : list (Z * V)) (k : Z) : option V :=
  match d with
  | [] => None
  | (k', v) :: d' => if (k' =? k)%Z then Some v else ticket_get d' k
  end.

(** The body of the loop of [get_open_positions] for one broker position
    that carries the magic number of the bot. *)
Definition position_of_broker (self : t) (terminal : Terminal.t)
  (pos : Terminal.BrokerPosition) : result Position.t :=
  let direction := if Terminal.pos_is_buy pos then LONG else SHORT in
  match Terminal.symbol_info_tick terminal with
  | Raise e => Raise e
  | Ok None => Raise AttributeError
  | Ok (Some (bid, ask)) =>
      let current_price := match direction with LONG => bid | SHORT => ask end in
      let? pips :=
        match direction with
        | LONG => pydiv (current_price - Terminal.pos_price_open pos) (pip_value self)
        | SHORT => pydiv (Terminal.pos_price_open pos - current_price) (pip_value self)
        end in
      let entry_time :=
        match ticket_get (_position_entry_times self) (Terminal.pos_ticket pos) with
        | Some time => time
        | None => Terminal.pos_time pos
        end in
      let meta := ticket_get (_position_meta self) (Terminal.pos_ticket pos) in
      Ok {| Position.ticket := Terminal.pos_ticket pos;
            Position.symbol := Terminal.pos_symbol pos;
            Position.direction := direction;
            Position.volume := Terminal.pos_volume pos;
            Position.entry_price := Terminal.pos_price_open pos;
            Position.current_price := current_price;
            Position.stop_loss := Terminal.pos_sl pos;
            Position.take_profit := Terminal.pos_tp pos;
            Position.profit := Terminal.pos_profit pos;
            Position.pips := pips;
            Position.entry_time := entry_time;
            Position.magic := Terminal.pos_magic pos;
            Position.zone_type :=
              match meta with Some m => meta_zone_type m | None => ""%string end;
            Position.score :=
              match meta with Some m => meta_score m | None => 0 end |}
  end.

Fixpoint open_positions_loop (self : t) (terminal : Terminal.t)
  (positions : list Terminal.BrokerPosition) : result (list Position.t) :=
  match positions with
  | [] => Ok []
  | pos :: positions' =>
      if negb (Terminal.pos_magic pos =? magic_number self)%Z then
        open_positions_loop self terminal positions'
      else
        let? p := position_of_broker self terminal pos in
        let? ps := open_positions_loop self terminal positions' in
        Ok (p :: ps)
  end.

Definition get_open_positions (self : t) (terminal : Terminal.t)
  : result (list Position.t) :=
  match Terminal.positions_get terminal with
  | None => Ok []
  | Some positions => open_positions_loop self terminal positions
  end.

Definition _get_current_volume (self : t) (terminal : Terminal.t) : Q :=
  match Terminal.copy_ticks_range terminal with
  | Ok None | Ok (Some []) => 0
  | Ok (Some volumes) => py_sum volumes
  | Raise _ =>
      match collector self with
      | Some c => DataCollector.get_volume_ema c 10
      | None => 0
      end
  end.

Definition _get_current_spread (self : t) (terminal : Terminal.t) : Q :=
  match Terminal.symbol_info_tick terminal with
  | Ok (Some (bid, ask)) => ask - bid
  | Ok None => 0
  | Raise _ => 0
  end.

Definition _check_volume_drop (self : t) : bool :=
  if (List.length (_volume_history self) <? 20)%nat then false
  else
    let recent := np_mean (last_n 5 (_volume_history self)) in
    let average :=
      if (50 <=? List.length (_volume_history self))%nat
      then np_mean (last_n 50 (_volume_history self))
      else np_mean (_volume_history self) in
    (0 <? average) && (recent <? average * volume_drop_threshold self).

Definition _check_spread_widening (self : t) : bool :=
  if (List.length (_spread_history self) <? 20)%nat then false
  else
    let current := List.last (_spread_history self) 0 in
    let average :=
      if (50 <=? List.length (_spread_history self))%nat
      then np_mean (last_n 50 (_spread_history self))
      else np_mean (_spread_history self) in
    (0 <? average) && (average * spread_widen_threshold self <? current).

Definition _check_price_stall (self : t) : bool :=
  let recent_ticks :=
    match collector self with
    | Some c => DataCollector.get_recent_ticks c 5
    | None => []
    end in
  if (List.length recent_ticks <? 5)%nat then false
  else
    match map MarketTick.bid recent_ticks with
    | [] => false
    | p :: prices =>
        let price_range := py_max p prices - py_min p prices in
        let stall_threshold := price_stall_pips self * pip_value self in
        price_range <? stall_threshold
    end.

(** [detect_exhaustion] appends the current volume and spread to the
    histories, keeps their last hundred values and runs the three checks;
    the position it is given is not read. *)
Definition detect_exhaustion (self : t) (position : Position.t)
  (terminal : Terminal.t) : bool * t :=
  let current_volume := _get_current_volume self terminal in
  let current_spread := _get_current_spread self terminal in
  let self' :=
    with_history self
      (last_n 100 (_volume_history self ++ [current_volume]))
      (last_n 100 (_spread_history self ++ [current_spread])) in
  let volume_exhausted := _check_volume_drop self' in
  let spread_exhausted := _check_spread_widening self' in
  let price_stalled := _check_price_stall self' in
  if volume_exhausted then (true, self')
  else if spread_exhausted then (true, self')
  else if price_stalled then (true, self')
  else (false, self').

Definition check_time_limit (self : t) (position : Position.t) (now : Q) : bool :=
  let elapsed := now - Position.entry_time position in
  let max_time := max_hold_minutes self * 60 in
  max_time <=? elapsed.

(** The stop-loss [_trail_stop] asks the terminal to set, if any; [if
    new_sl:] also skips a stop of zero. *)
Definition _trail_stop (self : t) (position : Position.t) : option Q :=
  let new_sl :=
    match Position.direction position with
    | LONG =>
        let breakeven := Position.entry_price position + 5 * pip_value self in
        if Position.stop_loss position <? breakeven then Some breakeven else None
    | SHORT =>
        let breakeven := Position.entry_price position - 5 * pip_value self in
        if breakeven <? Position.stop_loss position then Some breakeven else None
    end in
  match new_sl with
  | Some sl => if sl =? 0 then None else Some sl
  | None => None
  end.

Record Outcome : Type := mkOutcome {
  manager : t;                        (* the manager after the call *)
  close_reason : result (option string);
  sl_request : option Q               (* stop-loss modification sent *)
}.

Definition monitor_position (self : t) (position : Position.t)
  (terminal : Terminal.t) : Outcome :=
  let '(exhausted, self') := detect_exhaustion self position terminal in
  if exhausted then mkOutcome self' (Ok (Some "EXHAUSTION"%string)) None
  else if check_time_limit self' position (Terminal.now terminal) then
    mkOutcome self' (Ok (Some "TIME_LIMIT"%string)) None
  else
    match get_open_positions self' terminal with
    | Raise e => mkOutcome self' (Raise e) None
    | Ok current_positions =>
        if negb (existsb
                   (fun p => (Position.ticket p =? Position.ticket position)%Z)
                   current_positions)
        then mkOutcome self' (Ok (Some "STOP_LOSS"%string)) None
        else
          mkOutcome self' (Ok None)
            (if 15 <=? Position.pips position
             then _trail_stop self' position else None)
    end.

Definition set_pip_value (self : t) (pip : Q) : t :=
  {| collector := collector self;
     symbol := symbol self;
     magic_number := magic_number self;
     deviation := deviation self;
     max_hold_minutes := max_hold_minutes self;
     volume_drop_threshold := volume_drop_threshold self;
     spread_widen_threshold := spread_widen_threshold self;
     price_stall_pips := price_stall_pips self;
     ema_period := ema_period self;
     pip_value := pip;
     _position_entry_times := _position_entry_times self;
     _position_meta := _position_meta self;
     _volume_history := _volume_history self;
     _spread_history := _spread_history self |}.

Definition with_tracking (self : t) (entry_times : list (Z * Q))
  (meta : list (Z * Meta)) : t :=
  {| collector := collector self;
     symbol := symbol self;
     magic_number := magic_number self;
     deviation := deviation self;
     max_hold_minutes := max_hold_minutes self;
     volume_drop_threshold := volume_drop_threshold self;
     spread_widen_threshold := spread_widen_threshold self;
     price_stall_pips := price_stall_pips self;
     ema_period := ema_period self;
     pip_value := pip_value self;
     _position_entry_times := entry_times;
     _position_meta := meta;
     _volume_history := _volume_history self;
     _spread_history := _spread_history self |}.

(** [d[k] = v]: the value of an existing key is replaced in place, a new key
    goes to the end. *)
Fixpoint ticket_set {V : Type} (d : list (Z * V)) (k : Z) (v : V) : list (Z * V) :=
  match d with
  | [] => [(k, v)]
  | (k', v') :: d' =>
      if (k' =? k)%Z then (k, v) :: d' else (k', v') :: ticket_set d' k v
  end.

(** [d.pop(k, None)]. *)
Definition ticket_pop {V : Type} (d : list (Z * V)) (k : Z) : list (Z * V) :=
  filter (fun kv => negb (fst kv =? k)%Z) d.

(** [execute_signal] returns the manager after the call and the ticket, if
    the order went through; [order_send] is the terminal answering the
    request. The price is read from the current tick, whose absence raises
    [AttributeError] before anything is sent. *)
Definition execute_signal (self : t) (signal : TradeSignal.t) (lot_size : Q)
  (terminal : Terminal.t)
  (order_send : OrderSend.Request -> option OrderSend.Result)
  : t * result (option Z) :=
  match Terminal.symbol_info_tick terminal with
  | Raise e => (self, Raise e)
  | Ok None => (self, Raise AttributeError)
  | Ok (Some (bid, ask)) =>
      let '(order_type, price) :=
        match TradeSignal.direction signal with
        | LONG => (true, ask)
        | SHORT => (false, bid)
        end in
      let request :=
        {| OrderSend.action := OrderSend.TRADE_ACTION_DEAL;
           OrderSend.symbol := symbol self;
           OrderSend.volume := Some lot_size;
           OrderSend.order_type := Some order_type;
           OrderSend.position := None;
           OrderSend.price := Some price;
           OrderSend.sl := Some (TradeSignal.stop_loss signal);
           OrderSend.tp := Some 0;
           OrderSend.deviation := Some (deviation self);
           OrderSend.magic := Some (magic_number self);
           OrderSend.comment :=
             Some ("IOFAE_" ++
                   substring 0 10
                     (ExecutionZone.zone_type (TradeSignal.zone signal)))%string |} in
      match order_send request with
      | None => (self, Ok None)
      | Some answer =>
          if negb (OrderSend.retcode answer =? OrderSend.TRADE_RETCODE_DONE)%Z
          then (self, Ok None)
          else
            let ticket := OrderSend.order answer in
            (with_tracking self
               (ticket_set (_position_entry_times self) ticket
                  (Terminal.now terminal))
               (ticket_set (_position_meta self) ticket
                  {| meta_zone_type :=
                       ExecutionZone.zone_type (TradeSignal.zone signal);
                     meta_score := ExecutionZone.score (TradeSignal.zone signal);
                     meta_confidence := TradeSignal.confidence signal |}),
             Ok (Some ticket))
      end
  end.

(** [close_position] returns the manager after the call and whether the
    closing order went through. *)
Definition close_position (self : t) (position : Position.t) (reason : string)
  (terminal : Terminal.t)
  (order_send : OrderSend.Request -> option OrderSend.Result)
  : t * result bool :=
  match Terminal.symbol_info_tick terminal with
  | Raise e => (self, Raise e)
  | Ok None => (self, Raise AttributeError)
  | Ok (Some (bid, ask)) =>
      let '(order_type, price) :=
        match Position.direction position with
        | LONG => (false, bid)
        | SHORT => (true, ask)
        end in
      let request :=
        {| OrderSend.action := OrderSend.TRADE_ACTION_DEAL;
           OrderSend.symbol := symbol self;
           OrderSend.volume := Some (Position.volume position);
           OrderSend.order_type := Some order_type;
           OrderSend.position := Some (Position.ticket position);
           OrderSend.price := Some price;
           OrderSend.sl := None;
           OrderSend.tp := None;
           OrderSend.deviation := Some (deviation self);
           OrderSend.magic := Some (magic_number self);
           OrderSend.comment := Some ("CLOSE_" ++ substring 0 8 reason)%string |} in
      if negb (OrderSend.done (order_send request)) then (self, Ok false)
      else
        (with_tracking self
           (ticket_pop (_position_entry_times self) (Position.ticket position))
           (ticket_pop (_position_meta self) (Position.ticket position)),
         Ok true)
  end.

Definition modify_stop_loss (self : t) (position : Position.t) (new_sl : Q)
  (order_send : OrderSend.Request -> option OrderSend.Result) : bool :=
  let request :=
    {| OrderSend.action := OrderSend.TRADE_ACTION_SLTP;
       OrderSend.symbol := symbol self;
       OrderSend.volume := None;
       OrderSend.order_type := None;
       OrderSend.position := Some (Position.ticket position);
       OrderSend.price := None;
       OrderSend.sl := Some new_sl;
       OrderSend.tp := Some (Position.take_profit position);
       OrderSend.deviation := None;
       OrderSend.magic := None;
       OrderSend.comment := None |} in
  OrderSend.done (order_send request).

End PositionManager.

(** ** core/signal_generator.py

    The write of the winning zone to the database and the log lines are
    events for the collaborators and are not modelled. *)

Module SignalGenerator.

Record Bar : Type := mkBar {
  bar_open : Q;
  bar_high : Q;
  bar_low : Q;
  bar_close : Q
}.

(** The clock and the terminal during one signal-generation attempt:
    [now] is the timestamp, [time_of_day] its seconds since midnight,
    [symbol_select s] the answer of [mt5.symbol_select(s, True)],
    [copy_rates_m1 s] the last ten one-minute bars of [s], [copy_rates_d1]
    the daily bar of the previous day of the traded symbol. *)
Record Terminal : Type := mkTerminal {
  now : Q;
  time_of_day : Q;
  symbol_select : string -> result bool;
  copy_rates_m1 : string -> result (option (list Bar));
  copy_rates_d1 : result (option (list Bar))
}.

Record t : Type := mk {
  score_calc : ScoreCalculator.t;
  symbol : string;
  scan_range_pips : Q;
  min_score : Q;
  entry_offset_pips : Q;
  stop_loss_pips : Q;
  correlation_enabled : bool;
  dxy_symbol : string;
  pip_value : Q;
  stop_hunt_start : Q;
  stop_hunt_end : Q;
  (* config['blackout_periods']: the parsed start and end of each period,
     or [None] where the entry does not parse *)
  blackout_periods : list (option (Q * Q));
  (* config['sessions']['active_sessions_only'] *)
  active_sessions_only : bool
}.

(** [__init__] with the defaults of the configuration. *)
Definition __init__ (score_calculator : ScoreCalculator.t) : t :=
  {| score_calc := score_calculator;
     symbol := "EURUSD";
     scan_range_pips := 20;
     min_score := 90;
     entry_offset_pips := 7;
     stop_loss_pips := 10;
     correlation_enabled := true;
     dxy_symbol := "USDX";
     pip_value := 0.0001;
     stop_hunt_start := 8 * 3600;
     stop_hunt_end := 8 * 3600 + 30 * 60;
     blackout_periods := [];
     active_sessions_only := true |}.

Definition with_dxy_symbol (self : t) (dxy : string) : t :=
  {| score_calc := score_calc self;
     symbol := symbol self;
     scan_range_pips := scan_range_pips self;
     min_score := min_score self;
     entry_offset_pips := entry_offset_pips self;
     stop_loss_pips := stop_loss_pips self;
     correlation_enabled := correlation_enabled self;
     dxy_symbol := dxy;
     pip_value := pip_value self;
     stop_hunt_start := stop_hunt_start self;
     stop_hunt_end := stop_hunt_end self;
     blackout_periods := blackout_periods self;
     active_sessions_only := active_sessions_only self |}.

Definition neutral_details (status : string) : TradeSignal.CorrelationResult :=
  {| TradeSignal.confirmed := true;
     TradeSignal.status := status;
     TradeSignal.dxy_trend := None;
     TradeSignal.dxy_change := None;
     TradeSignal.dxy_change_pct := None |}.

Definition dxy_alternatives : list string :=
  ["USDX"; "DXY"; "DX-SEP24"; "DX"]%string.

(** The loop over the alternative symbols: the first one the terminal
    selects, if any. *)
Fixpoint first_available (terminal : Terminal) (alternatives : list string)
  : result (option string) :=
  match alternatives with
  | [] => Ok None
  | alt :: alternatives' =>
      let? selected := symbol_select terminal alt in
      if selected then Ok (Some alt) else first_available terminal alternatives'
  end.

Definition trend_of (dxy_change : Q) : string :=
  if 0.001 <? dxy_change then "UP"
  else if dxy_change <? - 0.001 then "DOWN"
  else "FLAT".

Definition verdict (direction : Direction) (dxy_trend : string) : string * bool :=
  match direction with
  | LONG =>
      if String.eqb dxy_trend "DOWN" then ("CONFIRMED"%string, true)
      else if String.eqb dxy_trend "FLAT" then ("NEUTRAL"%string, true)
      else ("CONFLICTING"%string, false)
  | SHORT =>
      if String.eqb dxy_trend "UP" then ("CONFIRMED"%string, true)
      else if String.eqb dxy_trend "FLAT" then ("NEUTRAL"%string, true)
      else ("CONFLICTING"%string, false)
  end.

(** The part of the [try] block of [_check_correlation] that follows the
    selection of the symbol [dxy]. *)
Definition correlation_of_bars (terminal : Terminal) (direction : Direction)
  (dxy : string) : result TradeSignal.CorrelationResult :=
  let? dxy_bars := copy_rates_m1 terminal dxy in
  match dxy_bars with
  | None => Ok (neutral_details "NO_DATA")
  | Some bars =>
      if (List.length bars <? 5)%nat then Ok (neutral_details "NO_DATA")
      else
        let dxy_open := bar_open (List.hd (mkBar 0 0 0 0) bars) in
        let dxy_close := bar_close (List.last bars (mkBar 0 0 0 0)) in
        let dxy_change := dxy_close - dxy_open in
        let dxy_change_pct :=
          if dxy_open =? 0 then None else Some (dxy_change / dxy_open * 100) in
        let dxy_trend := trend_of dxy_change in
        let '(status, confirmed) := verdict direction dxy_trend in
        Ok {| TradeSignal.confirmed := confirmed;
              TradeSignal.status := status;
              TradeSignal.dxy_trend := Some dxy_trend;
              TradeSignal.dxy_change := Some dxy_change;
              TradeSignal.dxy_change_pct := dxy_change_pct |}
  end.

(** [_check_correlation] returns the details and the generator, whose
    [dxy_symbol] an alternative may have replaced. *)
Definition _check_correlation (self : t) (direction : Direction)
  (terminal : Terminal) : TradeSignal.CorrelationResult * t :=
  if negb (correlation_enabled self) then (neutral_details "DISABLED", self)
  else
    match symbol_select terminal (dxy_symbol self) with
    | Raise _ => (neutral_details "ERROR", self)
    | Ok true =>
        match correlation_of_bars terminal direction (dxy_symbol self) with
        | Ok details => (details, self)
        | Raise _ => (neutral_details "ERROR", self)
        end
    | Ok false =>
        match first_available terminal dxy_alternatives with
        | Raise _ => (neutral_details "ERROR", self)
        | Ok None => (neutral_details "UNAVAILABLE", self)
        | Ok (Some alt) =>
            let self' := with_dxy_symbol self alt in
            match correlation_of_bars terminal direction alt with
            | Ok details => (details, self')
            | Raise _ => (neutral_details "ERROR", self')
            end
        end
    end.

Definition stop_hunt_signal (self : t) (terminal : Terminal)
  (direction : Direction) (level current_price stop : Q) (zone_type : string)
  (reason : TradeSignal.Reason) : TradeSignal.t :=
  let zone :=
    {| ExecutionZone.price := level;
       ExecutionZone.score := 92;
       ExecutionZone.direction := direction;
       ExecutionZone.score_breakdown := [("stop_hunt"%string, 92)];
       ExecutionZone.zone_type := zone_type;
       ExecutionZone.trigger_price := current_price;
       ExecutionZone.stop_loss := stop;
       ExecutionZone.confidence_level := "HIGH" |} in
  {| TradeSignal.symbol := symbol self;
     TradeSignal.timestamp := now terminal;
     TradeSignal.direction := direction;
     TradeSignal.zone := zone;
     TradeSignal.entry_price := current_price;
     TradeSignal.stop_loss := stop;
     TradeSignal.suggested_lot := 0.01;
     TradeSignal.confidence := 92;
     TradeSignal.correlation_confirmed := true;
     TradeSignal.correlation_details := TradeSignal.DetailsStopHunt;
     TradeSignal.reason := reason |}.

(** The [try] block of [_check_stop_hunt_pattern]. *)
Definition stop_hunt_attempt (self : t) (market_data : MarketData.t)
  (terminal : Terminal) : result (option TradeSignal.t) :=
  let? daily_bars := copy_rates_d1 terminal in
  match daily_bars with
  | None | Some [] => Ok None
  | Some (bar :: _) =>
      let yesterday_high := bar_high bar in
      let yesterday_low := bar_low bar in
      let current_price := MarketData.bid market_data in
      if yesterday_high + 5 * pip_value self <? current_price then
        let? breakout_pips := pydiv (current_price - yesterday_high) (pip_value self) in
        if breakout_pips <=? 12 then
          Ok (Some (stop_hunt_signal self terminal SHORT yesterday_high
                      current_price (current_price + 15 * pip_value self)
                      "STOP_HUNT_HIGH" (TradeSignal.StopHuntAbove yesterday_high)))
        else Ok None
      else if current_price <? yesterday_low - 5 * pip_value self then
        let? breakout_pips := pydiv (yesterday_low - current_price) (pip_value self) in
        if breakout_pips <=? 12 then
          Ok (Some (stop_hunt_signal self terminal LONG yesterday_low
                      current_price (current_price - 15 * pip_value self)
                      "STOP_HUNT_LOW" (TradeSignal.StopHuntBelow yesterday_low)))
        else Ok None
      else Ok None
  end.

Definition _check_stop_hunt_pattern (self : t) (market_data : MarketData.t)
  (terminal : Terminal) : option TradeSignal.t :=
  let current_time := time_of_day terminal in
  if negb ((stop_hunt_start self <=? current_time)
           && (current_time <=? stop_hunt_end self)) then None
  else
    match stop_hunt_attempt self market_data terminal with
    | Ok signal => signal
    | Raise _ => None
    end.

Fixpoint blackout_loop (current_time : Q) (blackouts : list (option (Q * Q)))
  : bool :=
  match blackouts with
  | [] => false
  | None :: blackouts' => blackout_loop current_time blackouts'
  | Some (start, stop) :: blackouts' =>
      if (start <=? current_time) && (current_time <=? stop) then true
      else blackout_loop current_time blackouts'
  end.

Definition _is_blackout_period (self : t) (terminal : Terminal) : bool :=
  blackout_loop (time_of_day terminal) (blackout_periods self).

Definition _is_active_session (self : t) (terminal : Terminal) : bool :=
  if negb (active_sessions_only self) then true
  else
    let current_hour := Qfloor (time_of_day terminal / 3600) in
    let in_london := ((7 <=? current_hour) && (current_hour <? 16))%Z in
    let in_ny := ((12 <=? current_hour) && (current_hour <? 21))%Z in
    in_london || in_ny.

(** [scan_and_generate] returns the signal, if any, and the generator after
    the attempt. *)
Definition scan_and_generate (self : t) (market_data : MarketData.t)
  (terminal : Terminal) : M (option TradeSignal.t * t) :=
  if _is_blackout_period self terminal then ret (None, self)
  else if negb (_is_active_session self terminal) then ret (None, self)
  else
    match _check_stop_hunt_pattern self market_data terminal with
    | Some stop_hunt => ret (Some stop_hunt, self)
    | None =>
        best <- ScoreCalculator.get_best_zone (score_calc self) market_data
                  (min_score self) ;;
        match best with
        | None => ret (None, self)
        | Some best_zone =>
            let distance :=
              Qabs (ExecutionZone.price best_zone - MarketData.bid market_data) in
            if scan_range_pips self * pip_value self <? distance then
              ret (None, self)
            else
              let '(correlation_result, self') :=
                _check_correlation self (ExecutionZone.direction best_zone)
                  terminal in
              let adjusted_confidence :=
                if TradeSignal.confirmed correlation_result
                then ExecutionZone.score best_zone + 5
                else ExecutionZone.score best_zone - 15 in
              if adjusted_confidence <? min_score self then ret (None, self')
              else
                ret (Some
                       {| TradeSignal.symbol := symbol self';
                          TradeSignal.timestamp := now terminal;
                          TradeSignal.direction := ExecutionZone.direction best_zone;
                          TradeSignal.zone := best_zone;
                          TradeSignal.entry_price := ExecutionZone.trigger_price best_zone;
                          TradeSignal.stop_loss := ExecutionZone.stop_loss best_zone;
                          TradeSignal.suggested_lot := 0.01;
                          TradeSignal.confidence := adjusted_confidence;
                          TradeSignal.correlation_confirmed :=
                            TradeSignal.confirmed correlation_result;
                          TradeSignal.correlation_details :=
                            TradeSignal.DetailsOf correlation_result;
                          TradeSignal.reason :=
                            TradeSignal.ZoneReason
                              (ExecutionZone.zone_type best_zone)
                              (ExecutionZone.score best_zone)
                              (TradeSignal.status correlation_result) |},
                     self')
        end
    end.

(** The bars of the secondary instrument are missing or fewer than five. *)
Definition no_data (bars : result (option (list Bar))) : Prop :=
  bars = Ok None \/
  exists l, bars = Ok (Some l) /\ (List.length l < 5)%nat.

(** The secondary instrument is unavailable or returns no data: no symbol
    is selected, or the selected one has no bars. *)
Inductive secondary_unavailable (self : t) (terminal : Terminal) : Prop :=
| no_symbol :
    symbol_select terminal (dxy_symbol self) = Ok false ->
    first_available terminal dxy_alternatives = Ok None ->
    secondary_unavailable self terminal
| no_bars :
    symbol_select terminal (dxy_symbol self) = Ok true ->
    no_data (copy_rates_m1 terminal (dxy_symbol self)) ->
    secondary_unavailable self terminal
| no_bars_alternative (alt : string) :
    symbol_select terminal (dxy_symbol self) = Ok false ->
    first_available terminal dxy_alternatives = Ok (Some alt) ->
    no_data (copy_rates_m1 terminal alt) ->
    secondary_unavailable self terminal.
Definition set_pip_value (self : t) (pip : Q) : t :=
  {| score_calc := ScoreCalculator.set_pip_value (score_calc self) pip;
     symbol := symbol self;
     scan_range_pips := scan_range_pips self;
     min_score := min_score self;
     entry_offset_pips := entry_offset_pips self;
     stop_loss_pips := stop_loss_pips self;
     correlation_enabled := correlation_enabled self;
     dxy_symbol := dxy_symbol self;
     pip_value := pip;
     stop_hunt_start := stop_hunt_start self;
     stop_hunt_end := stop_hunt_end self;
     blackout_periods := blackout_periods self;
     active_sessions_only := active_sessions_only self |}.

End SignalGenerator.

(** ** main.py: the monitoring step of the trading loop

    [_monitor_positions] asks the position manager for the open positions,
    monitors each of them and, when a close reason comes back and the
    closing order goes through, writes the close to the database, records
    the trade in the risk controller and sends the notification. The
    database and the notifier are collaborators that may raise; the
    terminal is read anew for every position: [terminals 0] is what
    [get_open_positions] sees, [terminals (S i)] what the [i]-th position of
    the loop sees. *)

Module IOFAEBot.

Record t : Type := mk {
  position_mgr : PositionManager.t;
  risk_ctrl : RiskController.t;
  (* self.db.save_trade_close and self.notifier.notify_trade_close on a
     position and its close reason; [None] without the collaborator *)
  save_trade_close : option (Position.t -> string -> result unit);
  notify_trade_close : option (Position.t -> string -> result unit)
}.

Definition call_collaborator
  (collaborator : option (Position.t -> string -> result unit))
  (position : Position.t) (close_reason : string) : result unit :=
  match collaborator with
  | Some call => call position close_reason
  | None => Ok tt
  end.

(** The loop over the positions; an exception leaves the loop with the
    state reached so far. *)
Fixpoint monitor_loop (self : t) (terminals : nat -> Terminal.t) (tick : nat)
  (order_send : OrderSend.Request -> option OrderSend.Result)
  (positions : list Position.t) : t * result unit :=
  match positions with
  | [] => (self, Ok tt)
  | position :: positions' =>
      let terminal := terminals tick in
      let outcome :=
        PositionManager.monitor_position (position_mgr self) position terminal in
      let self1 :=
        mk (PositionManager.manager outcome) (risk_ctrl self)
          (save_trade_close self) (notify_trade_close self) in
      match PositionManager.close_reason outcome with
      | Raise e => (self1, Raise e)
      | Ok None => monitor_loop self1 terminals (S tick) order_send positions'
      | Ok (Some close_reason) =>
          if String.eqb close_reason "" then
            monitor_loop self1 terminals (S tick) order_send positions'
          else
            match PositionManager.close_position (position_mgr self1) position
                    close_reason terminal order_send with
            | (manager, Raise e) =>
                (mk manager (risk_ctrl self) (save_trade_close self)
                   (notify_trade_close self), Raise e)
            | (manager, Ok false) =>
                monitor_loop
                  (mk manager (risk_ctrl self) (save_trade_close self)
                     (notify_trade_close self))
                  terminals (S tick) order_send positions'
            | (manager, Ok true) =>
                match call_collaborator (save_trade_close self) position
                        close_reason with
                | Raise e =>
                    (mk manager (risk_ctrl self) (save_trade_close self)
                       (notify_trade_close self), Raise e)
                | Ok _ =>
                    let self2 :=
                      mk manager
                        (RiskController.record_trade (risk_ctrl self)
                           (Terminal.now terminal) (Position.profit position))
                        (save_trade_close self) (notify_trade_close self) in
                    match call_collaborator (notify_trade_close self) position
                            close_reason with
                    | Raise e => (self2, Raise e)
                    | Ok _ =>
                        monitor_loop self2 terminals (S tick) order_send
                          positions'
                    end
                end
            end
      end
  end.

Definition _monitor_positions (self : t) (terminals : nat -> Terminal.t)
  (order_send : OrderSend.Request -> option OrderSend.Result)
  : t * result unit :=
  match PositionManager.get_open_positions (position_mgr self) (terminals 0%nat)
  with
  | Raise e => (self, Raise e)
  | Ok positions => monitor_loop self terminals 1 order_send positions
  end.

End IOFAEBot.

(** ** backtests/offline_backtester.py: opening, exit check and closing

    The backtester decides exits on one-minute bars. Its pip size (0.0001)
    and pip value (10 per lot) are constants of [__init__]. *)

Module OfflineBacktester.

Record Bar : Type := mkBar {
  bar_time : Q;
  bar_open : Q;
  bar_high : Q;
  bar_low : Q;
  bar_close : Q;
  bar_tick_volume : Q
}.

Record t : Type := mk {
  entry_offset_pips : Q;
  stop_loss_pips : Q;
  max_hold_minutes : Q;
  risk_per_trade : Q;
  volume_drop : Q;
  spread_widen : Q
}.

Definition pip_value : Q := 0.0001.
Definition pip_dollar : Q := 10.

(** [__init__] with the defaults of the configuration. *)
Definition __init__ : t :=
  {| entry_offset_pips := 7;
     stop_loss_pips := 10;
     max_hold_minutes := 15;
     risk_per_trade := 0.01;
     volume_drop := 0.70;
     spread_widen := 1.50 |}.

(** The zone dictionary [_open_position] reads. *)
Record Zone : Type := mkZone {
  zone_direction : Direction;
  zone_price : Q;
  zone_score : Q;
  zone_type : string
}.

(** The position dictionary. *)
Record OpenPosition : Type := mkOpenPosition {
  pos_entry_time : Q;
  pos_direction : Direction;
  pos_entry_price : Q;
  pos_stop_loss : Q;
  pos_lot : Q;
  pos_score : Q;
  pos_zone_type : string;
  pos_zone_price : Q
}.

Record BacktestTrade : Type := mkBacktestTrade {
  trade_entry_time : Q;
  trade_exit_time : Q;
  trade_direction : Direction;
  trade_entry_price : Q;
  trade_exit_price : Q;
  trade_stop_loss : Q;
  trade_score : Q;
  trade_zone_type : string;
  trade_zone_price : Q;
  trade_pips : Q;
  trade_profit : Q;
  trade_lot : Q;
  trade_exit_reason : string;
  trade_holding_minutes : Q
}.

Definition _open_position (self : t) (zone : Zone) (bar : Bar) (balance : Q)
  : result OpenPosition :=
  let direction := zone_direction zone in
  let entry :=
    match direction with
    | LONG => zone_price zone - entry_offset_pips self * pip_value
    | SHORT => zone_price zone + entry_offset_pips self * pip_value
    end in
  let sl :=
    match direction with
    | LONG => entry - stop_loss_pips self * pip_value
    | SHORT => entry + stop_loss_pips self * pip_value
    end in
  let risk := balance * risk_per_trade self in
  let? raw := pydiv risk (stop_loss_pips self * pip_dollar) in
  let lot := Qmax 0.1 (Qmin (py_round2 raw) 5) in
  Ok {| pos_entry_time := bar_time bar;
        pos_direction := direction;
        pos_entry_price := entry;
        pos_stop_loss := sl;
        pos_lot := lot;
        pos_score := zone_score zone;
        pos_zone_type := zone_type zone;
        pos_zone_price := zone_price zone |}.

(** The pips of the position at the close of the bar. *)
Definition current_pips (pos : OpenPosition) (bar : Bar) : Q :=
  match pos_direction pos with
  | LONG => (bar_close bar - pos_entry_price pos) / pip_value
  | SHORT => (pos_entry_price pos - bar_close bar) / pip_value
  end.

(** [bars.iloc[idx-4:idx+1]]. *)
Definition last_five (bars : list Bar) (idx : nat) : list Bar :=
  firstn 5 (skipn (idx - 4) bars).

(** The three exhaustion checks of [_check_exit], in their order. *)
Definition exhaustion_exit (self : t) (bars : list Bar) (idx : nat)
  (vol_buf spread_buf : list Q) : option string :=
  let volume_exit :=
    if (50 <=? List.length vol_buf)%nat then
      let recent_vol := np_mean (last_n 10 vol_buf) in
      let avg_vol := np_mean vol_buf in
      (0 <? avg_vol) && (recent_vol <? avg_vol * volume_drop self)
    else false in
  let spread_exit :=
    if (50 <=? List.length spread_buf)%nat then
      let recent_spread := np_mean (last_n 5 spread_buf) in
      let avg_spread := np_mean spread_buf in
      (0 <? avg_spread) && (avg_spread * spread_widen self <? recent_spread)
    else false in
  let stall_exit :=
    if (5 <=? idx)%nat then
      match last_five bars idx with
      | [] => false
      | b :: last5 =>
          let price_range :=
            py_max (bar_high b) (map bar_high last5)
            - py_min (bar_low b) (map bar_low last5) in
          price_range <? 2 * pip_value
      end
    else false in
  if volume_exit then Some "EXHAUSTION_VOLUME"%string
  else if spread_exit then Some "EXHAUSTION_SPREAD"%string
  else if stall_exit then Some "EXHAUSTION_STALL"%string
  else None.

Definition is_long (direction : Direction) : bool :=
  match direction with
  | LONG => true
  | SHORT => false
  end.

Definition _check_exit (self : t) (pos : OpenPosition) (bar : Bar)
  (bars : list Bar) (idx : nat) (vol_buf spread_buf : list Q) : option string :=
  let direction := pos_direction pos in
  let sl := pos_stop_loss pos in
  if is_long direction && (bar_low bar <=? sl) then Some "STOP_LOSS"%string
  else if negb (is_long direction) && (sl <=? bar_high bar) then
    Some "STOP_LOSS"%string
  else
    let elapsed := (bar_time bar - pos_entry_time pos) / 60 in
    if max_hold_minutes self <=? elapsed then Some "TIME_LIMIT"%string
    else if 10 <=? current_pips pos bar then
      exhaustion_exit self bars idx vol_buf spread_buf
    else None.

Definition _close_position (self : t) (pos : OpenPosition) (bar : Bar)
  (reason : string) : BacktestTrade :=
  let direction := pos_direction pos in
  let exit_price :=
    if String.eqb reason "STOP_LOSS" then pos_stop_loss pos else bar_close bar in
  let pips :=
    match direction with
    | LONG => (exit_price - pos_entry_price pos) / pip_value
    | SHORT => (pos_entry_price pos - exit_price) / pip_value
    end in
  let profit := pips * pip_dollar * pos_lot pos in
  let holding := (bar_time bar - pos_entry_time pos) / 60 in
  {| trade_entry_time := pos_entry_time pos;
     trade_exit_time := bar_time bar;
     trade_direction := direction;
     trade_entry_price := pos_entry_price pos;
     trade_exit_price := exit_price;
     trade_stop_loss := pos_stop_loss pos;
     trade_score := pos_score pos;
     trade_zone_type := pos_zone_type pos;
     trade_zone_price := pos_zone_price pos;
     trade_pips := pips;
     trade_profit := profit;
     trade_lot := pos_lot pos;
     trade_exit_reason := reason;
     trade_holding_minutes := holding |}.

End OfflineBacktester.

(** ** The VWAP score on binary64 floats

    [_calculate_vwap_score] once more, on the floats of the interpreter and
    with the thresholds [__init__] sets. *)

Module Binary64.

Definition VWAP_CRITICAL : float := 0.003.
Definition VWAP_HIGH : float := 0.002.
Definition VWAP_LOW : float := 0.001.

Definition _calculate_vwap_score (VWAP_MAX price_level vwap : float) : float :=
  if (vwap =? 0)%float then 0%float
  else
    let distance_pct := (abs (price_level - vwap) / vwap)%float in
    if (VWAP_CRITICAL <=? distance_pct)%float then VWAP_MAX
    else if (VWAP_HIGH <=? distance_pct)%float then
      let base := (VWAP_MAX * 0.5)%float in
      let range_pct :=
        ((distance_pct - VWAP_HIGH) / (VWAP_CRITICAL - VWAP_HIGH))%float in
      (base + VWAP_MAX * 0.5 * range_pct)%float
    else if (VWAP_LOW <=? distance_pct)%float then
      let base := (VWAP_MAX * 0.17)%float in
      let range_pct :=
        ((distance_pct - VWAP_LOW) / (VWAP_HIGH - VWAP_LOW))%float in
      (base + VWAP_MAX * 0.33 * range_pct)%float
    else
      (distance_pct / VWAP_LOW * (VWAP_MAX * 0.17))%float.

End Binary64.

(** * Scenarios used by the examples *)

Module Scenario.

(** A generator whose draws are all one half, and one whose [n]-th draw is
    [n / (n + 1)]. *)
Definition constant_draws : RandomState :=
  {| draws := fun _ => 1 # 2; cursor := 0 |}.


(** A database that reports an average volume of 2000 at every level. *)
Definition deep_book : DOMLogger.t :=
  {| DOMLogger.get_avg_volume_at_level := fun _ _ _ _ => Ok 2000 |}.

Definition scorer : ScoreCalculator.t :=
  ScoreCalculator.__init__ ScoreCalculator.default_config None.

Definition scorer_with_db : ScoreCalculator.t :=
  ScoreCalculator.__init__ ScoreCalculator.default_config (Some deep_book).

(** Bid at the round number 1.0800, VWAP a hundred pips below, the 0.618
    retracement on the bid and a large delta. *)
Definition snapshot : MarketData.t :=
  {| MarketData.symbol := "EURUSD";
     MarketData.timestamp := 0;
     MarketData.bid := 1.0800;
     MarketData.ask := 1.0801;
     MarketData.spread := 0.0001;
     MarketData.spread_points := 10;
     MarketData.last_price := 1.0800;
     MarketData.tick_volume := 120;
     MarketData.open := 1.0795;
     MarketData.high := 1.0802;
     MarketData.low := 1.0794;
     MarketData.close := 1.0800;
     MarketData.volume := 120;
     MarketData.vwap := 1.0700;
     MarketData.bid_ask_delta := 9000;
     MarketData.dom_bids := [];
     MarketData.dom_asks := [];
     MarketData.swing_high := 1.0900;
     MarketData.swing_low := 1.0638;
     MarketData.fib_levels := [("0.618"%string, 1.0800)] |}.

(** A snapshot without VWAP, retracements or delta. *)
Definition quiet_snapshot : MarketData.t :=
  {| MarketData.symbol := "EURUSD";
     MarketData.timestamp := 0;
     MarketData.bid := 1.0800;
     MarketData.ask := 1.0801;
     MarketData.spread := 0.0001;
     MarketData.spread_points := 10;
     MarketData.last_price := 1.0800;
     MarketData.tick_volume := 0;
     MarketData.open := 0;
     MarketData.high := 0;
     MarketData.low := 0;
     MarketData.close := 1.0800;
     MarketData.volume := 0;
     MarketData.vwap := 0;
     MarketData.bid_ask_delta := 0;
     MarketData.dom_bids := [];
     MarketData.dom_asks := [];
     MarketData.swing_high := 0;
     MarketData.swing_low := 0;
     MarketData.fib_levels := [] |}.

(** A controller initialized with a balance of 1000 and no database. *)
Definition controller : RiskController.t :=
  RiskController.initialize
    (RiskController.__init__ RiskController.default_config) 1000 None.

(** Five recent ticks at the same bid. *)
Definition stalled_tick : MarketTick.t :=
  {| MarketTick.time := 0;
     MarketTick.bid := 1.0489;
     MarketTick.ask := 1.0490;
     MarketTick.spread := 0.0001;
     MarketTick.last := 1.0489;
     MarketTick.volume := 10;
     MarketTick.flags := 0 |}.

Definition stalled_collector : DataCollector.t :=
  {| DataCollector._tick_buffer :=
       [stalled_tick; stalled_tick; stalled_tick; stalled_tick; stalled_tick];
     DataCollector._volume_buffer := [10; 10; 10; 10; 10] |}.

(** A manager on its first tick: the histories are empty. *)
Definition fresh_manager : PositionManager.t :=
  PositionManager.__init__ (Some stalled_collector).

(** LONG from 1.0500 with the stop at 1.0490, eleven pips under water. *)
Definition long_position : Position.t :=
  {| Position.ticket := 1;
     Position.symbol := "EURUSD";
     Position.direction := LONG;
     Position.volume := 0.10;
     Position.entry_price := 1.0500;
     Position.current_price := 1.0489;
     Position.stop_loss := 1.0490;
     Position.take_profit := 0;
     Position.profit := -11;
     Position.pips := -11;
     Position.entry_time := 0;
     Position.magic := 123456;
     Position.zone_type := "INSTITUTIONAL_ROUND";
     Position.score := 92 |}.

Definition crossed_bar : MarketData.t :=
  {| MarketData.symbol := "EURUSD";
     MarketData.timestamp := 60;
     MarketData.bid := 1.0489;
     MarketData.ask := 1.0490;
     MarketData.spread := 0.0001;
     MarketData.spread_points := 10;
     MarketData.last_price := 1.0489;
     MarketData.tick_volume := 10;
     MarketData.open := 1.0495;
     MarketData.high := 1.0496;
     MarketData.low := 1.0489;
     MarketData.close := 1.0489;
     MarketData.volume := 50;
     MarketData.vwap := 1.0500;
     MarketData.bid_ask_delta := 0;
     MarketData.dom_bids := [];
     MarketData.dom_asks := [];
     MarketData.swing_high := 0;
     MarketData.swing_low := 0;
     MarketData.fib_levels := [] |}.

(** One minute after the entry the bar low is below the stop and the
    broker no longer lists the position. *)
Definition stopped_out_tick : Terminal.t :=
  {| Terminal.now := 60;
     Terminal.snapshot := crossed_bar;
     Terminal.copy_ticks_range := Ok (Some [10]);
     Terminal.symbol_info_tick := Ok (Some (1.0489, 1.0490));
     Terminal.positions_get := Some [] |}.

(** Five recent ticks at the bid 1.0502, seen by a manager on its first
    tick. *)
Definition steady_tick : MarketTick.t :=
  {| MarketTick.time := 0;
     MarketTick.bid := 1.0502;
     MarketTick.ask := 1.0503;
     MarketTick.spread := 0.0001;
     MarketTick.last := 1.0502;
     MarketTick.volume := 10;
     MarketTick.flags := 0 |}.

Definition steady_collector : DataCollector.t :=
  {| DataCollector._tick_buffer :=
       [steady_tick; steady_tick; steady_tick; steady_tick; steady_tick];
     DataCollector._volume_buffer := [10; 10; 10; 10; 10] |}.

Definition first_tick_manager : PositionManager.t :=
  PositionManager.__init__ (Some steady_collector).

(** LONG from 1.0500, two pips in profit and open at the broker. *)
Definition small_profit_position : Position.t :=
  {| Position.ticket := 2;
     Position.symbol := "EURUSD";
     Position.direction := LONG;
     Position.volume := 0.10;
     Position.entry_price := 1.0500;
     Position.current_price := 1.0502;
     Position.stop_loss := 1.0490;
     Position.take_profit := 0;
     Position.profit := 2;
     Position.pips := 2;
     Position.entry_time := 0;
     Position.magic := 123456;
     Position.zone_type := "INSTITUTIONAL_ROUND";
     Position.score := 92 |}.

Definition quiet_tick : Terminal.t :=
  {| Terminal.now := 60;
     Terminal.snapshot := quiet_snapshot;
     Terminal.copy_ticks_range := Ok (Some [10]);
     Terminal.symbol_info_tick := Ok (Some (1.0502, 1.0503));
     Terminal.positions_get :=
       Some [ {| Terminal.pos_ticket := 2;
                 Terminal.pos_symbol := "EURUSD";
                 Terminal.pos_is_buy := true;
                 Terminal.pos_volume := 0.10;
                 Terminal.pos_price_open := 1.0500;
                 Terminal.pos_sl := 1.0490;
                 Terminal.pos_tp := 0;
                 Terminal.pos_profit := 2;
                 Terminal.pos_time := 0;
                 Terminal.pos_magic := 123456 |} ] |}.

(** At 13:00 the terminal knows none of the dollar-index symbols. *)
Definition no_dollar_index : SignalGenerator.Terminal :=
  {| SignalGenerator.now := 46800;
     SignalGenerator.time_of_day := 46800;
     SignalGenerator.symbol_select := fun _ => Ok false;
     SignalGenerator.copy_rates_m1 := fun _ => Ok None;
     SignalGenerator.copy_rates_d1 := Ok None |}.

Definition generator : SignalGenerator.t :=
  SignalGenerator.__init__ scorer_with_db.

(** *** Scenarios of the further properties *)

(** The only 0.618 retracement, on the level 1.0800. *)
Definition one_retracement : dict Q := [("0.618"%string, 1.0800)].

(** A venue that fills every order under the ticket 2. *)
Definition filling_venue (request : OrderSend.Request) : option OrderSend.Result :=
  Some {| OrderSend.retcode := OrderSend.TRADE_RETCODE_DONE; OrderSend.order := 2 |}.

(** At 08:10 the previous day ranged from 1.0750 to 1.0850 and the bid is
    eight pips above that high. *)
Definition hunt_morning : SignalGenerator.Terminal :=
  {| SignalGenerator.now := 29400;
     SignalGenerator.time_of_day := 29400;
     SignalGenerator.symbol_select := fun _ => Ok false;
     SignalGenerator.copy_rates_m1 := fun _ => Ok None;
     SignalGenerator.copy_rates_d1 :=
       Ok (Some [SignalGenerator.mkBar 1.0800 1.0850 1.0750 1.0820]) |}.

Definition breakout_snapshot : MarketData.t :=
  {| MarketData.symbol := "EURUSD";
     MarketData.timestamp := 29400;
     MarketData.bid := 1.0858;
     MarketData.ask := 1.0859;
     MarketData.spread := 0.0001;
     MarketData.spread_points := 10;
     MarketData.last_price := 1.0858;
     MarketData.tick_volume := 200;
     MarketData.open := 1.0851;
     MarketData.high := 1.0859;
     MarketData.low := 1.0850;
     MarketData.close := 1.0858;
     MarketData.volume := 200;
     MarketData.vwap := 1.0830;
     MarketData.bid_ask_delta := 0;
     MarketData.dom_bids := [];
     MarketData.dom_asks := [];
     MarketData.swing_high := 1.0900;
     MarketData.swing_low := 1.0638;
     MarketData.fib_levels := [] |}.

(** The signal of that breakout. *)
Definition fade_signal : TradeSignal.t :=
  SignalGenerator.stop_hunt_signal generator hunt_morning SHORT 1.0850 1.0858
    (1.0858 + 15 * 0.0001) "STOP_HUNT_HIGH" (TradeSignal.StopHuntAbove 1.0850).

(** At 13:00 the dollar index has risen by half a point over the last five
    one-minute bars. *)
Definition dollar_rising : SignalGenerator.Terminal :=
  {| SignalGenerator.now := 46800;
     SignalGenerator.time_of_day := 46800;
     SignalGenerator.symbol_select := fun _ => Ok true;
     SignalGenerator.copy_rates_m1 := fun _ =>
       Ok (Some [SignalGenerator.mkBar 100 100.1 99.9 100.1;
                 SignalGenerator.mkBar 100.1 100.2 100 100.2;
                 SignalGenerator.mkBar 100.2 100.3 100.1 100.3;
                 SignalGenerator.mkBar 100.3 100.4 100.2 100.4;
                 SignalGenerator.mkBar 100.4 100.5 100.3 100.5]);
     SignalGenerator.copy_rates_d1 := Ok None |}.

(** LONG from 1.0500, sixteen pips in profit and open at the broker; the
    manager has no collector. *)
Definition winning_position : Position.t :=
  {| Position.ticket := 2;
     Position.symbol := "EURUSD";
     Position.direction := LONG;
     Position.volume := 0.10;
     Position.entry_price := 1.0500;
     Position.current_price := 1.0516;
     Position.stop_loss := 1.0490;
     Position.take_profit := 0;
     Position.profit := 16;
     Position.pips := 16;
     Position.entry_time := 0;
     Position.magic := 123456;
     Position.zone_type := "INSTITUTIONAL_ROUND";
     Position.score := 92 |}.

Definition blind_manager : PositionManager.t := PositionManager.__init__ None.

(** The position as the broker lists it on the quiet tick. *)
Definition listed_position : Terminal.BrokerPosition :=
  {| Terminal.pos_ticket := 2;
     Terminal.pos_symbol := "EURUSD";
     Terminal.pos_is_buy := true;
     Terminal.pos_volume := 0.10;
     Terminal.pos_price_open := 1.0500;
     Terminal.pos_sl := 1.0490;
     Terminal.pos_tp := 0;
     Terminal.pos_profit := 2;
     Terminal.pos_time := 0;
     Terminal.pos_magic := 123456 |}.

(** The quiet tick, a thousand seconds after the entry. *)
Definition late_tick : Terminal.t :=
  {| Terminal.now := 1000;
     Terminal.snapshot := quiet_snapshot;
     Terminal.copy_ticks_range := Terminal.copy_ticks_range quiet_tick;
     Terminal.symbol_info_tick := Terminal.symbol_info_tick quiet_tick;
     Terminal.positions_get := Terminal.positions_get quiet_tick |}.

(** Two daily bars and three one-minute bars of the collector. *)
Definition daily_bars : list DataCollector.RateBar :=
  [DataCollector.mkRateBar 1.0850 1.0750 1.0820 90000;
   DataCollector.mkRateBar 1.0900 1.0800 1.0880 80000].

Definition minute_bars : list DataCollector.RateBar :=
  [DataCollector.mkRateBar 1.0802 1.0798 1.0800 120;
   DataCollector.mkRateBar 1.0806 1.0800 1.0805 80;
   DataCollector.mkRateBar 1.0808 1.0803 1.0804 0].

(** A LONG zone at 1.0800 for the backtester and the bars around it. *)
Definition backtest_zone : OfflineBacktester.Zone :=
  {| OfflineBacktester.zone_direction := LONG;
     OfflineBacktester.zone_price := 1.0800;
     OfflineBacktester.zone_score := 92;
     OfflineBacktester.zone_type := "CONFLUENCE" |}.

Definition entry_bar : OfflineBacktester.Bar :=
  OfflineBacktester.mkBar 0 1.0795 1.0797 1.0792 1.0793 100.

Definition stop_bar : OfflineBacktester.Bar :=
  OfflineBacktester.mkBar 60 1.0790 1.0791 1.0782 1.0785 100.

End Scenario.

(** * Properties *)

(** ** Boolean comparisons on [Q] *)

Lemma Qltb_lt (x y : Q) : (x <? y) = true <-> x < y.
Proof.
  unfold Qltb. rewrite negb_true_iff. split; intro H.
  - apply Qnot_le_lt. intro Hle. apply Qle_bool_iff in Hle. congruence.
  - destruct (Qle_bool y x) eqn:E; [|reflexivity].
    apply Qle_bool_iff in E. exfalso. apply (Qlt_not_le _ _ H E).
Qed.

Lemma Qltb_ge (x y : Q) : (x <? y) = false <-> y <= x.
Proof.
  unfold Qltb. rewrite negb_false_iff. apply Qle_bool_iff.
Qed.

Lemma Qleb_gt (x y : Q) : (x <=? y) = false <-> y < x.
Proof.
  rewrite <- Qltb_lt. unfold Qltb. destruct (Qle_bool x y); simpl; intuition congruence.
Qed.

Lemma Qeqb_neq (x y : Q) : (x =? y) = false <-> ~ x == y.
Proof.
  split; intro H.
  - intro E. apply Qeq_bool_iff in E. congruence.
  - destruct (Qeq_bool x y) eqn:E; [|reflexivity].
    apply Qeq_bool_iff in E. contradiction.
Qed.

(** Turn the boolean comparisons among the hypotheses into propositions. *)
Ltac qprop :=
  repeat match goal with
  | H : Qltb _ _ = true |- _ => apply Qltb_lt in H
  | H : Qltb _ _ = false |- _ => apply Qltb_ge in H
  | H : Qle_bool _ _ = true |- _ => apply Qle_bool_iff in H
  | H : Qle_bool _ _ = false |- _ => apply Qleb_gt in H
  | H : Qeq_bool _ _ = true |- _ => apply Qeq_bool_iff in H
  | H : Qeq_bool _ _ = false |- _ => apply Qeqb_neq in H
  end.

(** Split on the condition of the first conditional of the goal. *)
Ltac qcase :=
  match goal with
  | |- context [if ?b then _ else _] =>
      let E := fresh "E" in destruct b eqn:E; qprop
  end.

Lemma div_unit_interval (a b : Q) :
  0 <= a -> a <= b -> 0 < b -> 0 <= a / b /\ a / b <= 1.
Proof.
  intros Ha Hab Hb. split.
  - apply Qle_shift_div_l; [assumption | lra].
  - apply Qle_shift_div_r; [assumption | lra].
Qed.

Lemma pydiv_nonzero (x y : Q) : ~ y == 0 -> pydiv x y = Ok (x / y).
Proof.
  intro H. unfold pydiv. apply Qeqb_neq in H. now rewrite H.
Qed.

Lemma pydiv_Ok (x y q : Q) : pydiv x y = Ok q -> ~ y == 0 /\ q = x / y.
Proof.
  unfold pydiv. destruct (y =? 0) eqn:E; [discriminate|].
  intro H. injection H as <-. apply Qeqb_neq in E. now split.
Qed.

(** ** Bounds of the score components *)

Section ComponentBounds.
Import ScoreCalculator.
Variable self : ScoreCalculator.t.
Hypothesis WF : well_formed self.

Lemma vwap_score_bounds (price_level vwap : Q) :
  0 <= vwap ->
  0 <= _calculate_vwap_score self price_level vwap /\
  _calculate_vwap_score self price_level vwap <= VWAP_MAX self.
Proof.
  intro Hv. pose proof (wf_vwap_max self WF) as HM.
  unfold _calculate_vwap_score.
  rewrite (wf_critical self WF), (wf_high self WF), (wf_low self WF).
  qcase; [lra|].
  assert (Hpos : 0 < vwap) by (destruct (Qlt_le_dec 0 vwap); [assumption | exfalso; apply E; lra]).
  assert (Hd : 0 <= Qabs (price_level - vwap) / vwap).
  { apply Qle_shift_div_l; [assumption|]. rewrite Qmult_0_l. apply Qabs_nonneg. }
  set (d := Qabs (price_level - vwap) / vwap) in *.
  cbv zeta. repeat qcase.
  - lra.
  - assert (0 <= (d - 0.002) / (0.003 - 0.002) /\ (d - 0.002) / (0.003 - 0.002) <= 1)
      by (apply div_unit_interval; lra).
    nra.
  - assert (0 <= (d - 0.001) / (0.002 - 0.001) /\ (d - 0.001) / (0.002 - 0.001) <= 1)
      by (apply div_unit_interval; lra).
    nra.
  - assert (0 <= d / 0.001 /\ d / 0.001 <= 1) by (apply div_unit_interval; lra).
    nra.
Qed.

Lemma round_number_score_bounds (price_level : Q) :
  exists round_score round_type,
    _calculate_round_number_score self price_level = Ok (round_score, round_type) /\
    0 <= round_score /\ round_score <= ROUND_MAX self.
Proof.
  pose proof (wf_round_max self WF) as HM.
  pose proof (wf_pip_value self WF) as Hpip.
  unfold _calculate_round_number_score.
  rewrite pydiv_nonzero by lra. cbn [bind_result]. cbv zeta.
  repeat match goal with
  | |- context [if ?b then _ else _] => destruct b eqn:?
  end; qprop; eexists _, _; (split; [reflexivity|]); try nra.
  match goal with
  | H : ?d <= 0.0010 |- _ =>
      assert (0 <= d / 0.0010 /\ d / 0.0010 <= 1)
        by (apply div_unit_interval; [apply Qabs_nonneg | lra | lra]);
      nra
  end.
Qed.

Lemma fib_weight_unit (level_name : string) :
  0 <= match dict_get fib_weights level_name with Some w => w | None => 0.5 end /\
  match dict_get fib_weights level_name with Some w => w | None => 0.5 end <= 1.
Proof.
  unfold fib_weights. cbn [dict_get].
  repeat match goal with
  | |- context [if ?b then _ else _] => destruct b
  end; split; lra.
Qed.

Lemma fib_loop_body_bounds (price_level : Q) (best : Q * string) (item : string * Q) :
  0 <= fst best /\ fst best <= FIB_MAX self ->
  exists best',
    fib_loop_body self price_level (FIB_PROXIMITY_PIPS self * pip_value self) best item
      = Ok best' /\
    0 <= fst best' /\ fst best' <= FIB_MAX self.
Proof.
  intros Hb. pose proof (wf_fib_max self WF) as HM.
  pose proof (wf_pip_value self WF) as Hpip.
  pose proof (wf_fib_proximity self WF) as Hprox.
  assert (Hthr : 0 < FIB_PROXIMITY_PIPS self * pip_value self) by nra.
  unfold fib_loop_body. destruct item as [level_name level_price].
  set (thr := FIB_PROXIMITY_PIPS self * pip_value self) in *.
  destruct (Qabs (price_level - level_price) <=? thr) eqn:E; qprop.
  - rewrite pydiv_nonzero by lra. cbn [bind_result]. cbv zeta.
    destruct (fib_weight_unit level_name) as [Hw0 Hw1].
    set (w := match dict_get fib_weights level_name with Some w => w | None => 0.5 end) in *.
    assert (Hr : 0 <= Qabs (price_level - level_price) / thr /\
                 Qabs (price_level - level_price) / thr <= 1)
      by (apply div_unit_interval; [apply Qabs_nonneg | assumption | assumption]).
    set (r := Qabs (price_level - level_price) / thr) in *.
    qcase.
    + eexists; split; [reflexivity|]. cbn [fst].
      assert (0 <= w * (1 - r) /\ w * (1 - r) <= 1) by nra.
      split.
      * rewrite <- Qmult_assoc. nra.
      * rewrite <- Qmult_assoc. nra.
    + eexists; split; [reflexivity | assumption].
  - eexists; split; [reflexivity | assumption].
Qed.

Lemma fib_loop_bounds (price_level : Q) (items : dict Q) :
  forall best,
    0 <= fst best /\ fst best <= FIB_MAX self ->
    exists best',
      fib_loop self price_level (FIB_PROXIMITY_PIPS self * pip_value self) items best
        = Ok best' /\
      0 <= fst best' /\ fst best' <= FIB_MAX self.
Proof.
  induction items as [|item items IH]; intros best Hb.
  - exists best. split; [reflexivity | assumption].
  - cbn [fib_loop].
    destruct (fib_loop_body_bounds price_level best item Hb) as (best1 & -> & Hb1).
    cbn [bind_result]. apply IH, Hb1.
Qed.

Lemma fibonacci_score_bounds (price_level : Q) (fib_levels : dict Q) :
  exists fib_score fib_level,
    _calculate_fibonacci_score self price_level fib_levels = Ok (fib_score, fib_level) /\
    0 <= fib_score /\ fib_score <= FIB_MAX self.
Proof.
  pose proof (wf_fib_max self WF) as HM.
  unfold _calculate_fibonacci_score. destruct fib_levels as [|item items].
  - exists 0, ""%string. split; [reflexivity | lra].
  - destruct (fib_loop_bounds price_level (item :: items) (0, ""%string))
      as ([s l] & Heq & Hb); [cbn; lra|].
    exists s, l. split; assumption.
Qed.

Lemma dom_score_of_volume_bounds (avg_volume dom_score : Q) :
  dom_score_of_volume self avg_volume = Ok dom_score ->
  0 <= dom_score /\ dom_score <= DOM_MAX self.
Proof.
  pose proof (wf_dom_max self WF) as HM.
  unfold dom_score_of_volume. set (T := DOM_THRESHOLD self).
  repeat qcase.
  - intro H. injection H as <-. lra.
  - destruct (pydiv (avg_volume - T * 0.6) (T * 0.4)) as [factor|] eqn:Ediv;
      [|discriminate].
    cbn [bind_result]. intro H. injection H as <-.
    apply pydiv_Ok in Ediv as [_ ->].
    assert (0 <= (avg_volume - T * 0.6) / (T * 0.4) /\
            (avg_volume - T * 0.6) / (T * 0.4) <= 1)
      by (apply div_unit_interval; lra).
    nra.
  - destruct (pydiv avg_volume (T * 0.6)) as [r|] eqn:Ediv; [|discriminate].
    cbn [bind_result]. intro H. injection H as <-.
    apply pydiv_Ok in Ediv as [_ ->].
    assert (0 <= avg_volume / (T * 0.6) /\ avg_volume / (T * 0.6) <= 1)
      by (apply div_unit_interval; lra).
    nra.
  - intro H. injection H as <-. lra.
Qed.

Lemma dom_score_bounds (price_level : Q) (symbol : string) (rs : RandomState) :
  unit_interval_draws rs ->
  exists dom_score rs',
    _calculate_dom_score self price_level symbol rs = Ok (dom_score, rs') /\
    unit_interval_draws rs' /\
    0 <= dom_score /\ dom_score <= DOM_MAX self.
Proof.
  intro Hrs. pose proof (wf_dom_max self WF) as HM.
  unfold _calculate_dom_score. destruct (db self) as [logger|].
  - destruct (DOMLogger.get_avg_volume_at_level logger symbol price_level
                (pip_value self * 5) 20) as [avg_volume|e]; cbn [bind_result].
    + destruct (dom_score_of_volume self avg_volume) as [s|e] eqn:Es.
      * exists s, rs. split; [reflexivity|]. split; [assumption|].
        now apply dom_score_of_volume_bounds with (avg_volume := avg_volume).
      * exists 0, rs. split; [reflexivity|]. split; [assumption | lra].
    + exists 0, rs. split; [reflexivity|]. split; [assumption | lra].
  - unfold uniform. eexists _, _. split; [reflexivity|]. split; [exact Hrs|].
    destruct (Hrs (cursor rs)) as [H0 H1]. nra.
Qed.

Lemma delta_score_bounds (delta : Q) :
  0 <= _calculate_delta_score self delta /\
  _calculate_delta_score self delta <= DELTA_MAX self.
Proof.
  pose proof (wf_delta_max self WF) as HM.
  unfold _calculate_delta_score. cbv zeta.
  pose proof (Qabs_nonneg delta) as Ha.
  set (a := Qabs delta) in *. set (T := DELTA_THRESHOLD self).
  repeat qcase.
  - lra.
  - assert (0 <= (a - T * 0.5) / (T * 0.5) /\ (a - T * 0.5) / (T * 0.5) <= 1)
      by (apply div_unit_interval; lra).
    nra.
  - assert (0 <= a / (T * 0.5) /\ a / (T * 0.5) <= 1)
      by (apply div_unit_interval; lra).
    nra.
Qed.

End ComponentBounds.

Section ScoreBounds.
Import ScoreCalculator.

Lemma determine_zone_type_total (self : t) (kv : string * Q) (breakdown : dict Q)
  (round_type fib_level : string) :
  exists zone_type,
    _determine_zone_type self (kv :: breakdown) round_type fib_level = Ok zone_type.
Proof.
  unfold _determine_zone_type, dict_argmax. cbn [bind_result].
  destruct (argmax_from kv breakdown) as [max_component max_score].
  repeat match goal with
  | |- context [if ?b then _ else _] => destruct b
  end; eexists; reflexivity.
Qed.

(** C7. For a well-formed scorer, a snapshot whose VWAP is not negative and
    a generator drawing from the unit interval, [calculate_score] returns a
    zone for every price level; each of the five components of its
    breakdown (vwap, round_number, fibonacci, dom, delta) lies between 0 and
    the configured maximum of the component, and the total score is at most
    100. *)
Theorem calculate_score_bounds (self : t) (price_level : Q)
  (market_data : MarketData.t) (rs : RandomState) :
  well_formed self ->
  0 <= MarketData.vwap market_data ->
  unit_interval_draws rs ->
  exists zone rs',
    calculate_score self price_level market_data rs = Ok (zone, rs') /\
    breakdown_bounded self (ExecutionZone.score_breakdown zone) /\
    ExecutionZone.score zone <= 100.
Proof.
  intros WF Hvwap Hrs. unfold calculate_score, bind, lift.
  destruct (round_number_score_bounds self WF price_level)
    as (round_score & round_type & -> & Hround).
  destruct (fibonacci_score_bounds self WF price_level
              (MarketData.fib_levels market_data))
    as (fib_score & fib_level & -> & Hfib).
  destruct (dom_score_bounds self WF price_level (MarketData.symbol market_data)
              rs Hrs) as (dom_score & rs' & -> & _ & Hdom).
  match goal with
  | |- context [_determine_zone_type self (?kv :: ?b) ?r ?f] =>
      destruct (determine_zone_type_total self kv b r f) as (zone_type & ->)
  end.
  unfold ret. eexists _, _. split; [reflexivity|]. cbn [ExecutionZone.score_breakdown ExecutionZone.score].
  split.
  - exists (_calculate_vwap_score self price_level (MarketData.vwap market_data)),
      round_score, fib_score, dom_score,
      (_calculate_delta_score self (MarketData.bid_ask_delta market_data)).
    split; [reflexivity|].
    repeat split; try tauto.
    + now apply vwap_score_bounds.
    + now apply vwap_score_bounds.
    + now apply delta_score_bounds.
    + now apply delta_score_bounds.
  - apply Q.le_min_r.
Qed.

End ScoreBounds.

(** ** The VWAP scenario *)

Section VwapScenario.
Import ScoreCalculator.

(** C8, as stated, fails: with the default maxima the VWAP component of the
    level 1.0580 under a VWAP of 1.0600 is not strictly between 15 and
    30. *)
Lemma vwap_scenario_not_in_upper_band :
  ~ (15 < _calculate_vwap_score Scenario.scorer 1.0580 1.0600 /\
     _calculate_vwap_score Scenario.scorer 1.0580 1.0600 < 30).
Proof.
  intros [H _]. vm_compute in H. discriminate H.
Qed.

(** C8, amended. With the default maxima, whatever the database, the VWAP
    component of the level 1.0580 under a VWAP of 1.0600 is 3678/265 (about
    13.88): the distance ratio 0.00189 lies in the band from 0.001 to 0.002,
    so the score is strictly between 5 and 15. *)
Theorem vwap_scenario_in_middle_band (db : option DOMLogger.t) :
  let vwap_score :=
    _calculate_vwap_score (__init__ default_config db) 1.0580 1.0600 in
  vwap_score == 3678 # 265 /\ 5 < vwap_score /\ vwap_score < 15.
Proof.
  cbv zeta. repeat split; vm_compute; reflexivity.
Qed.

(** The same scenario with the rounding of binary64: the score is
    13.879245283018882. *)
Example vwap_scenario_binary64 :
  Binary64._calculate_vwap_score 30 1.0580 1.0600 = 13.879245283018882%float /\
  (5 <? Binary64._calculate_vwap_score 30 1.0580 1.0600)%float = true /\
  (Binary64._calculate_vwap_score 30 1.0580 1.0600 <? 15)%float = true.
Proof.
  repeat split; vm_compute; reflexivity.
Qed.

End VwapScenario.

(** ** Determinism of the scorer *)

Section Determinism.
Import ScoreCalculator.





End Determinism.

(** ** Stable insertion sort *)

Section SortFacts.
Context {A : Type}.
Variable before : A -> A -> bool.
Hypothesis before_total : forall x y, before x y = true \/ before y x = true.
Hypothesis before_trans :
  forall x y z, before x y = true -> before y z = true -> before x z = true.

Lemma insert_sorted_perm (x : A) (l : list A) :
  Permutation (x :: l) (insert_sorted before x l).
Proof.
  induction l as [|y l IH]; cbn [insert_sorted].
  - apply Permutation_refl.
  - destruct (before x y).
    + apply Permutation_refl.
    + eapply perm_trans; [apply perm_swap|]. now apply perm_skip.
Qed.

Lemma py_sorted_perm (l : list A) : Permutation l (py_sorted before l).
Proof.
  induction l as [|x l IH]; cbn [py_sorted].
  - apply perm_nil.
  - eapply perm_trans; [apply perm_skip, IH | apply insert_sorted_perm].
Qed.

Lemma insert_sorted_sorted (x : A) (l : list A) :
  StronglySorted (fun a b => before a b = true) l ->
  StronglySorted (fun a b => before a b = true) (insert_sorted before x l).
Proof.
  induction 1 as [|y l Hs IH Hy]; cbn [insert_sorted].
  - constructor; constructor.
  - destruct (before x y) eqn:E.
    + constructor; [constructor; assumption|].
      constructor; [assumption|].
      eapply Forall_impl; [|exact Hy]. intros z Hz. now apply before_trans with y.
    + constructor; [assumption|].
      eapply Permutation_Forall; [apply insert_sorted_perm|].
      constructor; [|assumption].
      destruct (before_total x y); congruence.
Qed.

Lemma py_sorted_sorted (l : list A) :
  StronglySorted (fun a b => before a b = true) (py_sorted before l).
Proof.
  induction l as [|x l IH]; cbn [py_sorted].
  - constructor.
  - now apply insert_sorted_sorted.
Qed.

End SortFacts.

(** ** The zone scan *)

Section ZoneScan.
Import ScoreCalculator.

Lemma score_desc_total (a b : ExecutionZone.t) :
  score_desc a b = true \/ score_desc b a = true.
Proof.
  unfold score_desc.
  destruct (Qlt_le_dec (ExecutionZone.score a) (ExecutionZone.score b)) as [H|H].
  - right. apply Qle_bool_iff. lra.
  - left. now apply Qle_bool_iff.
Qed.

Lemma score_desc_trans (a b c : ExecutionZone.t) :
  score_desc a b = true -> score_desc b c = true -> score_desc a c = true.
Proof.
  unfold score_desc. rewrite !Qle_bool_iff. lra.
Qed.

Lemma sorted_by_score (zones : list ExecutionZone.t) :
  StronglySorted non_increasing (py_sorted score_desc zones).
Proof.
  pose proof (py_sorted_sorted score_desc score_desc_total score_desc_trans zones) as H.
  induction H as [|z l Hs IH Hz]; constructor; [assumption|].
  eapply Forall_impl; [|exact Hz]. intros b Hb. now apply Qle_bool_iff in Hb.
Qed.

Lemma dom_score_total (self : t) (price_level : Q) (symbol : string)
  (rs : RandomState) :
  exists dom_score rs', _calculate_dom_score self price_level symbol rs = Ok (dom_score, rs').
Proof.
  unfold _calculate_dom_score. destruct (db self).
  - match goal with
    | |- context [match ?a with Ok _ => _ | Raise _ => _ end] => destruct a
    end; eexists _, _; reflexivity.
  - eexists _, _; reflexivity.
Qed.

Lemma calculate_score_total (self : t) (price_level : Q)
  (market_data : MarketData.t) (rs : RandomState) :
  well_formed self ->
  exists zone rs', calculate_score self price_level market_data rs = Ok (zone, rs').
Proof.
  intro WF. unfold calculate_score, bind, lift.
  destruct (round_number_score_bounds self WF price_level)
    as (round_score & round_type & -> & _).
  destruct (fibonacci_score_bounds self WF price_level
              (MarketData.fib_levels market_data))
    as (fib_score & fib_level & -> & _).
  destruct (dom_score_total self price_level (MarketData.symbol market_data) rs)
    as (dom_score & rs' & ->).
  match goal with
  | |- context [_determine_zone_type self (?kv :: ?b) ?r ?f] =>
      destruct (determine_zone_type_total self kv b r f) as (zone_type & ->)
  end.
  eexists _, _. reflexivity.
Qed.

Lemma score_window_total (self : t) (market_data : MarketData.t)
  (current_price : Q) (offsets : list Z) :
  well_formed self ->
  forall rs, exists window rs',
    score_window self market_data current_price offsets rs = Ok (window, rs').
Proof.
  intro WF. induction offsets as [|o offsets IH]; intro rs; cbn [score_window].
  - eexists _, _. reflexivity.
  - unfold bind.
    destruct (calculate_score_total self
                (current_price + inject_Z o * pip_value self) market_data rs WF)
      as (zone & rs1 & ->).
    destruct (IH rs1) as (window & rs2 & ->).
    eexists _, _. reflexivity.
Qed.

(** The loop appends to [zones] the scored levels that reach 50. *)
Lemma scan_loop_window (self : t) (market_data : MarketData.t)
  (current_price : Q) (offsets : list Z) :
  forall zones rs window rs',
    score_window self market_data current_price offsets rs = Ok (window, rs') ->
    scan_loop self market_data current_price offsets zones rs =
      Ok (zones ++ filter (fun z => 50 <=? ExecutionZone.score z) window, rs').
Proof.
  induction offsets as [|o offsets IH]; intros zones rs window rs';
    cbn [score_window scan_loop].
  - unfold ret. intro H. injection H as <- <-. cbn [filter]. now rewrite app_nil_r.
  - unfold bind.
    destruct (calculate_score self _ market_data rs) as [[zone rs1]|e]; [|discriminate].
    destruct (score_window self market_data current_price offsets rs1)
      as [[window1 rs2]|e] eqn:Ew; [|discriminate].
    unfold ret. intro H. injection H as <- <-.
    rewrite (IH _ rs1 window1 rs2 Ew). cbn [filter].
    destruct (50 <=? ExecutionZone.score zone).
    + now rewrite <- app_assoc.
    + reflexivity.
Qed.

Lemma scan_all_zones_window (self : t) (market_data : MarketData.t)
  (range_pips : Z) (rs : RandomState) (window : list ExecutionZone.t)
  (rs' : RandomState) :
  score_window self market_data (MarketData.bid market_data)
    (py_range (- range_pips) (range_pips + 1)) rs = Ok (window, rs') ->
  scan_all_zones self market_data range_pips rs =
    Ok (py_sorted score_desc
          (filter (fun z => 50 <=? ExecutionZone.score z) window), rs').
Proof.
  intro Hw. unfold scan_all_zones, bind.
  now rewrite (scan_loop_window _ _ _ _ [] rs window rs' Hw).
Qed.

(** C10. For a well-formed scorer, [scan_all_zones] returns, for every
    range, a list of zones that all score at least 50 and that is sorted by
    non-increasing score; and when every level of the twenty-pip window
    [get_best_zone] scans scores below 50, [get_best_zone] returns no zone,
    whatever the minimum score asked for. *)
Theorem zone_scan_keeps_50_sorted (self : t) (market_data : MarketData.t)
  (rs : RandomState) :
  well_formed self ->
  (forall range_pips, exists zones rs',
      scan_all_zones self market_data range_pips rs = Ok (zones, rs') /\
      Forall (fun z => 50 <= ExecutionZone.score z) zones /\
      StronglySorted non_increasing zones) /\
  (exists window rs',
      score_window self market_data (MarketData.bid market_data)
        (py_range (-20) 21) rs = Ok (window, rs') /\
      (Forall (fun z => ExecutionZone.score z < 50) window ->
       forall min_score,
         get_best_zone self market_data min_score rs = Ok (None, rs'))).
Proof.
  intro WF. split.
  - intro range_pips.
    destruct (score_window_total self market_data (MarketData.bid market_data)
                (py_range (- range_pips) (range_pips + 1)) WF rs)
      as (window & rs' & Hw).
    eexists _, _. split; [apply scan_all_zones_window, Hw|]. split.
    + eapply Permutation_Forall; [apply py_sorted_perm|].
      apply Forall_forall. intros z Hz. apply filter_In in Hz as [_ Hz].
      now apply Qle_bool_iff.
    + apply sorted_by_score.
  - destruct (score_window_total self market_data (MarketData.bid market_data)
                (py_range (-20) 21) WF rs) as (window & rs' & Hw).
    exists window, rs'. split; [exact Hw|].
    intros Hlow min_score. unfold get_best_zone, bind.
    change (- (20))%Z with (-20)%Z in *.
    rewrite (scan_all_zones_window self market_data 20 rs window rs' Hw).
    replace (filter (fun z => 50 <=? ExecutionZone.score z) window) with
      (@nil ExecutionZone.t); [reflexivity|].
    symmetry. clear Hw. induction Hlow as [|z l Hz _ IH]; [reflexivity|].
    cbn [filter]. apply Qleb_gt in Hz. now rewrite Hz.
Qed.

End ZoneScan.

(** ** The risk gate *)

Section RiskGate.
Import RiskController.

Lemma can_trade_state (self : t) (now : Q) :
  fst (can_trade self now) = self \/ fst (can_trade self now) = set_bot_stopped self.
Proof.
  unfold can_trade.
  repeat match goal with
  | |- context [if ?b then _ else _] => destruct b
  | |- context [match ?r with Ok _ => _ | Raise _ => _ end] => destruct r
  end; cbn [fst]; auto.
Qed.

(** *** High-water balance and daily loss *)

Lemma step_highest_balance (self : t) (op : Op) :
  is_initialize op = false ->
  _highest_balance self <= _highest_balance (step self op).
Proof.
  destruct op; cbn [is_initialize step]; intro H; try discriminate; try apply Qle_refl.
  - unfold update_balance. cbn. qcase; lra.
  - destruct (can_trade_state self now) as [-> | ->]; apply Qle_refl.
Qed.

Lemma run_highest_balance (ops : list Op) :
  forall self,
    forallb (fun op => negb (is_initialize op)) ops = true ->
    _highest_balance self <= _highest_balance (run self ops).
Proof.
  unfold run. induction ops as [|op ops IH]; intros self H; cbn [fold_left].
  - apply Qle_refl.
  - cbn [forallb] in H. apply andb_true_iff in H as [Hop Hops].
    apply negb_true_iff in Hop.
    eapply Qle_trans; [apply step_highest_balance, Hop | apply IH, Hops].
Qed.

Lemma step_today_loss (self : t) (op : Op) :
  intraday op = true ->
  (_today_loss (step self op) < _today_loss self <->
   exists b, op = UpdateBalance b /\
             _today_starting self - _today_loss self < b /\
             b < _today_starting self).
Proof.
  destruct op; cbn [intraday step]; intro H; try discriminate.
  - unfold update_balance. cbn. split.
    + qcase; intro Hlt; [|lra]. exists current_balance. repeat split; lra.
    + intros (b & Hb & Hlo & Hhi). injection Hb as <-.
      apply Qltb_lt in Hhi. rewrite Hhi. apply Qltb_lt in Hhi. lra.
  - split.
    + destruct (can_trade_state self now) as [-> | ->]; cbn; lra.
    + intros (b & Hb & _). discriminate.
  - unfold record_trade. cbn. split.
    + pose proof (Qabs_nonneg profit). qcase; lra.
    + intros (b & Hb & _). discriminate.
  - split.
    + cbn. lra.
    + intros (b & Hb & _). discriminate.
Qed.

(** C4, amended. A call made within a trading day lowers the daily loss
    counter exactly when it is a balance update reporting a balance strictly
    between the day's start minus the recorded loss and the day's start;
    trade recordings never lower it. Across every sequence of calls after
    the start-up [initialize] the high-water balance never decreases. *)
Theorem daily_loss_and_high_water (self : t) :
  (forall op, intraday op = true ->
     (_today_loss (step self op) < _today_loss self <->
      exists b, op = UpdateBalance b /\
                _today_starting self - _today_loss self < b /\
                b < _today_starting self)) /\
  (forall ops, forallb (fun op => negb (is_initialize op)) ops = true ->
     _highest_balance self <= _highest_balance (run self ops)).
Proof.
  split.
  - intros op. apply step_today_loss.
  - intros ops. apply run_highest_balance.
Qed.

(** C4, as stated, fails: on a day started at 1000, a balance update of 900
    followed by one of 950 brings the daily loss counter from 100 down to
    50. *)
Lemma daily_loss_decreases :
  let ops := [UpdateBalance 900; UpdateBalance 950] in
  forallb intraday ops = true /\
  _today_loss (run Scenario.controller [UpdateBalance 900]) == 100 /\
  _today_loss (run Scenario.controller ops) == 50 /\
  _today_loss (run Scenario.controller ops)
    < _today_loss (run Scenario.controller [UpdateBalance 900]).
Proof.
  cbv zeta. repeat split; vm_compute; reflexivity.
Qed.

(** *** The daily loss limit *)

Lemma can_trade_daily_limit (self : t) (now : Q) :
  daily_limit_reached self ->
  exists msg, snd (can_trade self now) = Ok (false, msg).
Proof.
  intro H. unfold can_trade. destruct (_bot_stopped self).
  - eexists. reflexivity.
  - unfold _check_daily_loss. cbv zeta.
    apply Qltb_ge in H. rewrite H. eexists. reflexivity.
Qed.

Lemma step_keeps_daily_limit (self0 self : t) (op : Op) :
  _today_starting self = _today_starting self0 ->
  max_daily_loss self = max_daily_loss self0 ->
  daily_limit_reached self ->
  keeps_daily_limit self0 op ->
  _today_starting (step self op) = _today_starting self0 /\
  max_daily_loss (step self op) = max_daily_loss self0 /\
  daily_limit_reached (step self op).
Proof.
  unfold daily_limit_reached. intros Hs Hm Hl Hop.
  destruct op; cbn [keeps_daily_limit] in Hop; try contradiction; cbn [step].
  - unfold update_balance. cbn. rewrite Hs, Hm in *.
    repeat split; try reflexivity. qcase; lra.
  - destruct (can_trade_state self now) as [-> | ->]; cbn; rewrite Hs, Hm in *; auto.
  - unfold record_trade. cbn. rewrite Hs, Hm in *.
    repeat split; try reflexivity.
    pose proof (Qabs_nonneg profit). qcase; lra.
  - cbn. rewrite Hs, Hm in *. auto.
Qed.

Lemma run_keeps_daily_limit (self0 : t) (ops : list Op) :
  forall self,
    _today_starting self = _today_starting self0 ->
    max_daily_loss self = max_daily_loss self0 ->
    daily_limit_reached self ->
    Forall (keeps_daily_limit self0) ops ->
    daily_limit_reached (run self ops).
Proof.
  unfold run. induction ops as [|op ops IH]; intros self Hs Hm Hl Hops; cbn [fold_left].
  - exact Hl.
  - inversion Hops as [|? ? Hop Hops']; subst.
    destruct (step_keeps_daily_limit self0 self op Hs Hm Hl Hop) as (Hs' & Hm' & Hl').
    now apply IH.
Qed.

(** C5, amended. Once the daily loss has reached the daily limit,
    [can_trade] answers false, and keeps answering false after every
    sequence of intraday calls in which no balance update reports a balance
    strictly between the day's start minus the limit and the day's
    start. *)
Theorem daily_limit_blocks_trading (self : t) (ops : list Op) (now : Q) :
  daily_limit_reached self ->
  Forall (keeps_daily_limit self) ops ->
  exists msg, snd (can_trade (run self ops) now) = Ok (false, msg).
Proof.
  intros Hl Hops. apply can_trade_daily_limit.
  now apply run_keeps_daily_limit with (self0 := self).
Qed.

(** C5, as stated, fails: after a balance update of 940 on a day started at
    1000 the daily limit of 50 is reached and [can_trade] answers false; a
    further balance update of 990, without any daily reset, makes
    [can_trade] answer true again. *)
Lemma daily_limit_not_latched :
  let breached := run Scenario.controller [UpdateBalance 940] in
  let recovered := run breached [UpdateBalance 990] in
  daily_limit_reached breached /\
  snd (can_trade breached 0) = Ok (false, MsgDailyLoss (1000 - 940)) /\
  snd (can_trade recovered 0) = Ok (true, MsgOK).
Proof.
  cbv zeta. split; [|split].
  - vm_compute. discriminate.
  - vm_compute. reflexivity.
  - vm_compute. reflexivity.
Qed.

(** *** The drawdown latch *)

Lemma step_keeps_stopped (self : t) (op : Op) :
  _bot_stopped self = true -> _bot_stopped (step self op) = true.
Proof.
  intro H. destruct op; cbn [step]; try (cbn; assumption); try reflexivity.
  - destruct db; cbn; assumption.
  - destruct (can_trade_state self now) as [-> | ->]; [assumption | reflexivity].
Qed.

Lemma run_keeps_stopped (ops : list Op) :
  forall self, _bot_stopped self = true -> _bot_stopped (run self ops) = true.
Proof.
  unfold run. induction ops as [|op ops IH]; intros self H; cbn [fold_left].
  - exact H.
  - apply IH, step_keeps_stopped, H.
Qed.

(** C6, amended. When [can_trade] is called on a running bot whose lifetime
    drawdown check fails, the outcome depends on the daily loss check, which
    runs first. If the daily loss check passes, the call stops the bot, and
    from then on [can_trade] answers false with the stopped message after
    every sequence of calls: balance updates, trade recordings, daily
    resets, stops and even a new [initialize]. If the daily loss check
    fails, the call refuses for the daily loss and leaves the bot as it
    was, not stopped. *)
Theorem drawdown_latch_is_permanent (self : t) (now : Q) :
  _bot_stopped self = false ->
  _check_total_drawdown self = Ok false ->
  (_check_daily_loss self = true ->
   can_trade self now = (set_bot_stopped self, Ok (false, MsgTotalDrawdown)) /\
   forall ops now',
     snd (can_trade (run (fst (can_trade self now)) ops) now')
       = Ok (false, MsgBotStopped)) /\
  (_check_daily_loss self = false ->
   can_trade self now = (self, Ok (false, MsgDailyLoss (_today_loss self)))).
Proof.
  intros Hrun Hdd. split.
  - intro Hdaily.
    assert (Hcall : can_trade self now
                    = (set_bot_stopped self, Ok (false, MsgTotalDrawdown))).
    { unfold can_trade. now rewrite Hrun, Hdaily, Hdd. }
    split; [exact Hcall|].
    intros ops now'. rewrite Hcall. cbn [fst].
    unfold can_trade. now rewrite (run_keeps_stopped ops (set_bot_stopped self)).
  - intro Hdaily. unfold can_trade. now rewrite Hrun, Hdaily.
Qed.

(** C6, as stated, fails: after a balance update of 890 on an account
    started at 1000 the lifetime drawdown check fails, yet [can_trade]
    refuses for the daily loss and does not stop the bot; after a further
    balance update of 995, or after a daily rollover at 1000, [can_trade]
    answers true. *)
Lemma drawdown_without_latch :
  let deep := run Scenario.controller [UpdateBalance 890] in
  let refused := fst (can_trade deep 0) in
  _check_total_drawdown deep = Ok false /\
  snd (can_trade deep 0) = Ok (false, MsgDailyLoss (1000 - 890)) /\
  _bot_stopped refused = false /\
  snd (can_trade (run refused [UpdateBalance 995]) 0) = Ok (true, MsgOK) /\
  snd (can_trade (run refused [ResetDaily 1000]) 0) = Ok (true, MsgOK).
Proof.
  cbv zeta. repeat split; vm_compute; reflexivity.
Qed.

(** The drawdown check runs only when the daily loss check has passed: a
    drawdown beyond the limit that comes with a daily loss beyond the daily
    limit is refused for the daily loss and does not stop the bot on that
    call. *)
Remark drawdown_check_after_daily_loss :
  let deep := run Scenario.controller [UpdateBalance 890] in
  _check_total_drawdown deep = Ok false /\
  can_trade deep 0 = (deep, Ok (false, MsgDailyLoss (1000 - 890))) /\
  can_trade (reset_daily deep 890) 0
    = (set_bot_stopped (reset_daily deep 890), Ok (false, MsgTotalDrawdown)).
Proof.
  cbv zeta. repeat split; vm_compute; reflexivity.
Qed.

End RiskGate.

(** ** The per-tick exit decision *)

Section ExitDecision.
Import PositionManager.

Lemma last_n_length {A : Type} (n : nat) (l : list A) :
  List.length (last_n n l) = Nat.min n (List.length l).
Proof.
  unfold last_n. rewrite length_skipn. lia.
Qed.

Lemma detect_exhaustion_manager (self : t) (position : Position.t)
  (terminal : Terminal.t) :
  snd (detect_exhaustion self position terminal) =
    with_history self
      (last_n 100 (_volume_history self ++ [_get_current_volume self terminal]))
      (last_n 100 (_spread_history self ++ [_get_current_spread self terminal])).
Proof.
  unfold detect_exhaustion. cbv zeta.
  repeat match goal with
  | |- context [if ?b then _ else _] => destruct b
  end; reflexivity.
Qed.

Lemma detect_exhaustion_checks (self : t) (position : Position.t)
  (terminal : Terminal.t) :
  let self' := snd (detect_exhaustion self position terminal) in
  fst (detect_exhaustion self position terminal) =
    _check_volume_drop self' || _check_spread_widening self' || _check_price_stall self'.
Proof.
  cbv zeta. rewrite detect_exhaustion_manager.
  unfold detect_exhaustion. cbv zeta.
  repeat match goal with
  | |- context [if ?b then _ else _] => destruct b eqn:?
  end; cbn [fst orb]; reflexivity.
Qed.

(** *** The order of the checks *)

Lemma open_positions_loop_snapshot (self : t) (terminal : Terminal.t)
  (market_data : MarketData.t) (positions : list Terminal.BrokerPosition) :
  open_positions_loop self (Terminal.with_snapshot terminal market_data) positions
    = open_positions_loop self terminal positions.
Proof.
  induction positions as [|pos positions IH]; cbn [open_positions_loop].
  - reflexivity.
  - rewrite IH. reflexivity.
Qed.

Lemma get_open_positions_snapshot (self : t) (terminal : Terminal.t)
  (market_data : MarketData.t) :
  get_open_positions self (Terminal.with_snapshot terminal market_data)
    = get_open_positions self terminal.
Proof.
  unfold get_open_positions. cbn [Terminal.with_snapshot Terminal.positions_get].
  destruct (Terminal.positions_get terminal); [|reflexivity].
  apply open_positions_loop_snapshot.
Qed.

(** C1, amended. [monitor_position] checks exhaustion first: whenever
    [detect_exhaustion] fires the close reason is EXHAUSTION. The reason is
    STOP_LOSS exactly when exhaustion does not fire, the time limit is not
    reached and the position is no longer among the open positions the
    terminal reports; the bar of the tick and the stop price are not
    read. *)
Theorem monitor_position_order (self : t) (position : Position.t)
  (terminal : Terminal.t) :
  let self' := snd (detect_exhaustion self position terminal) in
  let listed (ps : list Position.t) :=
    existsb (fun p => (Position.ticket p =? Position.ticket position)%Z) ps in
  (fst (detect_exhaustion self position terminal) = true ->
   close_reason (monitor_position self position terminal)
     = Ok (Some "EXHAUSTION"%string)) /\
  (close_reason (monitor_position self position terminal)
     = Ok (Some "STOP_LOSS"%string) <->
   fst (detect_exhaustion self position terminal) = false /\
   check_time_limit self' position (Terminal.now terminal) = false /\
   exists ps, get_open_positions self' terminal = Ok ps /\ listed ps = false) /\
  (forall stop market_data,
     close_reason
       (monitor_position self (Position.with_stop_loss position stop)
          (Terminal.with_snapshot terminal market_data))
     = close_reason (monitor_position self position terminal)).
Proof.
  cbv zeta. split; [|split].
  - unfold monitor_position.
    destruct (detect_exhaustion self position terminal) as [exhausted self'].
    cbn [fst]. intros ->. reflexivity.
  - unfold monitor_position.
    destruct (detect_exhaustion self position terminal) as [exhausted self'].
    cbn [fst snd].
    destruct exhausted; cbn [close_reason].
    + split; [discriminate | intros [H _]; discriminate].
    + destruct (check_time_limit self' position (Terminal.now terminal));
        cbn [close_reason].
      * split; [discriminate | intros (_ & H & _); discriminate].
      * destruct (get_open_positions self' terminal) as [ps|e]; cbn [close_reason].
        -- destruct (existsb _ ps) eqn:El; cbn [negb close_reason].
           ++ split; [discriminate|].
              intros (_ & _ & ps' & Hps & Hl). injection Hps as <-. congruence.
           ++ split; [|reflexivity]. intros _. repeat split. now exists ps.
        -- split; [discriminate|].
           intros (_ & _ & ps' & Hps & _). discriminate.
  - intros stop market_data. unfold monitor_position.
    change (detect_exhaustion self (Position.with_stop_loss position stop)
              (Terminal.with_snapshot terminal market_data))
      with (detect_exhaustion self position terminal).
    destruct (detect_exhaustion self position terminal) as [exhausted self'].
    rewrite get_open_positions_snapshot.
    destruct exhausted; [reflexivity|].
    change (check_time_limit self' (Position.with_stop_loss position stop)
              (Terminal.now (Terminal.with_snapshot terminal market_data)))
      with (check_time_limit self' position (Terminal.now terminal)).
    destruct (check_time_limit self' position (Terminal.now terminal));
      [reflexivity|].
    destruct (get_open_positions self' terminal) as [ps|e]; [|reflexivity].
    change (Position.ticket (Position.with_stop_loss position stop))
      with (Position.ticket position).
    destruct (existsb _ ps); reflexivity.
Qed.

(** C1, as stated, fails: a LONG position whose stop is 1.0490, on a tick
    whose bar low is 1.0489 and whose last five ticks do not move, is closed
    with reason EXHAUSTION, not STOP_LOSS. *)
Lemma stop_loss_does_not_take_precedence :
  Position.direction Scenario.long_position = LONG /\
  MarketData.low (Terminal.snapshot Scenario.stopped_out_tick)
    <= Position.stop_loss Scenario.long_position /\
  fst (detect_exhaustion Scenario.fresh_manager Scenario.long_position
         Scenario.stopped_out_tick) = true /\
  close_reason (monitor_position Scenario.fresh_manager Scenario.long_position
                  Scenario.stopped_out_tick) = Ok (Some "EXHAUSTION"%string) /\
  close_reason (monitor_position Scenario.fresh_manager Scenario.long_position
                  Scenario.stopped_out_tick) <> Ok (Some "STOP_LOSS"%string).
Proof.
  split; [reflexivity|]. split; [vm_compute; discriminate|].
  split; [vm_compute; reflexivity|]. split; [vm_compute; reflexivity|].
  vm_compute. discriminate.
Qed.

(** *** The preconditions of the exhaustion checks *)

Lemma check_volume_drop_short (self : t) :
  (List.length (_volume_history self) < 20)%nat -> _check_volume_drop self = false.
Proof.
  intro H. unfold _check_volume_drop. apply Nat.ltb_lt in H. now rewrite H.
Qed.

Lemma check_spread_widening_short (self : t) :
  (List.length (_spread_history self) < 20)%nat -> _check_spread_widening self = false.
Proof.
  intro H. unfold _check_spread_widening. apply Nat.ltb_lt in H. now rewrite H.
Qed.

(** C2, amended. While the volume (spread) history, with the sample of the
    current tick, holds fewer than twenty values the volume (spread) check
    does not fire; in that case [detect_exhaustion] fires exactly when the
    price-stall check does, which needs five recent ticks only. No check
    reads the position: the decision is the same for every position,
    whatever its profit, and the position is closed with reason EXHAUSTION
    exactly when [detect_exhaustion] fires. *)
Theorem exhaustion_preconditions (self : t) (position : Position.t)
  (terminal : Terminal.t) :
  let self' := snd (detect_exhaustion self position terminal) in
  ((List.length (_volume_history self) + 1 < 20)%nat ->
   _check_volume_drop self' = false) /\
  ((List.length (_spread_history self) + 1 < 20)%nat ->
   _check_spread_widening self' = false) /\
  ((List.length (_volume_history self) + 1 < 20)%nat ->
   (List.length (_spread_history self) + 1 < 20)%nat ->
   fst (detect_exhaustion self position terminal) = _check_price_stall self) /\
  (forall position',
     detect_exhaustion self position' terminal
       = detect_exhaustion self position terminal) /\
  (close_reason (monitor_position self position terminal)
     = Ok (Some "EXHAUSTION"%string) <->
   fst (detect_exhaustion self position terminal) = true).
Proof.
  cbv zeta.
  assert (Hv : (List.length (_volume_history self) + 1 < 20)%nat ->
               _check_volume_drop (snd (detect_exhaustion self position terminal)) = false).
  { intro H. apply check_volume_drop_short. rewrite detect_exhaustion_manager.
    cbn [with_history _volume_history]. rewrite last_n_length, length_app.
    cbn [List.length]. lia. }
  assert (Hs : (List.length (_spread_history self) + 1 < 20)%nat ->
               _check_spread_widening (snd (detect_exhaustion self position terminal)) = false).
  { intro H. apply check_spread_widening_short. rewrite detect_exhaustion_manager.
    cbn [with_history _spread_history]. rewrite last_n_length, length_app.
    cbn [List.length]. lia. }
  split; [exact Hv|]. split; [exact Hs|]. split.
  - intros H1 H2. rewrite detect_exhaustion_checks. cbv zeta.
    rewrite (Hv H1), (Hs H2). cbn [orb]. now rewrite detect_exhaustion_manager.
  - split; [intros position'; reflexivity|].
    unfold monitor_position.
    destruct (detect_exhaustion self position terminal) as [exhausted self'].
    cbn [fst]. destruct exhausted; [split; reflexivity|].
    split; [|discriminate].
    destruct (check_time_limit self' position (Terminal.now terminal));
      [discriminate|].
    destruct (get_open_positions self' terminal) as [ps|e]; [|discriminate].
    destruct (negb _); discriminate.
Qed.

(** C2, as stated, fails: on the first tick of a manager, with empty
    histories, a position two pips in profit is closed with reason
    EXHAUSTION because the last five ticks do not move. *)
Lemma exhaustion_without_profit_or_history :
  Position.pips Scenario.small_profit_position < 10 /\
  _volume_history Scenario.first_tick_manager = [] /\
  _spread_history Scenario.first_tick_manager = [] /\
  (List.length
     (_volume_history
        (manager (monitor_position Scenario.first_tick_manager
                    Scenario.small_profit_position Scenario.quiet_tick))) < 20)%nat /\
  fst (detect_exhaustion Scenario.first_tick_manager Scenario.small_profit_position
         Scenario.quiet_tick) = true /\
  close_reason (monitor_position Scenario.first_tick_manager
                  Scenario.small_profit_position Scenario.quiet_tick)
    = Ok (Some "EXHAUSTION"%string).
Proof.
  split; [vm_compute; reflexivity|]. split; [reflexivity|]. split; [reflexivity|].
  split; [vm_compute; lia|]. split; vm_compute; reflexivity.
Qed.

End ExitDecision.

(** ** Correlation confirmation *)

Section Correlation.
Import SignalGenerator.

Lemma correlation_of_bars_no_data (terminal : Terminal) (direction : Direction)
  (dxy : string) :
  no_data (copy_rates_m1 terminal dxy) ->
  correlation_of_bars terminal direction dxy = Ok (neutral_details "NO_DATA").
Proof.
  unfold correlation_of_bars. intros [-> | (l & -> & Hl)]; cbn [bind_result].
  - reflexivity.
  - apply Nat.ltb_lt in Hl. now rewrite Hl.
Qed.

Lemma check_correlation_unavailable (self : t) (direction : Direction)
  (terminal : Terminal) :
  secondary_unavailable self terminal ->
  exists status self',
    _check_correlation self direction terminal = (neutral_details status, self') /\
    score_calc self' = score_calc self /\
    min_score self' = min_score self.
Proof.
  intro H. unfold _check_correlation.
  destruct (correlation_enabled self); cbn [negb].
  2: { eexists _, _. repeat split. }
  destruct H as [Hsel Halt | Hsel Hbars | alt Hsel Halt Hbars]; rewrite Hsel.
  - rewrite Halt. eexists _, _. repeat split.
  - rewrite (correlation_of_bars_no_data _ _ _ Hbars). eexists _, _. repeat split.
  - rewrite Halt, (correlation_of_bars_no_data _ _ _ Hbars).
    eexists _, _. repeat split.
Qed.

Lemma get_best_zone_min_score (sc : ScoreCalculator.t) (market_data : MarketData.t)
  (threshold : Q) (rs rs' : RandomState) (zone : ExecutionZone.t) :
  ScoreCalculator.get_best_zone sc market_data threshold rs = Ok (Some zone, rs') ->
  threshold <= ExecutionZone.score zone.
Proof.
  unfold ScoreCalculator.get_best_zone, bind.
  destruct (ScoreCalculator.scan_all_zones sc market_data 20 rs)
    as [[[|z zones] rs1]|e]; try discriminate.
  destruct (threshold <=? ExecutionZone.score z) eqn:E; [|discriminate].
  unfold ret. intro H. injection H as <- <-. now apply Qle_bool_iff.
Qed.

(** C3, amended. When the secondary instrument is unavailable or returns no
    data, a signal-generation attempt that reaches the correlation step
    (no blackout, active session, no stop hunt, a best zone within the scan
    range) always emits the signal: it is never rejected, it is marked as
    confirmed and its confidence is the zone score plus the confirmation
    bonus of 5. *)
Theorem unavailable_correlation_adds_bonus (self : t) (market_data : MarketData.t)
  (terminal : Terminal) (rs rs' : RandomState) (best_zone : ExecutionZone.t) :
  secondary_unavailable self terminal ->
  _is_blackout_period self terminal = false ->
  _is_active_session self terminal = true ->
  _check_stop_hunt_pattern self market_data terminal = None ->
  ScoreCalculator.get_best_zone (score_calc self) market_data (min_score self) rs
    = Ok (Some best_zone, rs') ->
  Qabs (ExecutionZone.price best_zone - MarketData.bid market_data)
    <= scan_range_pips self * pip_value self ->
  exists signal self',
    scan_and_generate self market_data terminal rs = Ok ((Some signal, self'), rs') /\
    TradeSignal.zone signal = best_zone /\
    TradeSignal.confidence signal = ExecutionZone.score best_zone + 5 /\
    TradeSignal.correlation_confirmed signal = true.
Proof.
  intros Hun Hblack Hsession Hhunt Hbest Hdist.
  unfold scan_and_generate. rewrite Hblack, Hsession, Hhunt. cbn [negb].
  unfold bind. rewrite Hbest.
  apply Qltb_ge in Hdist. rewrite Hdist.
  destruct (check_correlation_unavailable self (ExecutionZone.direction best_zone)
              terminal Hun) as (status & self' & -> & _ & _).
  cbn [neutral_details TradeSignal.confirmed].
  pose proof (get_best_zone_min_score _ _ _ _ _ _ Hbest) as Hmin.
  assert (Hkeep : (ExecutionZone.score best_zone + 5 <? min_score self) = false)
    by (apply Qltb_ge; lra).
  rewrite Hkeep. unfold ret. eexists _, _. split; [reflexivity|].
  repeat split.
Qed.

(** C3, as stated, fails: with no dollar-index symbol on the terminal, a
    zone of score 100 yields a signal of confidence 105, not 100. *)
Lemma unavailable_correlation_changes_confidence :
  exists signal self' rs',
    secondary_unavailable Scenario.generator Scenario.no_dollar_index /\
    scan_and_generate Scenario.generator Scenario.snapshot Scenario.no_dollar_index
      Scenario.constant_draws = Ok ((Some signal, self'), rs') /\
    ExecutionZone.score (TradeSignal.zone signal) == 100 /\
    TradeSignal.confidence signal == 105 /\
    ~ TradeSignal.confidence signal == ExecutionZone.score (TradeSignal.zone signal).
Proof.
  eexists _, _, _. split; [apply no_symbol; reflexivity|].
  split; [vm_compute; reflexivity|]. cbn [TradeSignal.zone TradeSignal.confidence ExecutionZone.score].
  split; [reflexivity|]. split; [reflexivity|].
  intro H. discriminate H.
Qed.

End Correlation.

(** ** The theorems on the scenarios *)

(** Closed comparisons of rationals and closed equations. *)
Ltac by_evaluation :=
  vm_compute; first [reflexivity | discriminate | lia].

Ltac scorer_well_formed :=
  constructor; by_evaluation.

(** Every scorer [__init__] builds from non-negative maxima and a positive
    proximity window is well formed, and stays so under a positive pip
    size. *)
Lemma init_well_formed (config : ScoreCalculator.Config)
  (db : option DOMLogger.t) (pip : Q) :
  0 <= ScoreCalculator.vwap_max_points config ->
  0 <= ScoreCalculator.round_number_max_points config ->
  0 <= ScoreCalculator.fibonacci_max_points config ->
  0 <= ScoreCalculator.dom_volume_max_points config ->
  0 <= ScoreCalculator.delta_imbalance_max_points config ->
  0 < ScoreCalculator.fibonacci_proximity_pips config ->
  0 < pip ->
  ScoreCalculator.well_formed (ScoreCalculator.__init__ config db) /\
  ScoreCalculator.well_formed
    (ScoreCalculator.set_pip_value (ScoreCalculator.__init__ config db) pip).
Proof.
  intros. split; constructor; cbn; try reflexivity; try assumption; lra.
Qed.

Section Instances.
Import ScoreCalculator.

(** The bounds at the level 1.0800 of the scenario snapshot. *)
Lemma calculate_score_bounds_instance :
  well_formed Scenario.scorer /\
  0 <= MarketData.vwap Scenario.snapshot /\
  unit_interval_draws Scenario.constant_draws /\
  exists zone rs',
    calculate_score Scenario.scorer 1.0800 Scenario.snapshot
      Scenario.constant_draws = Ok (zone, rs') /\
    breakdown_bounded Scenario.scorer (ExecutionZone.score_breakdown zone) /\
    ExecutionZone.score zone <= 100.
Proof.
  assert (WF : well_formed Scenario.scorer) by scorer_well_formed.
  assert (Hv : 0 <= MarketData.vwap Scenario.snapshot) by by_evaluation.
  assert (Hd : unit_interval_draws Scenario.constant_draws)
    by (intro n; split; by_evaluation).
  split; [exact WF|]. split; [exact Hv|]. split; [exact Hd|].
  exact (calculate_score_bounds Scenario.scorer 1.0800 Scenario.snapshot
           Scenario.constant_draws WF Hv Hd).
Defined.


(** On the quiet snapshot no level reaches 50: the best-zone query with a
    minimum score of 10 returns no zone. *)
Lemma zone_scan_keeps_50_sorted_instance :
  well_formed Scenario.scorer /\
  get_best_zone Scenario.scorer Scenario.quiet_snapshot 10 Scenario.constant_draws
    = Ok (None, {| draws := draws Scenario.constant_draws; cursor := 41 |}).
Proof.
  assert (WF : well_formed Scenario.scorer) by scorer_well_formed.
  split; [exact WF|].
  destruct (zone_scan_keeps_50_sorted Scenario.scorer Scenario.quiet_snapshot
              Scenario.constant_draws WF) as [_ (window & rs' & Hw & Hnone)].
  vm_compute in Hw. injection Hw as <- <-.
  apply Hnone. repeat (constructor; [by_evaluation|]). constructor.
Defined.

End Instances.

Section RiskInstances.
Import RiskController.

(** After a loss of 100 a balance update of 950 lowers the counter; the
    high-water balance does not decrease across a rollover. *)
Lemma daily_loss_and_high_water_instance :
  let day := run Scenario.controller [UpdateBalance 900] in
  _today_loss (step day (UpdateBalance 950)) < _today_loss day /\
  _highest_balance day
    <= _highest_balance (run day [UpdateBalance 1100; ResetDaily 1100; UpdateBalance 1050]).
Proof.
  cbv zeta.
  destruct (daily_loss_and_high_water (run Scenario.controller [UpdateBalance 900]))
    as [Hloss Hhigh].
  split.
  - apply (Hloss (UpdateBalance 950)); [reflexivity|].
    exists 950. split; [reflexivity|]. split; by_evaluation.
  - apply Hhigh. reflexivity.
Defined.

(** With a loss of 60 on a day started at 1000, trading stays refused after
    a further loss, a query, a lower balance and a stop. *)
Lemma daily_limit_blocks_trading_instance :
  let breached := run Scenario.controller [UpdateBalance 940] in
  let ops := [RecordTrade 10 (-5); CanTrade 20; UpdateBalance 930; StopBot] in
  daily_limit_reached breached /\
  Forall (keeps_daily_limit breached) ops /\
  exists msg, snd (can_trade (run breached ops) 30) = Ok (false, msg).
Proof.
  cbv zeta.
  assert (Hl : daily_limit_reached (run Scenario.controller [UpdateBalance 940]))
    by by_evaluation.
  assert (Hops : Forall (keeps_daily_limit (run Scenario.controller [UpdateBalance 940]))
                   [RecordTrade 10 (-5); CanTrade 20; UpdateBalance 930; StopBot]).
  { constructor; [exact I|]. constructor; [exact I|].
    constructor; [right; by_evaluation|]. constructor; [exact I|]. constructor. }
  split; [exact Hl|]. split; [exact Hops|].
  exact (daily_limit_blocks_trading _ _ 30 Hl Hops).
Defined.

(** A day started at 890 after a start at 1000 fails the drawdown check;
    the next day, back at 1000, trading is still refused. *)
Lemma drawdown_latch_is_permanent_instance :
  let drawn_down := run Scenario.controller [ResetDaily 890] in
  _bot_stopped drawn_down = false /\
  _check_daily_loss drawn_down = true /\
  _check_total_drawdown drawn_down = Ok false /\
  snd (can_trade (run (fst (can_trade drawn_down 0))
                    [ResetDaily 1000; UpdateBalance 1000; RecordTrade 5 20]) 86400)
    = Ok (false, MsgBotStopped).
Proof.
  cbv zeta.
  assert (H1 : _bot_stopped (run Scenario.controller [ResetDaily 890]) = false)
    by reflexivity.
  assert (H2 : _check_daily_loss (run Scenario.controller [ResetDaily 890]) = true)
    by (vm_compute; reflexivity).
  assert (H3 : _check_total_drawdown (run Scenario.controller [ResetDaily 890]) = Ok false)
    by (vm_compute; reflexivity).
  split; [exact H1|]. split; [exact H2|]. split; [exact H3|].
  exact (proj2 (proj1 (drawdown_latch_is_permanent _ 0 H1 H3) H2)
           [ResetDaily 1000; UpdateBalance 1000; RecordTrade 5 20] 86400).
Defined.

End RiskInstances.

Section ExitInstances.
Import PositionManager.

(** On the stopped-out tick the manager that sees stalled ticks reports
    EXHAUSTION, the manager without collector reports STOP_LOSS. *)
Lemma monitor_position_order_instance :
  close_reason (monitor_position Scenario.fresh_manager Scenario.long_position
                  Scenario.stopped_out_tick) = Ok (Some "EXHAUSTION"%string) /\
  close_reason (monitor_position (__init__ None) Scenario.long_position
                  Scenario.stopped_out_tick) = Ok (Some "STOP_LOSS"%string).
Proof.
  split.
  - apply (proj1 (monitor_position_order Scenario.fresh_manager
                    Scenario.long_position Scenario.stopped_out_tick)).
    vm_compute. reflexivity.
  - apply (proj1 (proj2 (monitor_position_order (__init__ None)
                           Scenario.long_position Scenario.stopped_out_tick))).
    split; [vm_compute; reflexivity|]. split; [vm_compute; reflexivity|].
    exists []. split; reflexivity.
Defined.

(** On the first tick the exhaustion decision is the price-stall check. *)
Lemma exhaustion_preconditions_instance :
  fst (detect_exhaustion Scenario.first_tick_manager Scenario.small_profit_position
         Scenario.quiet_tick) = _check_price_stall Scenario.first_tick_manager.
Proof.
  apply (proj1 (proj2 (proj2 (exhaustion_preconditions Scenario.first_tick_manager
                                Scenario.small_profit_position Scenario.quiet_tick)))).
  - vm_compute. lia.
  - vm_compute. lia.
Defined.

End ExitInstances.

Section SignalInstances.
Import SignalGenerator.

(** Without any dollar-index symbol the signal of the scenario snapshot is
    emitted with the bonus. *)
Lemma unavailable_correlation_adds_bonus_instance :
  secondary_unavailable Scenario.generator Scenario.no_dollar_index /\
  exists signal self',
    scan_and_generate Scenario.generator Scenario.snapshot Scenario.no_dollar_index
      Scenario.constant_draws
      = Ok ((Some signal, self'), Scenario.constant_draws) /\
    TradeSignal.confidence signal
      = ExecutionZone.score (TradeSignal.zone signal) + 5 /\
    TradeSignal.correlation_confirmed signal = true.
Proof.
  assert (Hun : secondary_unavailable Scenario.generator Scenario.no_dollar_index)
    by (apply no_symbol; reflexivity).
  split; [exact Hun|].
  destruct (ScoreCalculator.get_best_zone (score_calc Scenario.generator)
              Scenario.snapshot (min_score Scenario.generator)
              Scenario.constant_draws) as [[[best_zone|] rs']|e] eqn:Hbest;
    try (vm_compute in Hbest; discriminate Hbest).
  assert (Hrs : rs' = Scenario.constant_draws)
    by (vm_compute in Hbest; injection Hbest as _ <-; reflexivity).
  subst rs'.
  assert (Hdist : Qabs (ExecutionZone.price best_zone
                        - MarketData.bid Scenario.snapshot)
                  <= scan_range_pips Scenario.generator
                     * pip_value Scenario.generator)
    by (vm_compute in Hbest; injection Hbest as <-; by_evaluation).
  destruct (unavailable_correlation_adds_bonus Scenario.generator
              Scenario.snapshot Scenario.no_dollar_index Scenario.constant_draws
              Scenario.constant_draws best_zone Hun
              ltac:(reflexivity) ltac:(vm_compute; reflexivity)
              ltac:(vm_compute; reflexivity) Hbest Hdist)
    as (signal & self' & Hgen & Hzone & Hconf & Hcorr).
  exists signal, self'. rewrite Hzone. auto.
Defined.

End SignalInstances.

(** ** Further scenarios of the specification *)

Example major_round_number :
  ScoreCalculator._calculate_round_number_score Scenario.scorer 1.0800
    = Ok (25, "MAJOR_ROUND"%string).
Proof. reflexivity. Qed.

Example institutional_round_zone :
  exists zone rs',
    ScoreCalculator.calculate_score Scenario.scorer 1.0800 Scenario.quiet_snapshot
      Scenario.constant_draws = Ok (zone, rs') /\
    ExecutionZone.zone_type zone = "INSTITUTIONAL_ROUND"%string /\
    ExecutionZone.direction zone = SHORT.
Proof.
  eexists _, _. split; [vm_compute; reflexivity|]. split; reflexivity.
Qed.

Example second_trade_too_early :
  let config :=
    RiskController.mkConfig 0.01 0.05 0.10 3 7200 0.10 30 in
  let controller :=
    RiskController.initialize (RiskController.__init__ config) 1000 None in
  snd (RiskController.can_trade
         (RiskController.record_trade controller 0 20) 3000)
    = Ok (false, RiskController.MsgTradeInterval 70).
Proof. vm_compute. reflexivity. Qed.

Example lot_size_of_one_percent :
  exists lot,
    RiskController.calculate_lot_size Scenario.controller 1000 10 = Ok lot /\
    lot == 0.1.
Proof. eexists. split; [reflexivity | vm_compute; reflexivity]. Qed.

(** * Further properties of the code *)

(** ** Zone scoring *)

Section ScoringFacts.
Import ScoreCalculator.

Lemma vwap_distance_monotone (a b vwap : Q) :
  0 < vwap -> a <= b -> a / vwap <= b / vwap.
Proof.
  intros Hv Hab. unfold Qdiv. apply Qmult_le_compat_r; [assumption|].
  apply Qlt_le_weak, Qinv_lt_0_compat, Hv.
Qed.

(** The score as a function of the distance ratio, with the thresholds of
    [__init__]. *)
Lemma vwap_score_of_ratio_monotone (M d1 d2 : Q) :
  0 <= M -> 0 <= d1 -> d1 <= d2 ->
  (if 0.003 <=? d1 then M
   else if 0.002 <=? d1 then
     M * 0.5 + M * 0.5 * ((d1 - 0.002) / (0.003 - 0.002))
   else if 0.001 <=? d1 then
     M * 0.17 + M * 0.33 * ((d1 - 0.001) / (0.002 - 0.001))
   else d1 / 0.001 * (M * 0.17))
  <=
  (if 0.003 <=? d2 then M
   else if 0.002 <=? d2 then
     M * 0.5 + M * 0.5 * ((d2 - 0.002) / (0.003 - 0.002))
   else if 0.001 <=? d2 then
     M * 0.17 + M * 0.33 * ((d2 - 0.001) / (0.002 - 0.001))
   else d2 / 0.001 * (M * 0.17)).
Proof.
  intros HM Hd1 Hd12.
  assert (E1 : forall x, x / (0.003 - 0.002) == x * 1000)
    by (intro x; unfold Qdiv; apply Qmult_comp; reflexivity).
  assert (E2 : forall x, x / (0.002 - 0.001) == x * 1000)
    by (intro x; unfold Qdiv; apply Qmult_comp; reflexivity).
  assert (E3 : forall x, x / 0.001 == x * 1000)
    by (intro x; unfold Qdiv; apply Qmult_comp; reflexivity).
  assert (Hp : 0 <= M * (d2 - d1)) by nra.
  repeat qcase; rewrite ?E1, ?E2, ?E3; try lra; try nra.
Qed.

(** X1. With the VWAP thresholds of __init__ (0.003, 0.002, 0.001), a non-
    negative VWAP_MAX and a positive VWAP, the VWAP component never
    decreases with the distance from the VWAP: a level at least as far
    from the VWAP as another scores at least as much. *)
Theorem vwap_score_monotone (self : t) (level1 level2 vwap : Q) :
  well_formed self ->
  0 < vwap ->
  Qabs (level1 - vwap) <= Qabs (level2 - vwap) ->
  _calculate_vwap_score self level1 vwap <= _calculate_vwap_score self level2 vwap.
Proof.
  intros WF Hv Hd. unfold _calculate_vwap_score.
  rewrite (wf_critical self WF), (wf_high self WF), (wf_low self WF).
  assert (E : (vwap =? 0) = false) by (apply Qeqb_neq; lra).
  rewrite E. cbv zeta.
  apply vwap_score_of_ratio_monotone.
  - apply (wf_vwap_max self WF).
  - apply Qle_shift_div_l; [assumption|]. rewrite Qmult_0_l. apply Qabs_nonneg.
  - now apply vwap_distance_monotone.
Qed.

End ScoringFacts.

Section ZoneFacts.
Import ScoreCalculator.

(** What [calculate_score] builds around the components. *)
Lemma calculate_score_zone (self : t) (price_level : Q)
  (market_data : MarketData.t) (rs rs' : RandomState) (zone : ExecutionZone.t) :
  calculate_score self price_level market_data rs = Ok (zone, rs') ->
  ExecutionZone.price zone = price_level /\
  ExecutionZone.direction zone
    = _determine_direction self price_level market_data /\
  ExecutionZone.trigger_price zone
    = _calculate_trigger_price self price_level (ExecutionZone.direction zone) /\
  ExecutionZone.stop_loss zone
    = _calculate_stop_loss self (ExecutionZone.trigger_price zone)
        (ExecutionZone.direction zone) /\
  ExecutionZone.score zone
    = Qmin (py_sum (dict_values (ExecutionZone.score_breakdown zone))) 100.
Proof.
  unfold calculate_score, bind, lift.
  destruct (_calculate_round_number_score self price_level)
    as [[round_score round_type]|e]; [|discriminate].
  destruct (_calculate_fibonacci_score self price_level _)
    as [[fib_score fib_level]|e]; [|discriminate].
  destruct (_calculate_dom_score self price_level _ rs) as [[dom_score rs1]|e];
    [|discriminate].
  destruct (_determine_zone_type self _ round_type fib_level) as [zone_type|e];
    [|discriminate].
  unfold ret. intro H. injection H as <- <-. cbn. repeat split.
Qed.

(** X2. With positive entry offset, stop distance and pip value, every
    zone calculate_score returns is LONG when its level is above the bid,
    with stop < trigger < level, and SHORT otherwise, with level < trigger
    < stop; in both cases the stop lies exactly STOP_LOSS_PIPS pips from
    the trigger. *)
Theorem zone_entry_before_level (self : t) (price_level : Q)
  (market_data : MarketData.t) (rs rs' : RandomState) (zone : ExecutionZone.t) :
  0 < ENTRY_OFFSET_PIPS self ->
  0 < STOP_LOSS_PIPS self ->
  0 < pip_value self ->
  calculate_score self price_level market_data rs = Ok (zone, rs') ->
  match ExecutionZone.direction zone with
  | LONG =>
      MarketData.bid market_data < ExecutionZone.price zone /\
      ExecutionZone.stop_loss zone < ExecutionZone.trigger_price zone /\
      ExecutionZone.trigger_price zone < ExecutionZone.price zone /\
      ExecutionZone.trigger_price zone - ExecutionZone.stop_loss zone
        == STOP_LOSS_PIPS self * pip_value self
  | SHORT =>
      ExecutionZone.price zone <= MarketData.bid market_data /\
      ExecutionZone.price zone < ExecutionZone.trigger_price zone /\
      ExecutionZone.trigger_price zone < ExecutionZone.stop_loss zone /\
      ExecutionZone.stop_loss zone - ExecutionZone.trigger_price zone
        == STOP_LOSS_PIPS self * pip_value self
  end.
Proof.
  intros He Hs Hp Hz.
  destruct (calculate_score_zone _ _ _ _ _ _ Hz) as (Hprice & Hdir & Htrig & Hstop & _).
  assert (0 < ENTRY_OFFSET_PIPS self * pip_value self) by nra.
  assert (0 < STOP_LOSS_PIPS self * pip_value self) by nra.
  rewrite Hstop, Htrig, Hprice. rewrite Hdir.
  unfold _determine_direction, _calculate_stop_loss, _calculate_trigger_price.
  cbv zeta.
  destruct (MarketData.bid market_data <? price_level) eqn:E; qprop;
    cbv iota; repeat split; lra.
Qed.

(** *** The Fibonacci label *)

Lemma fib_loop_label (self : t) (price_level threshold : Q) (fib_levels : dict Q)
  (items : dict Q) :
  forall best result,
    (forall item, In item items -> In item fib_levels) ->
    (best = (0, ""%string) \/
     0 < fst best /\
     exists price, In (snd best, price) fib_levels /\
                   Qabs (price_level - price) <= threshold) ->
    fib_loop self price_level threshold items best = Ok result ->
    result = (0, ""%string) \/
    0 < fst result /\
    exists price, In (snd result, price) fib_levels /\
                  Qabs (price_level - price) <= threshold.
Proof.
  induction items as [|[level_name level_price] items IH]; intros best result Hsub Hbest;
    cbn [fib_loop].
  - intro H. injection H as <-. exact Hbest.
  - unfold fib_loop_body.
    destruct (Qabs (price_level - level_price) <=? threshold) eqn:Enear; qprop.
    + destruct (pydiv (Qabs (price_level - level_price)) threshold) as [ratio|e];
        cbn [bind_result]; [|discriminate].
      cbv zeta.
      match goal with
      | |- context [if ?c then _ else _] => destruct c eqn:Ebetter
      end; qprop; cbn [bind_result].
      * apply IH; [intros item Hi; apply Hsub; now right|].
        right. cbn [fst snd]. split.
        -- destruct Hbest as [-> | [Hpos _]]; cbn [fst] in *; lra.
        -- exists level_price. split; [apply Hsub; now left | assumption].
      * apply IH; [intros item Hi; apply Hsub; now right | exact Hbest].
    + cbn [bind_result]. apply IH; [intros item Hi; apply Hsub; now right | exact Hbest].
Qed.

(** X3. _calculate_fibonacci_score returns either the score 0 with an
    empty label, or a positive score with the name of a retracement level
    of the snapshot that lies within FIB_PROXIMITY_PIPS pips of the price
    level. *)
Theorem fibonacci_label_names_a_near_level (self : t) (price_level : Q)
  (fib_levels : dict Q) (fib_score : Q) (fib_level : string) :
  _calculate_fibonacci_score self price_level fib_levels
    = Ok (fib_score, fib_level) ->
  (fib_score = 0 /\ fib_level = ""%string) \/
  (0 < fib_score /\
   exists price,
     In (fib_level, price) fib_levels /\
     Qabs (price_level - price) <= FIB_PROXIMITY_PIPS self * pip_value self).
Proof.
  unfold _calculate_fibonacci_score. destruct fib_levels as [|item items].
  - intro H. injection H as <- <-. now left.
  - intro H.
    destruct (fib_loop_label self price_level
                (FIB_PROXIMITY_PIPS self * pip_value self) (item :: items)
                (item :: items) (0, ""%string) (fib_score, fib_level))
      as [E | [Hpos Hex]]; auto.
    left. injection E as -> ->. now split.
Qed.

(** *** The zone type follows the largest component *)

(** X4. _determine_zone_type names the zone after the largest component,
    the earliest of vwap, round_number, fibonacci, dom, delta on a tie:
    VWAP_REVERSION only if vwap is largest and at least 80% of VWAP_MAX,
    INSTITUTIONAL_ROUND only if round_number is largest and the round type
    is MAJOR_ROUND, DOM_CLUSTER and DELTA_IMBALANCE only if dom,
    respectively delta, is strictly larger than every earlier component. *)
Theorem zone_type_follows_largest_component (self : t)
  (vwap_score round_score fib_score dom_score delta_score : Q)
  (round_type fib_level : string) :
  let zone_type :=
    _determine_zone_type self
      [("vwap", vwap_score); ("round_number", round_score);
       ("fibonacci", fib_score); ("dom", dom_score);
       ("delta", delta_score)]%string round_type fib_level in
  (zone_type = Ok "VWAP_REVERSION"%string ->
   round_score <= vwap_score /\ fib_score <= vwap_score /\
   dom_score <= vwap_score /\ delta_score <= vwap_score /\
   VWAP_MAX self * 0.8 <= vwap_score) /\
  (zone_type = Ok "INSTITUTIONAL_ROUND"%string ->
   round_type = "MAJOR_ROUND"%string /\
   vwap_score < round_score /\ fib_score <= round_score /\
   dom_score <= round_score /\ delta_score <= round_score) /\
  (zone_type = Ok "DOM_CLUSTER"%string ->
   vwap_score < dom_score /\ round_score < dom_score /\
   fib_score < dom_score /\ delta_score <= dom_score) /\
  (zone_type = Ok "DELTA_IMBALANCE"%string ->
   vwap_score < delta_score /\ round_score < delta_score /\
   fib_score < delta_score /\ dom_score < delta_score).
Proof.
  cbv zeta. unfold _determine_zone_type, dict_argmax.
  cbn [bind_result argmax_from fst snd].
  destruct (vwap_score <? round_score) eqn:E1; cbn [snd];
  (destruct (_ <? fib_score) eqn:E2; cbn [snd];
   (destruct (_ <? dom_score) eqn:E3; cbn [snd];
    (destruct (_ <? delta_score) eqn:E4; cbn [snd]))); qprop;
  cbn [String.eqb Ascii.eqb Bool.eqb andb negb];
  repeat match goal with
  | |- context [if ?b then _ else _] => destruct b eqn:?
  end; qprop;
  (split; [|split; [|split]]); intro Hzt; try discriminate Hzt;
  repeat split; try lra;
  try (match goal with
       | H' : String.eqb round_type "MAJOR_ROUND" = true |- _ =>
           now apply String.eqb_eq in H'
       end).
Qed.

End ZoneFacts.

Section ScanFacts.
Import ScoreCalculator.

(** *** The best zone is a maximal one *)

Lemma sorted_head_maximal (z : ExecutionZone.t) (zones : list ExecutionZone.t) :
  StronglySorted non_increasing (z :: zones) ->
  Forall (fun w => ExecutionZone.score w <= ExecutionZone.score z) (z :: zones).
Proof.
  intro H. inversion H as [|? ? _ Hz]; subst.
  constructor; [apply Qle_refl | exact Hz].
Qed.

(** X5. When every level of the 20-pip window can be scored, get_best_zone
    returns either a zone of the window that scores at least 50, at least
    min_score and at least as much as every zone of the window, or no
    zone, and then every zone of the window scores below 50 or below
    min_score. *)
Theorem best_zone_is_maximal (self : t) (market_data : MarketData.t)
  (min_score : Q) (rs rs' : RandomState) (window : list ExecutionZone.t) :
  score_window self market_data (MarketData.bid market_data)
    (py_range (-20) 21) rs = Ok (window, rs') ->
  exists best,
    get_best_zone self market_data min_score rs = Ok (best, rs') /\
    match best with
    | Some z =>
        In z window /\
        50 <= ExecutionZone.score z /\
        min_score <= ExecutionZone.score z /\
        Forall (fun w => ExecutionZone.score w <= ExecutionZone.score z) window
    | None =>
        Forall (fun w => ExecutionZone.score w < 50 \/
                         ExecutionZone.score w < min_score) window
    end.
Proof.
  intro Hw. unfold get_best_zone, bind.
  rewrite (scan_all_zones_window self market_data 20 rs window rs' Hw).
  set (kept := filter (fun z => 50 <=? ExecutionZone.score z) window).
  pose proof (py_sorted_perm score_desc kept) as Hperm.
  pose proof (sorted_by_score kept) as Hsorted.
  assert (Hkept : forall w, In w window ->
                            In w kept \/ ExecutionZone.score w < 50).
  { intros w Hin. destruct (50 <=? ExecutionZone.score w) eqn:E.
    - left. apply filter_In. now split.
    - right. now apply Qleb_gt. }
  destruct (py_sorted score_desc kept) as [|z zones] eqn:Es.
  - exists None. split; [reflexivity|].
    apply Forall_forall. intros w Hin.
    destruct (Hkept w Hin) as [Hk | Hlow]; [|now left].
    apply (Permutation_in _ Hperm) in Hk. destruct Hk.
  - pose proof (sorted_head_maximal z zones Hsorted) as Hmax.
    assert (Hz : In z kept)
      by (apply (Permutation_in _ (Permutation_sym Hperm)); now left).
    apply filter_In in Hz as [Hzw Hz50]. apply Qle_bool_iff in Hz50.
    assert (Hall : forall w, In w window ->
                             ExecutionZone.score w <= ExecutionZone.score z).
    { intros w Hin. destruct (Hkept w Hin) as [Hk | Hlow]; [|lra].
      apply (Permutation_in _ Hperm) in Hk.
      rewrite Forall_forall in Hmax. now apply Hmax. }
    destruct (min_score <=? ExecutionZone.score z) eqn:Emin; qprop.
    + exists (Some z). split; [reflexivity|].
      repeat split; try assumption. now apply Forall_forall.
    + exists None. split; [reflexivity|].
      apply Forall_forall. intros w Hin. right.
      specialize (Hall w Hin). lra.
Qed.

(** *** The first zone is the earliest scanned of the best ones *)

Lemma py_sorted_head_first_max (zones : list ExecutionZone.t) :
  forall h rest,
    py_sorted score_desc zones = h :: rest ->
    exists before after,
      zones = before ++ h :: after /\
      Forall (fun w => ExecutionZone.score w < ExecutionZone.score h) before /\
      Forall (fun w => ExecutionZone.score w <= ExecutionZone.score h) after.
Proof.
  induction zones as [|x zones IH]; intros h rest; cbn [py_sorted].
  - discriminate.
  - destruct (py_sorted score_desc zones) as [|h' rest'] eqn:Es; cbn [insert_sorted].
    + intro H. injection H as <- <-.
      assert (zones = []) as ->.
      { pose proof (py_sorted_perm score_desc zones) as P. rewrite Es in P.
        now apply Permutation_sym, Permutation_nil in P. }
      exists [], []. repeat split; constructor.
    + destruct (IH h' rest' eq_refl) as (before & after & -> & Hb & Ha).
      unfold score_desc at 1.
      destruct (ExecutionZone.score h' <=? ExecutionZone.score x) eqn:E; qprop;
        intro H; injection H as <- <-.
      * exists [], (before ++ h' :: after). split; [reflexivity|].
        split; [constructor|].
        apply Forall_app. split.
        -- eapply Forall_impl; [|exact Hb]. cbn. intros w Hw. lra.
        -- constructor; [assumption|].
           eapply Forall_impl; [|exact Ha]. cbn. intros w Hw. lra.
      * exists (x :: before), after. split; [reflexivity|].
        split; [constructor; assumption | assumption].
Qed.

(** X6. The first zone of scan_all_zones is, among the scanned levels that
    score at least 50, the earliest scanned one with the highest score:
    every kept level scanned before it scores strictly less and every kept
    level scanned after it scores no more. *)
Theorem scan_first_zone_is_earliest_best (self : t) (market_data : MarketData.t)
  (range_pips : Z) (rs rs' : RandomState) (window : list ExecutionZone.t)
  (first : ExecutionZone.t) (others : list ExecutionZone.t) :
  score_window self market_data (MarketData.bid market_data)
    (py_range (- range_pips) (range_pips + 1)) rs = Ok (window, rs') ->
  scan_all_zones self market_data range_pips rs = Ok (first :: others, rs') ->
  exists before after,
    filter (fun z => 50 <=? ExecutionZone.score z) window
      = before ++ first :: after /\
    Forall (fun w => ExecutionZone.score w < ExecutionZone.score first) before /\
    Forall (fun w => ExecutionZone.score w <= ExecutionZone.score first) after.
Proof.
  intros Hw Hscan.
  rewrite (scan_all_zones_window self market_data range_pips rs window rs' Hw)
    in Hscan.
  injection Hscan as Hsort. now apply py_sorted_head_first_max with others.
Qed.

(** *** The scanned levels *)

Lemma scan_loop_grid (self : t) (market_data : MarketData.t) (current_price : Q)
  (lo hi : Z) (offsets : list Z) :
  Forall (fun k => (lo <= k <= hi)%Z) offsets ->
  forall zones rs result rs',
    Forall (fun z => exists k, (lo <= k <= hi)%Z /\
                     ExecutionZone.price z
                       = current_price + inject_Z k * pip_value self) zones ->
    scan_loop self market_data current_price offsets zones rs = Ok (result, rs') ->
    Forall (fun z => exists k, (lo <= k <= hi)%Z /\
                     ExecutionZone.price z
                       = current_price + inject_Z k * pip_value self) result /\
    (List.length result <= List.length zones + List.length offsets)%nat.
Proof.
  induction 1 as [|k offsets Hk _ IH]; intros zones rs result rs' Hzones;
    cbn [scan_loop].
  - unfold ret. intro H. injection H as <- <-. split; [assumption | lia].
  - unfold bind.
    destruct (calculate_score self _ market_data rs) as [[zone rs1]|e] eqn:Ez;
      [|discriminate].
    destruct (calculate_score_zone _ _ _ _ _ _ Ez) as (Hprice & _).
    intro Hloop. apply IH in Hloop.
    + destruct Hloop as [Hgrid Hlen]. split; [assumption|].
      destruct (50 <=? ExecutionZone.score zone);
        rewrite ?length_app in Hlen; cbn [List.length] in *; lia.
    + destruct (50 <=? ExecutionZone.score zone); [|assumption].
      apply Forall_app. split; [assumption|].
      constructor; [|constructor]. now exists k.
Qed.

Lemma py_range_bounds (a b : Z) : Forall (fun k => (a <= k <= b - 1)%Z) (py_range a b).
Proof.
  unfold py_range. apply Forall_forall. intros k Hin.
  apply in_map_iff in Hin as (i & <- & Hi). apply in_seq in Hi. lia.
Qed.

Lemma py_range_length (a b : Z) : List.length (py_range a b) = Z.to_nat (b - a).
Proof.
  unfold py_range. now rewrite length_map, length_seq.
Qed.

Lemma scan_all_zones_grid (self : t) (market_data : MarketData.t)
  (range_pips : Z) (rs rs' : RandomState) (zones : list ExecutionZone.t) :
  scan_all_zones self market_data range_pips rs = Ok (zones, rs') ->
  Forall (fun z => exists k, (- range_pips <= k <= range_pips)%Z /\
                   ExecutionZone.price z
                     = MarketData.bid market_data + inject_Z k * pip_value self)
         zones /\
  (List.length zones <= Z.to_nat (2 * range_pips + 1))%nat.
Proof.
  unfold scan_all_zones, bind.
  destruct (scan_loop self market_data (MarketData.bid market_data)
              (py_range (- range_pips) (range_pips + 1)) [] rs)
    as [[found rs1]|e] eqn:Eloop; [|discriminate].
  unfold ret. intro H. injection H as <- <-.
  pose proof (py_range_bounds (- range_pips) (range_pips + 1)) as Hr.
  replace (range_pips + 1 - 1)%Z with range_pips in Hr by lia.
  destruct (scan_loop_grid self market_data (MarketData.bid market_data)
              (- range_pips)%Z range_pips _ Hr [] rs found rs1 (Forall_nil _) Eloop)
    as [Hgrid Hlen].
  pose proof (py_sorted_perm score_desc found) as Hperm. split.
  - eapply Permutation_Forall; [exact Hperm | exact Hgrid].
  - rewrite <- (Permutation_length Hperm). rewrite py_range_length in Hlen.
    cbn [List.length] in Hlen. replace (2 * range_pips + 1)%Z
      with (range_pips + 1 - - range_pips)%Z by lia. lia.
Qed.

(** X7. Every zone scan_all_zones returns lies at the bid plus a whole
    number of pips between -range_pips and range_pips, and the result
    holds at most 2*range_pips + 1 zones. *)
Theorem scan_zones_on_the_pip_grid (self : t) (market_data : MarketData.t)
  (range_pips : Z) (rs rs' : RandomState) (zones : list ExecutionZone.t) :
  scan_all_zones self market_data range_pips rs = Ok (zones, rs') ->
  Forall (fun z => exists k, (- range_pips <= k <= range_pips)%Z /\
                   ExecutionZone.price z
                     = MarketData.bid market_data + inject_Z k * pip_value self)
         zones /\
  (List.length zones <= Z.to_nat (2 * range_pips + 1))%nat.
Proof.
  exact (scan_all_zones_grid self market_data range_pips rs rs' zones).
Qed.


End ScanFacts.


(** ** Risk accounting *)

Section RiskFacts.
Import RiskController.

(** *** Position sizing *)

Lemma py_round_nearest (x : Q) :
  Qabs (inject_Z (py_round x) - x) <= 1 # 2.
Proof.
  unfold py_round. cbv zeta.
  pose proof (Qfloor_le x) as Hlo. pose proof (Qlt_floor x) as Hhi.
  rewrite inject_Z_plus in Hhi. change (inject_Z 1) with 1 in Hhi.
  destruct (Qcompare (x - inject_Z (Qfloor x)) (1 # 2)) eqn:Ec.
  - apply Qeq_alt in Ec.
    destruct (Z.even (Qfloor x)); [|rewrite inject_Z_plus; change (inject_Z 1) with 1];
      apply Qabs_Qle_condition; split; lra.
  - apply Qlt_alt in Ec. apply Qabs_Qle_condition; split; lra.
  - apply Qgt_alt in Ec. rewrite inject_Z_plus. change (inject_Z 1) with 1.
    apply Qabs_Qle_condition; split; lra.
Qed.

Lemma py_round2_nearest (x : Q) : Qabs (py_round2 x - x) <= 1 # 200.
Proof.
  unfold py_round2. pose proof (py_round_nearest (x * 100)) as H.
  apply Qabs_Qle_condition in H as [H1 H2].
  set (r := inject_Z (py_round (x * 100))) in *.
  assert (E : r / 100 == r * (1 # 100))
    by (unfold Qdiv; apply Qmult_comp; reflexivity).
  rewrite E. apply Qabs_Qle_condition. split; lra.
Qed.

(** X9. calculate_lot_size raises ZeroDivisionError when stop_loss_pips
    times the pip dollar value is zero; otherwise it returns a lot between
    0.01 and 100, which is within 0.005 of balance * risk_per_trade /
    (stop_loss_pips * pip_dollar_value) whenever the rounded value is
    itself between 0.01 and 100. *)
Theorem lot_size_is_rounded_and_clamped (self : t) (balance stop_loss_pips : Q) :
  (stop_loss_pips * pip_dollar_value self == 0 ->
   calculate_lot_size self balance stop_loss_pips = Raise ZeroDivisionError) /\
  (~ stop_loss_pips * pip_dollar_value self == 0 ->
   exists lot,
     calculate_lot_size self balance stop_loss_pips = Ok lot /\
     0.01 <= lot /\ lot <= 100 /\
     let raw := balance * risk_per_trade self
                / (stop_loss_pips * pip_dollar_value self) in
     (0.01 <= py_round2 raw -> py_round2 raw <= 100 ->
      Qabs (lot - raw) <= 1 # 200)).
Proof.
  unfold calculate_lot_size. cbv zeta. split; intro Hz.
  - unfold pydiv. apply Qeq_bool_iff in Hz. now rewrite Hz.
  - rewrite pydiv_nonzero by assumption. cbn [bind_result].
    set (raw := balance * risk_per_trade self
                / (stop_loss_pips * pip_dollar_value self)).
    eexists. split; [reflexivity|].
    split; [apply Q.le_max_l|]. split.
    + apply Q.max_lub; [lra | apply Q.le_min_r].
    + intros Hlo Hhi.
      rewrite (Q.min_l (py_round2 raw) 100) by assumption.
      rewrite (Q.max_r 0.01 (py_round2 raw)) by assumption.
      apply py_round2_nearest.
Qed.

(** *** When trading is allowed *)

Lemma can_trade_true_iff (self : t) (now : Q) :
  (exists msg, snd (can_trade self now) = Ok (true, msg)) <->
  (_bot_stopped self = false /\
   _today_loss self < _today_starting self * max_daily_loss self /\
   ~ _starting_balance self == 0 /\
   (_starting_balance self - (_today_starting self - _today_loss self))
     / _starting_balance self < max_total_dd self /\
   (_today_trades self < max_trades_day self)%Z /\
   match _last_trade_time self with
   | None => True
   | Some last => min_trade_interval self <= now - last
   end).
Proof.
  unfold can_trade, _check_daily_loss, _check_total_drawdown, _check_trade_count,
    _check_trade_interval, pydiv. cbv zeta. split.
  - intros [msg H].
    destruct (_bot_stopped self); [discriminate|].
    destruct (_today_loss self <? _) eqn:E1; cbn [negb] in H; [|discriminate].
    destruct (_starting_balance self =? 0) eqn:E2; cbn [bind_result] in H;
      [discriminate|].
    destruct (_ <? max_total_dd self) eqn:E3; [|discriminate].
    destruct (_today_trades self <? max_trades_day self)%Z eqn:E4;
      cbn [negb] in H; [|discriminate].
    qprop. apply Z.ltb_lt in E4. repeat split; try assumption.
    destruct (_last_trade_time self) as [last|]; [|exact I].
    destruct (min_trade_interval self <=? now - last) eqn:E5; cbn [negb] in H;
      [now qprop | discriminate].
  - intros (Hs & H1 & H2 & H3 & H4 & H5).
    rewrite Hs. apply Qltb_lt in H1. rewrite H1. cbn [negb].
    apply Qeqb_neq in H2. rewrite H2. cbn [bind_result].
    apply Qltb_lt in H3. rewrite H3. apply Z.ltb_lt in H4. rewrite H4. cbn [negb].
    destruct (_last_trade_time self) as [last|].
    + apply Qle_bool_iff in H5. rewrite H5. cbn [negb]. now exists MsgOK.
    + now exists MsgOK.
Qed.

(** *** The trade interval and the daily trade count *)

Lemma step_keeps_last_trade (self : t) (op : Op) :
  keeps_last_trade op = true ->
  _last_trade_time (step self op) = _last_trade_time self /\
  min_trade_interval (step self op) = min_trade_interval self.
Proof.
  destruct op; cbn [keeps_last_trade step]; intro H; try discriminate;
    try (split; reflexivity).
  destruct (can_trade_state self now) as [-> | ->]; split; reflexivity.
Qed.

Lemma run_keeps_last_trade (ops : list Op) :
  forall self,
    forallb keeps_last_trade ops = true ->
    _last_trade_time (run self ops) = _last_trade_time self /\
    min_trade_interval (run self ops) = min_trade_interval self.
Proof.
  unfold run. induction ops as [|op ops IH]; intros self H; cbn [fold_left].
  - split; reflexivity.
  - cbn [forallb] in H. apply andb_true_iff in H as [Hop Hops].
    destruct (step_keeps_last_trade self op Hop) as [E1 E2].
    destruct (IH (step self op) Hops) as [E3 E4]. split; congruence.
Qed.

Lemma can_trade_refuses_early (self : t) (now last : Q) :
  _last_trade_time self = Some last ->
  now - last < min_trade_interval self ->
  forall msg, snd (can_trade self now) <> Ok (true, msg).
Proof.
  intros Hlast Hearly msg Htrue.
  destruct (proj1 (can_trade_true_iff self now))
    as (_ & _ & _ & _ & _ & H); [now exists msg|].
  rewrite Hlast in H. lra.
Qed.

(** X10. After record_trade, can_trade never answers true earlier than
    min_trade_interval seconds after that trade, whatever balance updates,
    can_trade calls, daily resets and stops come in between: reset_daily
    does not clear the time of the last trade. *)
Theorem trade_interval_survives_rollover (self : t) (time profit : Q)
  (ops : list Op) (now : Q) :
  forallb keeps_last_trade ops = true ->
  now - time < min_trade_interval self ->
  forall msg,
    snd (can_trade (run (record_trade self time profit) ops) now)
      <> Ok (true, msg).
Proof.
  intros Hops Hearly.
  destruct (run_keeps_last_trade ops (record_trade self time profit) Hops)
    as [Hlast Hint].
  apply can_trade_refuses_early with time.
  - rewrite Hlast. reflexivity.
  - rewrite Hint. exact Hearly.
Qed.

Lemma step_today_trades (self : t) (op : Op) :
  intraday op = true ->
  (_today_trades self <= _today_trades (step self op))%Z /\
  max_trades_day (step self op) = max_trades_day self.
Proof.
  destruct op; cbn [intraday step]; intro H; try discriminate;
    try (split; [apply Z.le_refl | reflexivity]).
  - destruct (can_trade_state self now) as [-> | ->];
      split; try reflexivity; apply Z.le_refl.
  - cbn. split; [lia | reflexivity].
Qed.

Lemma run_today_trades (ops : list Op) :
  forall self,
    forallb intraday ops = true ->
    (_today_trades self <= _today_trades (run self ops))%Z /\
    max_trades_day (run self ops) = max_trades_day self.
Proof.
  unfold run. induction ops as [|op ops IH]; intros self H; cbn [fold_left].
  - split; [apply Z.le_refl | reflexivity].
  - cbn [forallb] in H. apply andb_true_iff in H as [Hop Hops].
    destruct (step_today_trades self op Hop) as [E1 E2].
    destruct (IH (step self op) Hops) as [E3 E4]. split; [lia | congruence].
Qed.

(** X11. Once the trades of the day have reached max_trades_per_day,
    can_trade does not answer true after any sequence of balance updates,
    can_trade calls, trade recordings and stops; only reset_daily or
    initialize can lift the cap. *)
Theorem trade_cap_holds_until_rollover (self : t) (ops : list Op) (now : Q) :
  (max_trades_day self <= _today_trades self)%Z ->
  forallb intraday ops = true ->
  forall msg, snd (can_trade (run self ops) now) <> Ok (true, msg).
Proof.
  intros Hcap Hops msg Htrue.
  destruct (run_today_trades ops self Hops) as [Hgrow Hmax].
  destruct (proj1 (can_trade_true_iff (run self ops) now))
    as (_ & _ & _ & _ & H & _); [now exists msg|].
  rewrite Hmax in H. lia.
Qed.

(** *** Invariants of the counters *)

Lemma step_today_loss_nonneg (self : t) (op : Op) :
  0 <= _today_loss self -> 0 <= _today_loss (step self op).
Proof.
  intro H. destruct op; cbn [step].
  - unfold initialize. destruct db as [stats|]; cbn; [apply Qabs_nonneg | lra].
  - unfold update_balance. cbn. qcase; lra.
  - destruct (can_trade_state self now) as [-> | ->]; assumption.
  - unfold record_trade. cbn. pose proof (Qabs_nonneg profit). qcase; lra.
  - cbn. lra.
  - assumption.
Qed.

(** X12. Starting from a newly constructed controller, the daily loss
    counter is never negative after any sequence of initialize,
    update_balance, can_trade, record_trade, reset_daily and stop_bot
    calls. *)
Theorem daily_loss_is_never_negative (config : Config) (ops : list Op) :
  0 <= _today_loss (run (__init__ config) ops).
Proof.
  unfold run.
  assert (H : 0 <= _today_loss (__init__ config)) by (cbn; lra).
  revert H. generalize (__init__ config).
  induction ops as [|op ops IH]; intros self H; cbn [fold_left].
  - exact H.
  - apply IH, step_today_loss_nonneg, H.
Qed.

(** X13. After any sequence of calls without initialize, the highest
    balance is at least every balance that update_balance was given during
    the sequence. *)
Theorem high_water_dominates_reported_balances (ops : list Op) :
  forall (self : t) (balance : Q),
    forallb (fun op => negb (is_initialize op)) ops = true ->
    In (UpdateBalance balance) ops ->
    balance <= _highest_balance (run self ops).
Proof.
  induction ops as [|op ops IH]; intros self balance Hops Hin; [destruct Hin|].
  cbn [forallb] in Hops. apply andb_true_iff in Hops as [Hop Hops].
  change (run self (op :: ops)) with (run (step self op) ops).
  destruct Hin as [-> | Hin].
  - eapply Qle_trans; [|apply run_highest_balance, Hops].
    cbn [step]. unfold update_balance. cbn. qcase; lra.
  - now apply IH.
Qed.

End RiskFacts.

(** ** Position tracking *)

Section TrackingFacts.
Import PositionManager.

(** *** The ticket dictionaries *)

Lemma ticket_get_set {V : Type} (d : list (Z * V)) (k : Z) (v : V) :
  ticket_get (ticket_set d k v) k = Some v.
Proof.
  induction d as [|[k' v'] d IH]; cbn [ticket_set ticket_get].
  - now rewrite Z.eqb_refl.
  - destruct (k' =? k)%Z eqn:E; cbn [ticket_get].
    + now rewrite Z.eqb_refl.
    + now rewrite E.
Qed.

Lemma ticket_get_set_other {V : Type} (d : list (Z * V)) (k k' : Z) (v : V) :
  k' <> k -> ticket_get (ticket_set d k v) k' = ticket_get d k'.
Proof.
  intro Hne. induction d as [|[k0 v0] d IH]; cbn [ticket_set ticket_get].
  - apply Z.eqb_neq in Hne. rewrite Z.eqb_sym in Hne. now rewrite Hne.
  - destruct (k0 =? k)%Z eqn:E; cbn [ticket_get].
    + apply Z.eqb_eq in E. subst k0.
      assert (E' : (k =? k')%Z = false) by (apply Z.eqb_neq; congruence).
      now rewrite E'.
    + now rewrite IH.
Qed.

Lemma ticket_get_pop {V : Type} (d : list (Z * V)) (k : Z) :
  ticket_get (ticket_pop d k) k = None.
Proof.
  unfold ticket_pop. induction d as [|[k' v'] d IH]; cbn [filter ticket_get fst].
  - reflexivity.
  - destruct (k' =? k)%Z eqn:E; cbn [negb ticket_get]; [assumption|].
    now rewrite E.
Qed.

Lemma ticket_get_pop_other {V : Type} (d : list (Z * V)) (k k' : Z) :
  k' <> k -> ticket_get (ticket_pop d k) k' = ticket_get d k'.
Proof.
  intro Hne. unfold ticket_pop.
  induction d as [|[k0 v0] d IH]; cbn [filter ticket_get fst]; [reflexivity|].
  destruct (k0 =? k)%Z eqn:E; cbn [negb ticket_get].
  - apply Z.eqb_eq in E. subst k0.
    assert (E' : (k =? k')%Z = false) by (apply Z.eqb_neq; congruence).
    now rewrite E'.
  - now rewrite IH.
Qed.

(** *** Opening *)

Lemma execute_signal_tracking (self : t) (signal : TradeSignal.t)
  (lot_size : Q) (terminal : Terminal.t)
  (order_send : OrderSend.Request -> option OrderSend.Result) :
  let self' := fst (execute_signal self signal lot_size terminal order_send) in
  match snd (execute_signal self signal lot_size terminal order_send) with
  | Ok (Some ticket) =>
      ticket_get (_position_entry_times self') ticket
        = Some (Terminal.now terminal) /\
      ticket_get (_position_meta self') ticket
        = Some {| meta_zone_type :=
                    ExecutionZone.zone_type (TradeSignal.zone signal);
                  meta_score := ExecutionZone.score (TradeSignal.zone signal);
                  meta_confidence := TradeSignal.confidence signal |} /\
      (forall other, other <> ticket ->
         ticket_get (_position_entry_times self') other
           = ticket_get (_position_entry_times self) other /\
         ticket_get (_position_meta self') other
           = ticket_get (_position_meta self) other) /\
      _volume_history self' = _volume_history self /\
      _spread_history self' = _spread_history self
  | _ => self' = self
  end.
Proof.
  cbv zeta. unfold execute_signal.
  destruct (Terminal.symbol_info_tick terminal) as [[[bid ask]|]|e];
    try reflexivity.
  destruct (TradeSignal.direction signal);
    (destruct (order_send _) as [answer|]; [|reflexivity];
     destruct (OrderSend.retcode answer =? OrderSend.TRADE_RETCODE_DONE)%Z;
     cbn [negb fst snd]; [|reflexivity];
     cbn [with_tracking _position_entry_times _position_meta _volume_history
            _spread_history];
     split; [apply ticket_get_set|]; split; [apply ticket_get_set|];
     split; [|split; reflexivity];
     intros other Hne; split; now apply ticket_get_set_other).
Qed.

(** X14. When execute_signal returns a ticket, the manager holds under
    that ticket the current time and the zone type, score and confidence
    of the signal, and the entries of every other ticket and the volume
    and spread histories are as before; when it returns None or raises,
    the manager is unchanged. *)
Theorem executed_signal_is_tracked (self : t) (signal : TradeSignal.t)
  (lot_size : Q) (terminal : Terminal.t)
  (order_send : OrderSend.Request -> option OrderSend.Result) :
  let self' := fst (execute_signal self signal lot_size terminal order_send) in
  match snd (execute_signal self signal lot_size terminal order_send) with
  | Ok (Some ticket) =>
      ticket_get (_position_entry_times self') ticket
        = Some (Terminal.now terminal) /\
      ticket_get (_position_meta self') ticket
        = Some {| meta_zone_type :=
                    ExecutionZone.zone_type (TradeSignal.zone signal);
                  meta_score := ExecutionZone.score (TradeSignal.zone signal);
                  meta_confidence := TradeSignal.confidence signal |} /\
      (forall other, other <> ticket ->
         ticket_get (_position_entry_times self') other
           = ticket_get (_position_entry_times self) other /\
         ticket_get (_position_meta self') other
           = ticket_get (_position_meta self) other) /\
      _volume_history self' = _volume_history self /\
      _spread_history self' = _spread_history self
  | _ => self' = self
  end.
Proof.
  exact (execute_signal_tracking self signal lot_size terminal order_send).
Qed.

(** X15. After execute_signal returned a ticket, the Position that
    get_open_positions builds for the broker position of that ticket
    carries the entry time recorded at the opening and the zone type and
    score of the signal. *)
Theorem tracked_entry_is_reported (self self' : t) (signal : TradeSignal.t)
  (lot_size : Q) (terminal later : Terminal.t)
  (order_send : OrderSend.Request -> option OrderSend.Result)
  (ticket : Z) (pos : Terminal.BrokerPosition) (position : Position.t) :
  execute_signal self signal lot_size terminal order_send
    = (self', Ok (Some ticket)) ->
  Terminal.pos_ticket pos = ticket ->
  position_of_broker self' later pos = Ok position ->
  Position.entry_time position = Terminal.now terminal /\
  Position.zone_type position = ExecutionZone.zone_type (TradeSignal.zone signal) /\
  Position.score position = ExecutionZone.score (TradeSignal.zone signal).
Proof.
  intros Hexec Hticket Hpos.
  pose proof (execute_signal_tracking self signal lot_size terminal order_send)
    as Htracked.
  cbv zeta in Htracked. rewrite Hexec in Htracked. cbn [fst snd] in Htracked.
  destruct Htracked as (Htime & Hmeta & _).
  unfold position_of_broker in Hpos.
  destruct (Terminal.symbol_info_tick later) as [[[bid ask]|]|e]; try discriminate.
  rewrite Hticket, Htime, Hmeta in Hpos.
  match type of Hpos with
  | (let? _ := ?d in _) = _ => destruct d as [pips|e]; [|discriminate]
  end.
  cbn [bind_result] in Hpos. injection Hpos as <-. cbn. repeat split.
Qed.

(** *** Closing *)

(** X16. When close_position returns True, the entry time and the metadata
    of the closed ticket are gone and those of every other ticket and the
    histories are as before; when it returns False or raises, the manager
    is unchanged. *)
Theorem close_position_forgets_only_on_success (self : t) (position : Position.t)
  (reason : string) (terminal : Terminal.t)
  (order_send : OrderSend.Request -> option OrderSend.Result) :
  let self' := fst (close_position self position reason terminal order_send) in
  match snd (close_position self position reason terminal order_send) with
  | Ok true =>
      ticket_get (_position_entry_times self') (Position.ticket position) = None /\
      ticket_get (_position_meta self') (Position.ticket position) = None /\
      (forall other, other <> Position.ticket position ->
         ticket_get (_position_entry_times self') other
           = ticket_get (_position_entry_times self) other /\
         ticket_get (_position_meta self') other
           = ticket_get (_position_meta self) other) /\
      _volume_history self' = _volume_history self /\
      _spread_history self' = _spread_history self
  | _ => self' = self
  end.
Proof.
  cbv zeta. unfold close_position.
  destruct (Terminal.symbol_info_tick terminal) as [[[bid ask]|]|e];
    try reflexivity.
  destruct (Position.direction position);
    (destruct (OrderSend.done (order_send _)); cbn [negb fst snd];
     [|reflexivity];
     cbn [with_tracking _position_entry_times _position_meta _volume_history
            _spread_history];
     split; [apply ticket_get_pop|]; split; [apply ticket_get_pop|];
     split; [|split; reflexivity];
     intros other Hne; split; now apply ticket_get_pop_other).
Qed.

End TrackingFacts.

(** ** Monitoring *)

Section MonitoringFacts.
Import PositionManager.

Lemma monitor_position_manager (self : t) (position : Position.t)
  (terminal : Terminal.t) :
  manager (monitor_position self position terminal)
    = snd (detect_exhaustion self position terminal).
Proof.
  unfold monitor_position.
  destruct (detect_exhaustion self position terminal) as [exhausted self'].
  cbn [snd]. destruct exhausted; [reflexivity|].
  destruct (check_time_limit self' position (Terminal.now terminal));
    [reflexivity|].
  destruct (get_open_positions self' terminal) as [ps|e]; [|reflexivity].
  destruct (negb _); reflexivity.
Qed.

Lemma last_n_app_last {A : Type} (n : nat) (l : list A) (x d : A) :
  (0 < n)%nat -> List.last (last_n n (l ++ [x])) d = x.
Proof.
  intro Hn. unfold last_n. rewrite length_app. cbn [List.length].
  rewrite skipn_app.
  replace (List.length l + 1 - n - List.length l)%nat with 0%nat by lia.
  cbn [skipn]. apply last_last.
Qed.

Lemma monitor_position_histories (self : t) (position : Position.t)
  (terminal : Terminal.t) :
  let self' := manager (monitor_position self position terminal) in
  List.length (_volume_history self')
    = Nat.min 100 (List.length (_volume_history self) + 1) /\
  List.length (_spread_history self')
    = Nat.min 100 (List.length (_spread_history self) + 1) /\
  List.last (_volume_history self') 0 = _get_current_volume self terminal /\
  List.last (_spread_history self') 0 = _get_current_spread self terminal /\
  _position_entry_times self' = _position_entry_times self /\
  _position_meta self' = _position_meta self.
Proof.
  cbv zeta. rewrite monitor_position_manager, detect_exhaustion_manager.
  cbn [with_history _volume_history _spread_history _position_entry_times
         _position_meta].
  rewrite !last_n_length, !length_app. cbn [List.length].
  repeat split; apply last_n_app_last; lia.
Qed.

(** X17. Every monitor_position call appends the current volume and the
    current spread to the histories and keeps at most the last 100 samples
    of each; it never changes the recorded entry times or the metadata. *)
Theorem histories_stay_bounded (self : t) (position : Position.t)
  (terminal : Terminal.t) :
  let self' := manager (monitor_position self position terminal) in
  List.length (_volume_history self')
    = Nat.min 100 (List.length (_volume_history self) + 1) /\
  List.length (_spread_history self')
    = Nat.min 100 (List.length (_spread_history self) + 1) /\
  List.last (_volume_history self') 0 = _get_current_volume self terminal /\
  List.last (_spread_history self') 0 = _get_current_spread self terminal /\
  _position_entry_times self' = _position_entry_times self /\
  _position_meta self' = _position_meta self.
Proof.
  exact (monitor_position_histories self position terminal).
Qed.

(** *** The trailing stop *)

(** X18. monitor_position asks for a new stop only when it keeps the
    position open and the position is at least 15 pips in profit; the new
    stop is the entry plus five pips for LONG, minus five pips for SHORT,
    it is strictly closer to the market than the current stop, and it is
    not zero. *)
Theorem trailing_stop_only_tightens (self : t) (position : Position.t)
  (terminal : Terminal.t) (new_sl : Q) :
  sl_request (monitor_position self position terminal) = Some new_sl ->
  close_reason (monitor_position self position terminal) = Ok None /\
  15 <= Position.pips position /\
  ~ new_sl == 0 /\
  match Position.direction position with
  | LONG =>
      new_sl = Position.entry_price position + 5 * pip_value self /\
      Position.stop_loss position < new_sl
  | SHORT =>
      new_sl = Position.entry_price position - 5 * pip_value self /\
      new_sl < Position.stop_loss position
  end.
Proof.
  unfold monitor_position.
  destruct (detect_exhaustion self position terminal) as [exhausted self'] eqn:Ed.
  assert (Hpip : pip_value self' = pip_value self).
  { pose proof (detect_exhaustion_manager self position terminal) as H.
    rewrite Ed in H. cbn [snd] in H. now rewrite H. }
  destruct exhausted; [discriminate|].
  destruct (check_time_limit self' position (Terminal.now terminal));
    [discriminate|].
  destruct (get_open_positions self' terminal) as [ps|e]; [|discriminate].
  destruct (negb _); [discriminate|]. cbn [sl_request close_reason].
  destruct (15 <=? Position.pips position) eqn:Ep; [|discriminate]. qprop.
  unfold _trail_stop. rewrite Hpip.
  destruct (Position.direction position).
  - destruct (Position.stop_loss position <? _) eqn:Eb; [|discriminate]. qprop.
    destruct (_ =? 0) eqn:Ez; [discriminate|]. qprop.
    intro H. injection H as <-. repeat split; assumption.
  - destruct (_ <? Position.stop_loss position) eqn:Eb; [|discriminate]. qprop.
    destruct (_ =? 0) eqn:Ez; [discriminate|]. qprop.
    intro H. injection H as <-. repeat split; assumption.
Qed.

(** *** The time limit *)

(** X19. For a position held max_hold_minutes or longer, monitor_position
    always returns a close reason, EXHAUSTION or TIME_LIMIT, and asks for
    no stop modification. *)
Theorem overdue_position_is_closed (self : t) (position : Position.t)
  (terminal : Terminal.t) :
  max_hold_minutes self * 60
    <= Terminal.now terminal - Position.entry_time position ->
  (close_reason (monitor_position self position terminal)
     = Ok (Some "EXHAUSTION"%string) \/
   close_reason (monitor_position self position terminal)
     = Ok (Some "TIME_LIMIT"%string)) /\
  sl_request (monitor_position self position terminal) = None.
Proof.
  intro Hlate. unfold monitor_position.
  destruct (detect_exhaustion self position terminal) as [exhausted self'] eqn:Ed.
  assert (Hmax : max_hold_minutes self' = max_hold_minutes self).
  { pose proof (detect_exhaustion_manager self position terminal) as H.
    rewrite Ed in H. cbn [snd] in H. now rewrite H. }
  destruct exhausted; [split; [now left | reflexivity]|].
  unfold check_time_limit. cbv zeta. rewrite Hmax.
  apply Qle_bool_iff in Hlate. rewrite Hlate. split; [now right | reflexivity].
Qed.

(** *** The positions of the bot *)

Lemma position_of_broker_fields (self : t) (terminal : Terminal.t)
  (pos : Terminal.BrokerPosition) (p : Position.t) :
  position_of_broker self terminal pos = Ok p ->
  Position.ticket p = Terminal.pos_ticket pos /\
  Position.magic p = Terminal.pos_magic pos /\
  Position.direction p = (if Terminal.pos_is_buy pos then LONG else SHORT) /\
  Position.entry_price p = Terminal.pos_price_open pos /\
  Position.stop_loss p = Terminal.pos_sl pos /\
  match Position.direction p with
  | LONG =>
      Position.pips p * pip_value self
        == Position.current_price p - Position.entry_price p
  | SHORT =>
      Position.pips p * pip_value self
        == Position.entry_price p - Position.current_price p
  end.
Proof.
  unfold position_of_broker.
  destruct (Terminal.symbol_info_tick terminal) as [[[bid ask]|]|e];
    try discriminate.
  destruct (Terminal.pos_is_buy pos).
  - destruct (pydiv _ (pip_value self)) as [pips|e] eqn:Ediv; [|discriminate].
    cbn [bind_result]. intro H. injection H as <-. cbn.
    apply pydiv_Ok in Ediv as [Hne ->]. repeat split.
    unfold Qdiv. rewrite <- Qmult_assoc, (Qmult_comm (/ _)), Qmult_inv_r by assumption.
    apply Qmult_1_r.
  - destruct (pydiv _ (pip_value self)) as [pips|e] eqn:Ediv; [|discriminate].
    cbn [bind_result]. intro H. injection H as <-. cbn.
    apply pydiv_Ok in Ediv as [Hne ->]. repeat split.
    unfold Qdiv. rewrite <- Qmult_assoc, (Qmult_comm (/ _)), Qmult_inv_r by assumption.
    apply Qmult_1_r.
Qed.

Lemma open_positions_loop_spec (self : t) (terminal : Terminal.t)
  (positions : list Terminal.BrokerPosition) :
  forall ps,
    open_positions_loop self terminal positions = Ok ps ->
    Forall2 (fun pos p => position_of_broker self terminal pos = Ok p)
      (filter (fun pos => (Terminal.pos_magic pos =? magic_number self)%Z)
         positions) ps.
Proof.
  induction positions as [|pos positions IH]; intros ps;
    cbn [open_positions_loop filter].
  - intro H. injection H as <-. constructor.
  - destruct (Terminal.pos_magic pos =? magic_number self)%Z; cbn [negb].
    + destruct (position_of_broker self terminal pos) as [p|e] eqn:Ep;
        [|discriminate].
      cbn [bind_result].
      destruct (open_positions_loop self terminal positions) as [ps'|e];
        [|discriminate].
      cbn [bind_result]. intro H. injection H as <-.
      constructor; [assumption | now apply IH].
    + apply IH.
Qed.

(** X20. get_open_positions returns, in the broker's order, exactly the
    broker positions that carry the bot's magic number; the pips of each
    times the pip value is the price move in the position's favour. *)
Theorem open_positions_are_the_bots (self : t) (terminal : Terminal.t)
  (ps : list Position.t) :
  get_open_positions self terminal = Ok ps ->
  map Position.ticket ps
    = map Terminal.pos_ticket
        (filter (fun pos => (Terminal.pos_magic pos =? magic_number self)%Z)
           (match Terminal.positions_get terminal with
            | Some positions => positions
            | None => []
            end)) /\
  Forall (fun p =>
            Position.magic p = magic_number self /\
            match Position.direction p with
            | LONG =>
                Position.pips p * pip_value self
                  == Position.current_price p - Position.entry_price p
            | SHORT =>
                Position.pips p * pip_value self
                  == Position.entry_price p - Position.current_price p
            end) ps.
Proof.
  unfold get_open_positions.
  destruct (Terminal.positions_get terminal) as [positions|].
  2: { intro H. injection H as <-. split; [reflexivity | constructor]. }
  intro H. apply open_positions_loop_spec in H.
  set (mine := filter _ positions) in *.
  assert (Hmine : Forall (fun pos => Terminal.pos_magic pos = magic_number self) mine).
  { apply Forall_forall. intros pos Hin. apply filter_In in Hin as [_ Hm].
    now apply Z.eqb_eq. }
  clearbody mine. induction H as [|pos p mine ps Hp _ IH].
  - split; [reflexivity | constructor].
  - inversion Hmine as [|? ? Hm Hrest]; subst.
    destruct (IH Hrest) as [Ht Hf].
    destruct (position_of_broker_fields _ _ _ _ Hp) as (Hticket & Hmagic & _ & _ & _ & Hpips).
    split.
    + cbn [map]. now rewrite Hticket, Ht.
    + constructor; [|assumption]. split; [congruence | assumption].
Qed.

End MonitoringFacts.

(** ** The monitoring step of the trading loop *)

Section LoopFacts.
Import IOFAEBot.

Lemma record_trade_counters (rc : RiskController.t) (now profit : Q) :
  RiskController._today_trades (RiskController.record_trade rc now profit)
    = (RiskController._today_trades rc + 1)%Z /\
  RiskController._today_loss rc
    <= RiskController._today_loss (RiskController.record_trade rc now profit) /\
  RiskController._bot_stopped (RiskController.record_trade rc now profit)
    = RiskController._bot_stopped rc /\
  RiskController._highest_balance (RiskController.record_trade rc now profit)
    = RiskController._highest_balance rc /\
  RiskController._today_starting (RiskController.record_trade rc now profit)
    = RiskController._today_starting rc.
Proof.
  unfold RiskController.record_trade. cbn. repeat split.
  pose proof (Qabs_nonneg profit). qcase; lra.
Qed.

Lemma monitor_loop_accounting (terminals : nat -> Terminal.t)
  (order_send : OrderSend.Request -> option OrderSend.Result)
  (positions : list Position.t) :
  forall self tick,
    let self' := fst (monitor_loop self terminals tick order_send positions) in
    (RiskController._today_trades (risk_ctrl self)
       <= RiskController._today_trades (risk_ctrl self')
       <= RiskController._today_trades (risk_ctrl self)
          + Z.of_nat (List.length positions))%Z /\
    RiskController._today_loss (risk_ctrl self)
      <= RiskController._today_loss (risk_ctrl self') /\
    RiskController._bot_stopped (risk_ctrl self')
      = RiskController._bot_stopped (risk_ctrl self) /\
    RiskController._highest_balance (risk_ctrl self')
      = RiskController._highest_balance (risk_ctrl self) /\
    RiskController._today_starting (risk_ctrl self')
      = RiskController._today_starting (risk_ctrl self).
Proof.
  induction positions as [|position positions IH]; intros self tick; cbv zeta;
    cbn [monitor_loop].
  - cbn [fst List.length]. repeat split; try lia; apply Qle_refl.
  - assert (Hskip : forall manager,
              let next :=
                fst (monitor_loop
                       (mk manager (risk_ctrl self) (save_trade_close self)
                          (notify_trade_close self))
                       terminals (S tick) order_send positions) in
              (RiskController._today_trades (risk_ctrl self)
                 <= RiskController._today_trades (risk_ctrl next)
                 <= RiskController._today_trades (risk_ctrl self)
                    + Z.of_nat (List.length (position :: positions)))%Z /\
              RiskController._today_loss (risk_ctrl self)
                <= RiskController._today_loss (risk_ctrl next) /\
              RiskController._bot_stopped (risk_ctrl next)
                = RiskController._bot_stopped (risk_ctrl self) /\
              RiskController._highest_balance (risk_ctrl next)
                = RiskController._highest_balance (risk_ctrl self) /\
              RiskController._today_starting (risk_ctrl next)
                = RiskController._today_starting (risk_ctrl self)).
    { intro manager. cbv zeta.
      destruct (IH (mk manager (risk_ctrl self) (save_trade_close self)
                      (notify_trade_close self)) (S tick))
        as (Ht & Hl & Hs & Hh & Hd).
      cbn [risk_ctrl] in *. cbn [List.length]. repeat split; try assumption; lia. }
    assert (Hstop :
              (RiskController._today_trades (risk_ctrl self)
                 <= RiskController._today_trades (risk_ctrl self)
                 <= RiskController._today_trades (risk_ctrl self)
                    + Z.of_nat (List.length (position :: positions)))%Z /\
              RiskController._today_loss (risk_ctrl self)
                <= RiskController._today_loss (risk_ctrl self) /\
              RiskController._bot_stopped (risk_ctrl self)
                = RiskController._bot_stopped (risk_ctrl self) /\
              RiskController._highest_balance (risk_ctrl self)
                = RiskController._highest_balance (risk_ctrl self) /\
              RiskController._today_starting (risk_ctrl self)
                = RiskController._today_starting (risk_ctrl self)).
    { repeat split; try lia; apply Qle_refl. }
    destruct (record_trade_counters (risk_ctrl self)
                (Terminal.now (terminals tick)) (Position.profit position))
      as (Rt & Rl & Rs & Rh & Rd).
    destruct (PositionManager.close_reason _) as [[close_reason|]|e].
    + destruct (String.eqb close_reason ""); [apply Hskip|].
      cbn [position_mgr risk_ctrl].
      destruct (PositionManager.close_position _ position close_reason
                  (terminals tick) order_send) as [manager [[|]|e]].
      * destruct (call_collaborator (save_trade_close self) position close_reason)
          as [saved|e]; [|cbn [fst risk_ctrl]; apply Hstop].
        destruct (call_collaborator (notify_trade_close self) position
                    close_reason) as [notified|e].
        -- destruct (IH (mk manager
                           (RiskController.record_trade (risk_ctrl self)
                              (Terminal.now (terminals tick))
                              (Position.profit position))
                           (save_trade_close self) (notify_trade_close self))
                        (S tick)) as (Ht & Hl & Hs & Hh & Hd).
           cbn [risk_ctrl] in *. cbn [List.length]. repeat split.
           ++ lia.
           ++ lia.
           ++ eapply Qle_trans; eassumption.
           ++ congruence.
           ++ congruence.
           ++ congruence.
        -- cbn [fst risk_ctrl List.length]. repeat split; try assumption; lia.
      * apply Hskip.
      * cbn [fst risk_ctrl]. apply Hstop.
    + apply Hskip.
    + cbn [fst risk_ctrl]. apply Hstop.
Qed.

Lemma close_position_refused (pm : PositionManager.t) (position : Position.t)
  (reason : string) (terminal : Terminal.t)
  (order_send : OrderSend.Request -> option OrderSend.Result) :
  (forall request, OrderSend.done (order_send request) = false) ->
  fst (PositionManager.close_position pm position reason terminal order_send) = pm /\
  snd (PositionManager.close_position pm position reason terminal order_send)
    <> Ok true.
Proof.
  intro Hrefuse. unfold PositionManager.close_position.
  destruct (Terminal.symbol_info_tick terminal) as [[[bid ask]|]|e];
    try (split; [reflexivity | discriminate]).
  destruct (Position.direction position); rewrite Hrefuse; cbn [negb];
    (split; [reflexivity | discriminate]).
Qed.

Lemma monitor_loop_refused (terminals : nat -> Terminal.t)
  (order_send : OrderSend.Request -> option OrderSend.Result)
  (positions : list Position.t) :
  (forall request, OrderSend.done (order_send request) = false) ->
  forall self tick,
    let self' := fst (monitor_loop self terminals tick order_send positions) in
    risk_ctrl self' = risk_ctrl self /\
    PositionManager._position_entry_times (position_mgr self')
      = PositionManager._position_entry_times (position_mgr self) /\
    PositionManager._position_meta (position_mgr self')
      = PositionManager._position_meta (position_mgr self).
Proof.
  intro Hrefuse. induction positions as [|position positions IH];
    intros self tick; cbv zeta; cbn [monitor_loop].
  - repeat split.
  - destruct (monitor_position_histories (position_mgr self) position
                (terminals tick)) as (_ & _ & _ & _ & Htimes & Hmeta).
    set (pm1 := PositionManager.manager
                  (PositionManager.monitor_position (position_mgr self) position
                     (terminals tick))) in *.
    assert (Hskip : let next :=
                      fst (monitor_loop
                             (mk pm1 (risk_ctrl self) (save_trade_close self)
                                (notify_trade_close self))
                             terminals (S tick) order_send positions) in
                    risk_ctrl next = risk_ctrl self /\
                    PositionManager._position_entry_times (position_mgr next)
                      = PositionManager._position_entry_times (position_mgr self) /\
                    PositionManager._position_meta (position_mgr next)
                      = PositionManager._position_meta (position_mgr self)).
    { cbv zeta.
      destruct (IH (mk pm1 (risk_ctrl self) (save_trade_close self)
                      (notify_trade_close self)) (S tick)) as (Hr & Ht & Hm).
      cbn [risk_ctrl position_mgr] in *. repeat split; congruence. }
    destruct (PositionManager.close_reason _) as [[close_reason|]|e].
    + destruct (String.eqb close_reason ""); [apply Hskip|].
      cbn [position_mgr risk_ctrl].
      destruct (close_position_refused pm1 position close_reason (terminals tick)
                  order_send Hrefuse) as [Hpm Hno].
      destruct (PositionManager.close_position pm1 position close_reason
                  (terminals tick) order_send) as [manager [[|]|e]];
        cbn [fst snd] in *; subst manager.
      * congruence.
      * apply Hskip.
      * cbn [fst risk_ctrl position_mgr]. repeat split; assumption.
    + apply Hskip.
    + cbn [fst risk_ctrl position_mgr]. repeat split; assumption.
Qed.

(** X21. _monitor_positions records at most one trade per open position,
    never lowers the daily loss and never changes the stopped flag, the
    highest balance or the day's starting balance; when the broker refuses
    every order, the risk controller, the entry times and the metadata are
    unchanged. *)
Theorem monitoring_records_closed_trades_only (self : t)
  (terminals : nat -> Terminal.t)
  (order_send : OrderSend.Request -> option OrderSend.Result) :
  let self' := fst (_monitor_positions self terminals order_send) in
  let rc := risk_ctrl self in
  let rc' := risk_ctrl self' in
  (forall positions,
     PositionManager.get_open_positions (position_mgr self) (terminals 0%nat)
       = Ok positions ->
     (RiskController._today_trades rc <= RiskController._today_trades rc'
        <= RiskController._today_trades rc + Z.of_nat (List.length positions))%Z) /\
  RiskController._today_loss rc <= RiskController._today_loss rc' /\
  RiskController._bot_stopped rc' = RiskController._bot_stopped rc /\
  RiskController._highest_balance rc' = RiskController._highest_balance rc /\
  RiskController._today_starting rc' = RiskController._today_starting rc /\
  ((forall request, OrderSend.done (order_send request) = false) ->
   rc' = rc /\
   PositionManager._position_entry_times (position_mgr self')
     = PositionManager._position_entry_times (position_mgr self) /\
   PositionManager._position_meta (position_mgr self')
     = PositionManager._position_meta (position_mgr self)).
Proof.
  cbv zeta. unfold _monitor_positions.
  destruct (PositionManager.get_open_positions (position_mgr self)
              (terminals 0%nat)) as [positions|e].
  - destruct (monitor_loop_accounting terminals order_send positions self 1%nat)
      as (Ht & Hl & Hs & Hh & Hd).
    split; [intros ps Hps; injection Hps as <-; exact Ht|].
    repeat split; try assumption;
      now apply (monitor_loop_refused terminals order_send positions).
  - cbn [fst]. split; [intros ps Hps; discriminate|].
    repeat split; apply Qle_refl.
Qed.

End LoopFacts.

(** ** Signal generation *)

Section SignalFacts.
Import SignalGenerator.

(** *** The stop-hunt pattern *)

(** X22. With a positive pip value, a stop-hunt signal is produced only
    inside the stop-hunt window, with confidence 92 and the bid as entry:
    SHORT when the bid is more than 5 and at most 12 pips above the
    previous day's high, LONG when it is that far below the previous day's
    low, with the stop 15 pips beyond the bid. *)
Theorem stop_hunt_signal_fades_the_breakout (self : t) (market_data : MarketData.t)
  (terminal : Terminal) (signal : TradeSignal.t) :
  0 < pip_value self ->
  _check_stop_hunt_pattern self market_data terminal = Some signal ->
  let current_price := MarketData.bid market_data in
  stop_hunt_start self <= time_of_day terminal /\
  time_of_day terminal <= stop_hunt_end self /\
  TradeSignal.confidence signal = 92 /\
  TradeSignal.entry_price signal = current_price /\
  TradeSignal.correlation_details signal = TradeSignal.DetailsStopHunt /\
  exists yesterday others,
    copy_rates_d1 terminal = Ok (Some (yesterday :: others)) /\
    match TradeSignal.direction signal with
    | SHORT =>
        bar_high yesterday + 5 * pip_value self < current_price /\
        current_price <= bar_high yesterday + 12 * pip_value self /\
        TradeSignal.stop_loss signal = current_price + 15 * pip_value self
    | LONG =>
        current_price < bar_low yesterday - 5 * pip_value self /\
        bar_low yesterday - 12 * pip_value self <= current_price /\
        TradeSignal.stop_loss signal = current_price - 15 * pip_value self
    end.
Proof.
  intros Hpip. unfold _check_stop_hunt_pattern. cbv zeta.
  destruct (stop_hunt_start self <=? time_of_day terminal) eqn:E1;
    cbn [andb negb]; [|discriminate].
  destruct (time_of_day terminal <=? stop_hunt_end self) eqn:E2;
    cbn [negb]; [|discriminate].
  qprop. unfold stop_hunt_attempt.
  destruct (copy_rates_d1 terminal) as [[[|yesterday others]|]|e];
    cbn [bind_result]; try discriminate.
  cbv zeta.
  assert (Hpips : forall x, x / pip_value self <= 12 -> x <= 12 * pip_value self).
  { intros x Hx.
    assert (E : pip_value self * (x / pip_value self) == x)
      by (apply Qmult_div_r; lra).
    set (q := x / pip_value self) in *. nra. }
  destruct (bar_high yesterday + 5 * pip_value self <? MarketData.bid market_data)
    eqn:Eup; qprop.
  - rewrite pydiv_nonzero by lra. cbn [bind_result].
    destruct (_ <=? 12) eqn:Eb; [|discriminate]. qprop. apply Hpips in Eb.
    intro H. injection H as <-. cbn. repeat split; try assumption.
    exists yesterday, others. repeat split; try assumption. lra.
  - destruct (MarketData.bid market_data <? bar_low yesterday - 5 * pip_value self)
      eqn:Edown; qprop; [|discriminate].
    rewrite pydiv_nonzero by lra. cbn [bind_result].
    destruct (_ <=? 12) eqn:Eb; [|discriminate]. qprop. apply Hpips in Eb.
    intro H. injection H as <-. cbn. repeat split; try assumption.
    exists yesterday, others. repeat split; try assumption. lra.
Qed.

(** *** Blackout periods *)

(** X23. _is_blackout_period answers True exactly when the time of day
    lies, bounds included, inside one of the configured periods whose
    start and end parse. *)
Theorem blackout_iff_inside_a_period (self : t) (terminal : Terminal) :
  _is_blackout_period self terminal = true <->
  exists start stop,
    In (Some (start, stop)) (blackout_periods self) /\
    start <= time_of_day terminal /\ time_of_day terminal <= stop.
Proof.
  unfold _is_blackout_period.
  induction (blackout_periods self) as [|[[start stop]|] periods IH];
    cbn [blackout_loop].
  - split; [discriminate | intros (? & ? & [] & _)].
  - destruct (start <=? time_of_day terminal) eqn:E1; cbn [andb].
    + destruct (time_of_day terminal <=? stop) eqn:E2; qprop.
      * split; [intros _ | reflexivity].
        exists start, stop. split; [now left | now split].
      * rewrite IH. split.
        -- intros (s & e & Hin & Hs & He). exists s, e. split; [now right | now split].
        -- intros (s & e & [Heq | Hin] & Hs & He).
           ++ injection Heq as <- <-. lra.
           ++ exists s, e. now split.
    + qprop. rewrite IH. split.
      * intros (s & e & Hin & Hs & He). exists s, e. split; [now right | now split].
      * intros (s & e & [Heq | Hin] & Hs & He).
        -- injection Heq as <- <-. lra.
        -- exists s, e. now split.
  - rewrite IH. split.
    + intros (s & e & Hin & Hs & He). exists s, e. split; [now right | now split].
    + intros (s & e & [Heq | Hin] & Hs & He); [discriminate|].
      exists s, e. now split.
Qed.

(** *** The correlation check fails open *)

Lemma first_available_selected (terminal : Terminal) (alternatives : list string)
  (alt : string) :
  first_available terminal alternatives = Ok (Some alt) ->
  In alt alternatives /\ symbol_select terminal alt = Ok true.
Proof.
  induction alternatives as [|a alternatives IH]; cbn [first_available];
    [discriminate|].
  destruct (symbol_select terminal a) as [[|]|e] eqn:Es; cbn [bind_result];
    try discriminate.
  - intro H. injection H as <-. split; [now left | assumption].
  - intro H. destruct (IH H). split; [now right | assumption].
Qed.

Lemma correlation_of_bars_conflict (terminal : Terminal) (direction : Direction)
  (dxy : string) (details : TradeSignal.CorrelationResult) :
  correlation_of_bars terminal direction dxy = Ok details ->
  TradeSignal.confirmed details = false ->
  TradeSignal.status details = "CONFLICTING"%string /\
  exists bars,
    copy_rates_m1 terminal dxy = Ok (Some bars) /\
    (5 <= List.length bars)%nat /\
    let change :=
      bar_close (List.last bars (mkBar 0 0 0 0))
      - bar_open (List.hd (mkBar 0 0 0 0) bars) in
    match direction with
    | LONG => 0.001 < change
    | SHORT => change < - 0.001
    end.
Proof.
  unfold correlation_of_bars.
  destruct (copy_rates_m1 terminal dxy) as [[bars|]|e]; cbn [bind_result];
    try discriminate.
  2: { intro H. injection H as <-. discriminate. }
  destruct (List.length bars <? 5)%nat eqn:El.
  { intro H. injection H as <-. discriminate. }
  apply Nat.ltb_ge in El. cbv zeta. unfold trend_of, verdict.
  set (change := bar_close (List.last bars (mkBar 0 0 0 0))
                 - bar_open (List.hd (mkBar 0 0 0 0) bars)).
  destruct (0.001 <? change) eqn:Eup; qprop.
  - destruct direction; cbn [String.eqb Ascii.eqb Bool.eqb];
      intro H; injection H as <-; cbn [TradeSignal.confirmed TradeSignal.status];
      intro Hc; try discriminate.
    split; [reflexivity|]. exists bars. repeat split; assumption.
  - destruct (change <? - 0.001) eqn:Edown; qprop;
      destruct direction; cbn [String.eqb Ascii.eqb Bool.eqb];
      intro H; injection H as <-; cbn [TradeSignal.confirmed TradeSignal.status];
      intro Hc; try discriminate.
    split; [reflexivity|]. exists bars. repeat split; assumption.
Qed.

(** X24. _check_correlation answers confirmed=False only with the status
    CONFLICTING: the check is enabled, a dollar-index symbol was selected,
    at least five bars were read, and the index moved by more than 0.001
    against the trade (up for LONG, down for SHORT). *)
Theorem correlation_refuses_only_an_opposite_trend (self : t)
  (direction : Direction) (terminal : Terminal) :
  let details := fst (_check_correlation self direction terminal) in
  let self' := snd (_check_correlation self direction terminal) in
  TradeSignal.confirmed details = false ->
  correlation_enabled self = true /\
  TradeSignal.status details = "CONFLICTING"%string /\
  symbol_select terminal (dxy_symbol self') = Ok true /\
  exists bars,
    copy_rates_m1 terminal (dxy_symbol self') = Ok (Some bars) /\
    (5 <= List.length bars)%nat /\
    let change :=
      bar_close (List.last bars (mkBar 0 0 0 0))
      - bar_open (List.hd (mkBar 0 0 0 0) bars) in
    match direction with
    | LONG => 0.001 < change
    | SHORT => change < - 0.001
    end.
Proof.
  cbv zeta. unfold _check_correlation.
  destruct (correlation_enabled self); cbn [negb fst snd]; [|discriminate].
  destruct (symbol_select terminal (dxy_symbol self)) as [[|]|e] eqn:Esel;
    cbn [fst snd]; try discriminate.
  - destruct (correlation_of_bars terminal direction (dxy_symbol self))
      as [details|e] eqn:Ebars; cbn [fst snd]; [|discriminate].
    intro Hc.
    destruct (correlation_of_bars_conflict _ _ _ _ Ebars Hc) as (Hst & Hex).
    repeat split; assumption.
  - destruct (first_available terminal dxy_alternatives) as [[alt|]|e] eqn:Ealt;
      cbn [fst snd]; try discriminate.
    destruct (first_available_selected _ _ _ Ealt) as [_ Halt].
    destruct (correlation_of_bars terminal direction alt) as [details|e] eqn:Ebars;
      cbn [fst snd]; [|discriminate].
    intro Hc.
    destruct (correlation_of_bars_conflict _ _ _ _ Ebars Hc) as (Hst & Hex).
    cbn [with_dxy_symbol dxy_symbol]. repeat split; assumption.
Qed.

End SignalFacts.

Section EmittedSignals.
Import SignalGenerator.

Lemma scan_loop_scores (self : ScoreCalculator.t) (market_data : MarketData.t)
  (current_price : Q) (offsets : list Z) :
  forall zones rs result rs',
    Forall (fun z => 50 <= ExecutionZone.score z /\ ExecutionZone.score z <= 100)
      zones ->
    ScoreCalculator.scan_loop self market_data current_price offsets zones rs
      = Ok (result, rs') ->
    Forall (fun z => 50 <= ExecutionZone.score z /\ ExecutionZone.score z <= 100)
      result.
Proof.
  induction offsets as [|k offsets IH]; intros zones rs result rs' Hzones;
    cbn [ScoreCalculator.scan_loop].
  - unfold ret. intro H. injection H as <- <-. assumption.
  - unfold bind.
    destruct (ScoreCalculator.calculate_score self _ market_data rs)
      as [[zone rs1]|e] eqn:Ez; [|discriminate].
    destruct (calculate_score_zone _ _ _ _ _ _ Ez) as (_ & _ & _ & _ & Hscore).
    apply IH.
    destruct (50 <=? ExecutionZone.score zone) eqn:E; [|assumption]. qprop.
    apply Forall_app. split; [assumption|].
    constructor; [|constructor]. split; [assumption|].
    rewrite Hscore. apply Q.le_min_r.
Qed.

Lemma best_zone_scores (self : ScoreCalculator.t) (market_data : MarketData.t)
  (threshold : Q) (rs rs' : RandomState) (zone : ExecutionZone.t) :
  ScoreCalculator.get_best_zone self market_data threshold rs
    = Ok (Some zone, rs') ->
  threshold <= ExecutionZone.score zone /\
  50 <= ExecutionZone.score zone /\ ExecutionZone.score zone <= 100.
Proof.
  unfold ScoreCalculator.get_best_zone, ScoreCalculator.scan_all_zones, bind.
  destruct (ScoreCalculator.scan_loop self market_data _ _ [] rs)
    as [[found rs1]|e] eqn:Eloop; [|discriminate].
  unfold ret.
  pose proof (scan_loop_scores _ _ _ _ [] rs found rs1 (Forall_nil _) Eloop) as Hs.
  pose proof (py_sorted_perm ScoreCalculator.score_desc found) as Hperm.
  apply (Permutation_Forall Hperm) in Hs.
  destruct (py_sorted ScoreCalculator.score_desc found) as [|z zones];
    [discriminate|].
  destruct (threshold <=? ExecutionZone.score z) eqn:E; [|discriminate]. qprop.
  intro H. injection H as <- <-.
  inversion Hs as [|? ? [H50 H100] _]; subst. repeat split; assumption.
Qed.

Lemma emitted_signal_gates (self self' : t)
  (market_data : MarketData.t) (terminal : Terminal) (rs rs' : RandomState)
  (signal : TradeSignal.t) :
  scan_and_generate self market_data terminal rs = Ok ((Some signal, self'), rs') ->
  _is_blackout_period self terminal = false /\
  _is_active_session self terminal = true /\
  (_check_stop_hunt_pattern self market_data terminal = Some signal \/
   _check_stop_hunt_pattern self market_data terminal = None /\
   let zone := TradeSignal.zone signal in
   min_score self <= TradeSignal.confidence signal /\
   min_score self <= ExecutionZone.score zone /\
   50 <= ExecutionZone.score zone /\
   ExecutionZone.score zone <= 100 /\
   Qabs (ExecutionZone.price zone - MarketData.bid market_data)
     <= scan_range_pips self * pip_value self /\
   TradeSignal.confidence signal
     = (if TradeSignal.correlation_confirmed signal
        then ExecutionZone.score zone + 5 else ExecutionZone.score zone - 15) /\
   TradeSignal.direction signal = ExecutionZone.direction zone /\
   TradeSignal.entry_price signal = ExecutionZone.trigger_price zone /\
   TradeSignal.stop_loss signal = ExecutionZone.stop_loss zone).
Proof.
  unfold scan_and_generate.
  destruct (_is_blackout_period self terminal); [discriminate|].
  destruct (_is_active_session self terminal); cbn [negb]; [|discriminate].
  destruct (_check_stop_hunt_pattern self market_data terminal) as [hunt|].
  - unfold ret. intro H. injection H as <- <- <-. repeat split. now left.
  - unfold bind.
    destruct (ScoreCalculator.get_best_zone (score_calc self) market_data
                (min_score self) rs) as [[[best_zone|] rs1]|e] eqn:Ebest;
      try discriminate.
    destruct (best_zone_scores _ _ _ _ _ _ Ebest) as (Hmin & H50 & H100).
    destruct (_ <? Qabs _) eqn:Edist; [discriminate|]. qprop.
    destruct (_check_correlation self (ExecutionZone.direction best_zone) terminal)
      as [correlation_result self1].
    destruct (_ <? min_score self) eqn:Efinal; [discriminate|]. qprop.
    unfold ret. intro H. injection H as <- <- <-.
    cbn [TradeSignal.zone TradeSignal.confidence TradeSignal.correlation_confirmed
           TradeSignal.direction TradeSignal.entry_price TradeSignal.stop_loss].
    repeat split; try assumption. right. repeat split; assumption.
Qed.

(** X25. Every signal scan_and_generate returns was produced outside the
    blackout periods and inside an active session; it is either the stop-
    hunt signal or a zone signal whose zone scores between 50 and 100 and
    at least min_score and lies within scan_range_pips pips of the bid,
    whose confidence is the score plus 5 (correlation confirmed) or minus
    15 (not confirmed) and at least min_score, and whose direction, entry
    and stop are those of the zone. *)
Theorem emitted_signal_passed_every_gate (self self' : t)
  (market_data : MarketData.t) (terminal : Terminal) (rs rs' : RandomState)
  (signal : TradeSignal.t) :
  scan_and_generate self market_data terminal rs = Ok ((Some signal, self'), rs') ->
  _is_blackout_period self terminal = false /\
  _is_active_session self terminal = true /\
  (_check_stop_hunt_pattern self market_data terminal = Some signal \/
   _check_stop_hunt_pattern self market_data terminal = None /\
   let zone := TradeSignal.zone signal in
   min_score self <= TradeSignal.confidence signal /\
   min_score self <= ExecutionZone.score zone /\
   50 <= ExecutionZone.score zone /\
   ExecutionZone.score zone <= 100 /\
   Qabs (ExecutionZone.price zone - MarketData.bid market_data)
     <= scan_range_pips self * pip_value self /\
   TradeSignal.confidence signal
     = (if TradeSignal.correlation_confirmed signal
        then ExecutionZone.score zone + 5 else ExecutionZone.score zone - 15) /\
   TradeSignal.direction signal = ExecutionZone.direction zone /\
   TradeSignal.entry_price signal = ExecutionZone.trigger_price zone /\
   TradeSignal.stop_loss signal = ExecutionZone.stop_loss zone).
Proof.
  exact (emitted_signal_gates self self' market_data terminal rs rs' signal).
Qed.

(** X26. With a minimum score above 85, as with the default of 90,
    scan_and_generate never returns a signal whose correlation is not
    confirmed: the penalty of 15 leaves such a signal a confidence of at
    most 85. *)
Theorem conflicting_signal_is_never_emitted (self self' : t)
  (market_data : MarketData.t) (terminal : Terminal) (rs rs' : RandomState)
  (signal : TradeSignal.t) :
  85 < min_score self ->
  scan_and_generate self market_data terminal rs = Ok ((Some signal, self'), rs') ->
  TradeSignal.correlation_confirmed signal = true.
Proof.
  intros Hmin Hgen.
  destruct (emitted_signal_gates _ _ _ _ _ _ _ Hgen)
    as (_ & _ & [Hhunt | (_ & Hzone)]).
  - unfold _check_stop_hunt_pattern in Hhunt.
    destruct (negb _); [discriminate|].
    unfold stop_hunt_attempt in Hhunt.
    destruct (copy_rates_d1 terminal) as [[[|bar bars]|]|e];
      cbn [bind_result] in Hhunt; try discriminate.
    cbv zeta in Hhunt.
    repeat match type of Hhunt with
    | context [if ?b then _ else _] => destruct b; try discriminate
    | context [pydiv ?x ?y] =>
        destruct (pydiv x y); cbn [bind_result] in Hhunt; try discriminate
    end; injection Hhunt as <-; reflexivity.
  - cbv zeta in Hzone.
    destruct Hzone as (Hconf & _ & _ & H100 & _ & Heq & _).
    destruct (TradeSignal.correlation_confirmed signal); [reflexivity|].
    rewrite Heq in Hconf. lra.
Qed.

End EmittedSignals.

(** ** The collector's levels *)

Section CollectorFacts.
Import DataCollector.

Lemma py_max_ge (x : Q) (l : list Q) : x <= py_max x l.
Proof.
  unfold py_max. revert x. induction l as [|y l IH]; intro x; cbn [fold_left].
  - apply Qle_refl.
  - eapply Qle_trans; [apply Q.le_max_l | apply IH].
Qed.

Lemma py_min_le (x : Q) (l : list Q) : py_min x l <= x.
Proof.
  unfold py_min. revert x. induction l as [|y l IH]; intro x; cbn [fold_left].
  - apply Qle_refl.
  - eapply Qle_trans; [apply IH | apply Q.le_min_l].
Qed.

(** X27. When every daily bar has its low at or below its high, the swing
    low is at most the swing high, every retracement level
    _calculate_fibonacci returns lies between the two and carries a name
    the scorer has a weight for, and with a swing of zero no level is
    returned. *)
Theorem fibonacci_levels_between_the_swings
  (bars : result (option (list RateBar))) :
  (forall rates, bars = Ok (Some rates) ->
     Forall (fun b => rate_low b <= rate_high b) rates) ->
  let '(swing_high, swing_low) := _get_swing_levels bars in
  swing_low <= swing_high /\
  Forall (fun level =>
            swing_low <= snd level /\ snd level <= swing_high /\
            dict_get ScoreCalculator.fib_weights (fst level) <> None)
         (_calculate_fibonacci swing_high swing_low) /\
  (swing_high == 0 \/ swing_low == 0 ->
   _calculate_fibonacci swing_high swing_low = []).
Proof.
  intro Hbars.
  destruct (_get_swing_levels bars) as [swing_high swing_low] eqn:Es.
  assert (Hle : swing_low <= swing_high).
  { unfold _get_swing_levels in Es.
    destruct bars as [[[|b rates]|]|e]; injection Es as <- <-; try apply Qle_refl.
    specialize (Hbars _ eq_refl). inversion Hbars as [|? ? Hb _]; subst.
    eapply Qle_trans; [apply py_min_le|].
    eapply Qle_trans; [exact Hb | apply py_max_ge]. }
  split; [exact Hle|]. unfold _calculate_fibonacci. split.
  - destruct ((swing_high =? 0) || (swing_low =? 0)); [constructor|].
    repeat constructor; cbn [snd fst]; try lra; discriminate.
  - intros [H | H]; apply Qeq_bool_iff in H; rewrite H;
      [reflexivity | now rewrite orb_true_r].
Qed.

(** *** The session VWAP *)

Lemma weighted_sums (lo hi : Q) (rates : list RateBar) :
  Forall (fun b => 0 <= rate_tick_volume b /\
                   lo <= (rate_high b + rate_low b + rate_close b) / 3 /\
                   (rate_high b + rate_low b + rate_close b) / 3 <= hi) rates ->
  forall pv volume,
    0 <= volume -> lo * volume <= pv -> pv <= hi * volume ->
    let pv' :=
      fold_left Qplus
        (map (fun b => (rate_high b + rate_low b + rate_close b) / 3
                       * rate_tick_volume b) rates) pv in
    let volume' := fold_left Qplus (map rate_tick_volume rates) volume in
    0 <= volume' /\ lo * volume' <= pv' /\ pv' <= hi * volume'.
Proof.
  induction 1 as [|b rates (Hv & Hlo & Hhi) _ IH]; intros pv volume H0 H1 H2;
    cbv zeta; cbn [map fold_left].
  - repeat split; assumption.
  - set (tp := (rate_high b + rate_low b + rate_close b) / 3) in *.
    apply IH; nra.
Qed.

(** X28. When all tick volumes are non-negative and all highs, lows and
    closes of the session bars lie between lo and hi, with lo non-
    negative, the VWAP of the collector is non-negative and is either 0
    (no bars, no volume or an error) or between lo and hi. *)
Theorem vwap_within_the_price_range (bars : result (option (list RateBar)))
  (lo hi : Q) :
  0 <= lo ->
  (forall rates, bars = Ok (Some rates) ->
     Forall (fun b => 0 <= rate_tick_volume b /\
                      (lo <= rate_low b /\ rate_low b <= hi) /\
                      (lo <= rate_high b /\ rate_high b <= hi) /\
                      (lo <= rate_close b /\ rate_close b <= hi)) rates) ->
  0 <= _calculate_vwap bars /\
  (~ _calculate_vwap bars == 0 ->
   lo <= _calculate_vwap bars /\ _calculate_vwap bars <= hi).
Proof.
  intros Hlo Hbars. unfold _calculate_vwap.
  destruct bars as [[[|b rates]|]|e]; try (split; [lra | intro H; exfalso; apply H; reflexivity]).
  specialize (Hbars _ eq_refl). cbv zeta.
  assert (Htp : Forall (fun b => 0 <= rate_tick_volume b /\
                   lo <= (rate_high b + rate_low b + rate_close b) / 3 /\
                   (rate_high b + rate_low b + rate_close b) / 3 <= hi) (b :: rates)).
  { eapply Forall_impl; [|exact Hbars]. cbn beta.
    intros r (Hv & [? ?] & [? ?] & [? ?]). split; [assumption|]. split.
    - apply Qle_shift_div_l; lra.
    - apply Qle_shift_div_r; lra. }
  destruct (weighted_sums lo hi (b :: rates) Htp 0 0) as (H0 & H1 & H2); try lra.
  unfold py_sum.
  set (volume := fold_left Qplus (map rate_tick_volume (b :: rates)) 0) in *.
  match type of H2 with ?p <= _ => set (pv := p) in * end.
  destruct (0 <? volume) eqn:Ev; qprop.
  - assert (lo <= pv / volume) by (apply Qle_shift_div_l; assumption).
    assert (pv / volume <= hi) by (apply Qle_shift_div_r; assumption).
    split; [lra | intros _; split; assumption].
  - split; [lra | intro H; exfalso; apply H; reflexivity].
Qed.

End CollectorFacts.

(** ** The exits of the offline backtester *)

Section BacktestFacts.
Import OfflineBacktester.

Lemma exhaustion_exit_reasons (self : t) (bars : list Bar) (idx : nat)
  (vol_buf spread_buf : list Q) (reason : string) :
  exhaustion_exit self bars idx vol_buf spread_buf = Some reason ->
  (reason = "EXHAUSTION_VOLUME"%string /\ (50 <= List.length vol_buf)%nat) \/
  (reason = "EXHAUSTION_SPREAD"%string /\ (50 <= List.length spread_buf)%nat) \/
  (reason = "EXHAUSTION_STALL"%string /\ (5 <= idx)%nat).
Proof.
  unfold exhaustion_exit. cbv zeta.
  destruct (50 <=? List.length vol_buf)%nat eqn:Ev.
  - apply Nat.leb_le in Ev.
    destruct (_ && _); [intro H; injection H as <-; now left|].
    destruct (50 <=? List.length spread_buf)%nat eqn:Es.
    + apply Nat.leb_le in Es.
      destruct (_ && _); [intro H; injection H as <-; right; now left|].
      destruct (5 <=? idx)%nat eqn:Ei; [|discriminate]. apply Nat.leb_le in Ei.
      destruct (last_five bars idx); [discriminate|].
      destruct (_ <? _); [|discriminate].
      intro H; injection H as <-. right; now right.
    + destruct (5 <=? idx)%nat eqn:Ei; [|discriminate]. apply Nat.leb_le in Ei.
      destruct (last_five bars idx); [discriminate|].
      destruct (_ <? _); [|discriminate].
      intro H; injection H as <-. right; now right.
  - destruct (50 <=? List.length spread_buf)%nat eqn:Es.
    + apply Nat.leb_le in Es.
      destruct (_ && _); [intro H; injection H as <-; right; now left|].
      destruct (5 <=? idx)%nat eqn:Ei; [|discriminate]. apply Nat.leb_le in Ei.
      destruct (last_five bars idx); [discriminate|].
      destruct (_ <? _); [|discriminate].
      intro H; injection H as <-. right; now right.
    + destruct (5 <=? idx)%nat eqn:Ei; [|discriminate]. apply Nat.leb_le in Ei.
      destruct (last_five bars idx); [discriminate|].
      destruct (_ <? _); [|discriminate].
      intro H; injection H as <-. right; now right.
Qed.

(** X29. In the backtester, _check_exit returns STOP_LOSS exactly when the
    bar crosses the stop (low at or below it for LONG, high at or above it
    for SHORT); an exhaustion reason is returned only when the stop is not
    crossed, the holding time is below the limit, the position is at least
    10 pips in profit and the buffer of that check is long enough (50
    samples, or bar index 5 for the stall). *)
Theorem backtest_stop_loss_comes_first (self : t) (pos : OpenPosition) (bar : Bar)
  (bars : list Bar) (idx : nat) (vol_buf spread_buf : list Q) :
  let reason := _check_exit self pos bar bars idx vol_buf spread_buf in
  let crossed :=
    match pos_direction pos with
    | LONG => bar_low bar <= pos_stop_loss pos
    | SHORT => pos_stop_loss pos <= bar_high bar
    end in
  (crossed <-> reason = Some "STOP_LOSS"%string) /\
  (forall r, reason = Some r ->
     r <> "STOP_LOSS"%string -> r <> "TIME_LIMIT"%string ->
     ~ crossed /\
     (bar_time bar - pos_entry_time pos) / 60 < max_hold_minutes self /\
     10 <= current_pips pos bar /\
     ((r = "EXHAUSTION_VOLUME"%string /\ (50 <= List.length vol_buf)%nat) \/
      (r = "EXHAUSTION_SPREAD"%string /\ (50 <= List.length spread_buf)%nat) \/
      (r = "EXHAUSTION_STALL"%string /\ (5 <= idx)%nat))).
Proof.
  cbv zeta. unfold _check_exit. cbv zeta.
  destruct (pos_direction pos); cbn [is_long negb andb].
  - destruct (bar_low bar <=? pos_stop_loss pos) eqn:Ec; qprop.
    + split; [tauto|]. intros r H Hs. injection H as <-. congruence.
    + assert (Hn : ~ bar_low bar <= pos_stop_loss pos) by lra.
      destruct (max_hold_minutes self <=? _) eqn:Et; qprop.
      * split; [split; [tauto | discriminate]|].
        intros r H _ Hs. injection H as <-. congruence.
      * destruct (10 <=? _) eqn:Ep; qprop.
        -- split.
           ++ split; [tauto|]. intro H.
              destruct (exhaustion_exit_reasons _ _ _ _ _ _ H)
                as [[? _] | [[? _] | [? _]]]; discriminate.
           ++ intros r H _ _. repeat split; try assumption.
              now apply exhaustion_exit_reasons with self bars.
        -- split; [split; [tauto | discriminate]|]. intros r H. discriminate.
  - destruct (pos_stop_loss pos <=? bar_high bar) eqn:Ec; qprop.
    + split; [tauto|]. intros r H Hs. injection H as <-. congruence.
    + assert (Hn : ~ pos_stop_loss pos <= bar_high bar) by lra.
      destruct (max_hold_minutes self <=? _) eqn:Et; qprop.
      * split; [split; [tauto | discriminate]|].
        intros r H _ Hs. injection H as <-. congruence.
      * destruct (10 <=? _) eqn:Ep; qprop.
        -- split.
           ++ split; [tauto|]. intro H.
              destruct (exhaustion_exit_reasons _ _ _ _ _ _ H)
                as [[? _] | [[? _] | [? _]]]; discriminate.
           ++ intros r H _ _. repeat split; try assumption.
              now apply exhaustion_exit_reasons with self bars.
        -- split; [split; [tauto | discriminate]|]. intros r H. discriminate.
Qed.

(** X30. A position opened by the backtester's _open_position and closed
    with the reason STOP_LOSS exits at its stop and loses exactly
    stop_loss_pips pips, that is stop_loss_pips * 10 * lot in money, with
    a lot between 0.1 and 5. *)
Theorem backtest_stop_out_costs_the_stop_distance (self : t) (zone : Zone)
  (entry_bar exit_bar : Bar) (balance : Q) (pos : OpenPosition) :
  _open_position self zone entry_bar balance = Ok pos ->
  let trade := _close_position self pos exit_bar "STOP_LOSS" in
  trade_exit_price trade = pos_stop_loss pos /\
  trade_pips trade == - stop_loss_pips self /\
  trade_profit trade == - (stop_loss_pips self * pip_dollar * pos_lot pos) /\
  0.1 <= pos_lot pos /\ pos_lot pos <= 5.
Proof.
  unfold _open_position. cbv zeta.
  destruct (pydiv _ _) as [raw|e]; cbn [bind_result]; [|discriminate].
  intro H. injection H as <-. cbv zeta. unfold _close_position. cbv zeta.
  cbn [String.eqb Ascii.eqb Bool.eqb pos_stop_loss pos_entry_price pos_direction
         pos_lot trade_exit_price trade_pips trade_profit].
  assert (E : forall x, x / pip_value == x * 10000)
    by (intro x; unfold Qdiv; apply Qmult_comp; reflexivity).
  split; [reflexivity|].
  assert (Hpips : match zone_direction zone with
      | LONG =>
          (zone_price zone - entry_offset_pips self * pip_value
           - stop_loss_pips self * pip_value
           - (zone_price zone - entry_offset_pips self * pip_value)) / pip_value
      | SHORT =>
          (zone_price zone + entry_offset_pips self * pip_value
           - (zone_price zone + entry_offset_pips self * pip_value
              + stop_loss_pips self * pip_value)) / pip_value
      end == - stop_loss_pips self).
  { destruct (zone_direction zone); rewrite E; unfold pip_value; lra. }
  destruct (zone_direction zone); (split; [exact Hpips|]);
    (split; [rewrite Hpips; lra|]);
    (split; [apply Q.le_max_l | apply Q.max_lub; [lra | apply Q.le_min_r]]).
Qed.

End BacktestFacts.

(** ** Instances of the further properties *)

Lemma vwap_score_monotone_instance :
  ScoreCalculator.well_formed Scenario.scorer /\
  0 < 1.0700 /\
  Qabs (1.0710 - 1.0700) <= Qabs (1.0725 - 1.0700) /\
  ScoreCalculator._calculate_vwap_score Scenario.scorer 1.0710 1.0700
    <= ScoreCalculator._calculate_vwap_score Scenario.scorer 1.0725 1.0700.
Proof.
  assert (WF : ScoreCalculator.well_formed Scenario.scorer) by scorer_well_formed.
  assert (Hv : 0 < 1.0700) by by_evaluation.
  assert (Hd : Qabs (1.0710 - 1.0700) <= Qabs (1.0725 - 1.0700)) by by_evaluation.
  split; [exact WF|]. split; [exact Hv|]. split; [exact Hd|].
  exact (vwap_score_monotone Scenario.scorer 1.0710 1.0725 1.0700 WF Hv Hd).
Defined.

Lemma zone_entry_before_level_instance :
  0 < ScoreCalculator.ENTRY_OFFSET_PIPS Scenario.scorer /\
  0 < ScoreCalculator.STOP_LOSS_PIPS Scenario.scorer /\
  0 < ScoreCalculator.pip_value Scenario.scorer /\
  exists zone rs',
    ScoreCalculator.calculate_score Scenario.scorer 1.0810 Scenario.snapshot
      Scenario.constant_draws = Ok (zone, rs') /\
    ExecutionZone.direction zone = LONG /\
    ExecutionZone.stop_loss zone < ExecutionZone.trigger_price zone /\
    ExecutionZone.trigger_price zone < ExecutionZone.price zone.
Proof.
  assert (He : 0 < ScoreCalculator.ENTRY_OFFSET_PIPS Scenario.scorer) by by_evaluation.
  assert (Hs : 0 < ScoreCalculator.STOP_LOSS_PIPS Scenario.scorer) by by_evaluation.
  assert (Hp : 0 < ScoreCalculator.pip_value Scenario.scorer) by by_evaluation.
  split; [exact He|]. split; [exact Hs|]. split; [exact Hp|].
  destruct (ScoreCalculator.calculate_score Scenario.scorer 1.0810 Scenario.snapshot
              Scenario.constant_draws) as [[zone rs']|e] eqn:Ez;
    [|vm_compute in Ez; discriminate].
  exists zone, rs'. split; [reflexivity|].
  pose proof (zone_entry_before_level Scenario.scorer 1.0810 Scenario.snapshot
                Scenario.constant_draws rs' zone He Hs Hp Ez) as H.
  assert (Hd : ExecutionZone.direction zone = LONG).
  { vm_compute in Ez. injection Ez as <- _. reflexivity. }
  rewrite Hd in H. destruct H as (_ & H1 & H2 & _).
  split; [exact Hd|]. split; [exact H1 | exact H2].
Defined.

Lemma fibonacci_label_names_a_near_level_instance :
  exists fib_score fib_level,
    ScoreCalculator._calculate_fibonacci_score Scenario.scorer 1.0801
      Scenario.one_retracement = Ok (fib_score, fib_level) /\
    ((fib_score = 0 /\ fib_level = ""%string) \/
     (0 < fib_score /\
      exists price,
        In (fib_level, price) Scenario.one_retracement /\
        Qabs (1.0801 - price)
          <= ScoreCalculator.FIB_PROXIMITY_PIPS Scenario.scorer
             * ScoreCalculator.pip_value Scenario.scorer)).
Proof.
  destruct (ScoreCalculator._calculate_fibonacci_score Scenario.scorer 1.0801
              Scenario.one_retracement) as [[fib_score fib_level]|e] eqn:Ef;
    [|vm_compute in Ef; discriminate].
  exists fib_score, fib_level. split; [reflexivity|].
  exact (fibonacci_label_names_a_near_level Scenario.scorer 1.0801
           Scenario.one_retracement fib_score fib_level Ef).
Defined.

Lemma best_zone_is_maximal_instance :
  exists window rs',
    ScoreCalculator.score_window Scenario.scorer_with_db Scenario.snapshot
      (MarketData.bid Scenario.snapshot) (py_range (-20) 21)
      Scenario.constant_draws = Ok (window, rs') /\
    exists best,
      ScoreCalculator.get_best_zone Scenario.scorer_with_db Scenario.snapshot 90
        Scenario.constant_draws = Ok (best, rs') /\
      match best with
      | Some z =>
          In z window /\
          50 <= ExecutionZone.score z /\
          90 <= ExecutionZone.score z /\
          Forall (fun w => ExecutionZone.score w <= ExecutionZone.score z) window
      | None =>
          Forall (fun w => ExecutionZone.score w < 50 \/
                           ExecutionZone.score w < 90) window
      end.
Proof.
  destruct (ScoreCalculator.score_window Scenario.scorer_with_db Scenario.snapshot
              (MarketData.bid Scenario.snapshot) (py_range (-20) 21)
              Scenario.constant_draws) as [[window rs']|e] eqn:Ew;
    [|vm_compute in Ew; discriminate].
  exists window, rs'. split; [reflexivity|].
  exact (best_zone_is_maximal Scenario.scorer_with_db Scenario.snapshot 90
           Scenario.constant_draws rs' window Ew).
Defined.

Lemma scan_first_zone_is_earliest_best_instance :
  exists window rs' first others,
    ScoreCalculator.score_window Scenario.scorer Scenario.snapshot
      (MarketData.bid Scenario.snapshot) (py_range (- 20) (20 + 1))
      Scenario.constant_draws = Ok (window, rs') /\
    ScoreCalculator.scan_all_zones Scenario.scorer Scenario.snapshot 20
      Scenario.constant_draws = Ok (first :: others, rs') /\
    exists before after,
      filter (fun z => 50 <=? ExecutionZone.score z) window
        = before ++ first :: after /\
      Forall (fun w => ExecutionZone.score w < ExecutionZone.score first) before /\
      Forall (fun w => ExecutionZone.score w <= ExecutionZone.score first) after.
Proof.
  destruct (ScoreCalculator.score_window Scenario.scorer Scenario.snapshot
              (MarketData.bid Scenario.snapshot) (py_range (- 20) (20 + 1))
              Scenario.constant_draws) as [[window rs']|e] eqn:Ew;
    [|vm_compute in Ew; discriminate].
  pose proof (scan_all_zones_window Scenario.scorer Scenario.snapshot 20
                Scenario.constant_draws window rs' Ew) as Hscan.
  destruct (py_sorted ScoreCalculator.score_desc
              (filter (fun z => 50 <=? ExecutionZone.score z) window))
    as [|first others] eqn:Es; [vm_compute in Hscan; discriminate|].
  exists window, rs', first, others. split; [reflexivity|].
  split; [exact Hscan|].
  exact (scan_first_zone_is_earliest_best Scenario.scorer Scenario.snapshot 20
           Scenario.constant_draws rs' window first others Ew Hscan).
Defined.

Lemma scan_zones_on_the_pip_grid_instance :
  exists zones rs',
    ScoreCalculator.scan_all_zones Scenario.scorer Scenario.snapshot 20
      Scenario.constant_draws = Ok (zones, rs') /\
    Forall (fun z => exists k, (- 20 <= k <= 20)%Z /\
                     ExecutionZone.price z
                       = MarketData.bid Scenario.snapshot
                         + inject_Z k * ScoreCalculator.pip_value Scenario.scorer)
           zones /\
    (List.length zones <= Z.to_nat (2 * 20 + 1))%nat.
Proof.
  destruct (ScoreCalculator.scan_all_zones Scenario.scorer Scenario.snapshot 20
              Scenario.constant_draws) as [[zones rs']|e] eqn:Es;
    [|vm_compute in Es; discriminate].
  exists zones, rs'. split; [reflexivity|].
  exact (scan_zones_on_the_pip_grid Scenario.scorer Scenario.snapshot 20
           Scenario.constant_draws rs' zones Es).
Defined.


Lemma trade_interval_survives_rollover_instance :
  forallb RiskController.keeps_last_trade
    [RiskController.ResetDaily 1000; RiskController.UpdateBalance 1010] = true /\
  3600 - 100 < RiskController.min_trade_interval Scenario.controller /\
  forall msg,
    snd (RiskController.can_trade
           (RiskController.run
              (RiskController.record_trade Scenario.controller 100 (-5))
              [RiskController.ResetDaily 1000; RiskController.UpdateBalance 1010])
           3600)
      <> Ok (true, msg).
Proof.
  assert (Hops : forallb RiskController.keeps_last_trade
                   [RiskController.ResetDaily 1000;
                    RiskController.UpdateBalance 1010] = true) by reflexivity.
  assert (Hearly : 3600 - 100 < RiskController.min_trade_interval Scenario.controller)
    by by_evaluation.
  split; [exact Hops|]. split; [exact Hearly|].
  exact (trade_interval_survives_rollover Scenario.controller 100 (-5)
           [RiskController.ResetDaily 1000; RiskController.UpdateBalance 1010]
           3600 Hops Hearly).
Defined.

Lemma trade_cap_holds_until_rollover_instance :
  let traded :=
    RiskController.run Scenario.controller
      [RiskController.RecordTrade 100 5; RiskController.RecordTrade 20000 5;
       RiskController.RecordTrade 40000 5] in
  (RiskController.max_trades_day traded <= RiskController._today_trades traded)%Z /\
  forallb RiskController.intraday
    [RiskController.UpdateBalance 1015; RiskController.CanTrade 60000] = true /\
  forall msg,
    snd (RiskController.can_trade
           (RiskController.run traded
              [RiskController.UpdateBalance 1015; RiskController.CanTrade 60000])
           80000)
      <> Ok (true, msg).
Proof.
  cbv zeta.
  assert (Hcap : (RiskController.max_trades_day
                    (RiskController.run Scenario.controller
                       [RiskController.RecordTrade 100 5;
                        RiskController.RecordTrade 20000 5;
                        RiskController.RecordTrade 40000 5])
                  <= RiskController._today_trades
                       (RiskController.run Scenario.controller
                          [RiskController.RecordTrade 100 5;
                           RiskController.RecordTrade 20000 5;
                           RiskController.RecordTrade 40000 5]))%Z)
    by by_evaluation.
  assert (Hops : forallb RiskController.intraday
                   [RiskController.UpdateBalance 1015;
                    RiskController.CanTrade 60000] = true) by reflexivity.
  split; [exact Hcap|]. split; [exact Hops|].
  exact (trade_cap_holds_until_rollover _ _ 80000 Hcap Hops).
Defined.

Lemma high_water_dominates_reported_balances_instance :
  forallb (fun op => negb (RiskController.is_initialize op))
    [RiskController.UpdateBalance 1200; RiskController.RecordTrade 100 (-300);
     RiskController.UpdateBalance 900; RiskController.ResetDaily 900] = true /\
  In (RiskController.UpdateBalance 1200)
    [RiskController.UpdateBalance 1200; RiskController.RecordTrade 100 (-300);
     RiskController.UpdateBalance 900; RiskController.ResetDaily 900] /\
  1200 <= RiskController._highest_balance
            (RiskController.run Scenario.controller
               [RiskController.UpdateBalance 1200;
                RiskController.RecordTrade 100 (-300);
                RiskController.UpdateBalance 900; RiskController.ResetDaily 900]).
Proof.
  assert (Hops : forallb (fun op => negb (RiskController.is_initialize op))
                   [RiskController.UpdateBalance 1200;
                    RiskController.RecordTrade 100 (-300);
                    RiskController.UpdateBalance 900;
                    RiskController.ResetDaily 900] = true) by reflexivity.
  assert (Hin : In (RiskController.UpdateBalance 1200)
                  [RiskController.UpdateBalance 1200;
                   RiskController.RecordTrade 100 (-300);
                   RiskController.UpdateBalance 900; RiskController.ResetDaily 900])
    by (left; reflexivity).
  split; [exact Hops|]. split; [exact Hin|].
  exact (high_water_dominates_reported_balances _ Scenario.controller 1200 Hops Hin).
Defined.

Lemma tracked_entry_is_reported_instance :
  let opened :=
    PositionManager.execute_signal Scenario.blind_manager Scenario.fade_signal 0.1
      Scenario.quiet_tick Scenario.filling_venue in
  snd opened = Ok (Some 2%Z) /\
  Terminal.pos_ticket Scenario.listed_position = 2%Z /\
  exists position,
    PositionManager.position_of_broker (fst opened) Scenario.late_tick
      Scenario.listed_position = Ok position /\
    Position.entry_time position = Terminal.now Scenario.quiet_tick /\
    Position.zone_type position
      = ExecutionZone.zone_type (TradeSignal.zone Scenario.fade_signal) /\
    Position.score position
      = ExecutionZone.score (TradeSignal.zone Scenario.fade_signal).
Proof.
  cbv zeta.
  assert (Hexec : PositionManager.execute_signal Scenario.blind_manager
                    Scenario.fade_signal 0.1 Scenario.quiet_tick
                    Scenario.filling_venue
                  = (fst (PositionManager.execute_signal Scenario.blind_manager
                            Scenario.fade_signal 0.1 Scenario.quiet_tick
                            Scenario.filling_venue), Ok (Some 2%Z)))
    by (vm_compute; reflexivity).
  assert (Hticket : Terminal.pos_ticket Scenario.listed_position = 2%Z)
    by reflexivity.
  split; [rewrite Hexec; reflexivity|]. split; [exact Hticket|].
  destruct (PositionManager.position_of_broker
              (fst (PositionManager.execute_signal Scenario.blind_manager
                      Scenario.fade_signal 0.1 Scenario.quiet_tick
                      Scenario.filling_venue)) Scenario.late_tick
              Scenario.listed_position) as [position|e] eqn:Ep;
    [|vm_compute in Ep; discriminate].
  exists position. split; [reflexivity|].
  exact (tracked_entry_is_reported _ _ _ _ _ _ _ _ _ _ Hexec Hticket Ep).
Defined.

Lemma trailing_stop_only_tightens_instance :
  exists new_sl,
    PositionManager.sl_request
      (PositionManager.monitor_position Scenario.blind_manager
         Scenario.winning_position Scenario.quiet_tick) = Some new_sl /\
    PositionManager.close_reason
      (PositionManager.monitor_position Scenario.blind_manager
         Scenario.winning_position Scenario.quiet_tick) = Ok None /\
    new_sl = Position.entry_price Scenario.winning_position
             + 5 * PositionManager.pip_value Scenario.blind_manager /\
    Position.stop_loss Scenario.winning_position < new_sl.
Proof.
  destruct (PositionManager.sl_request
              (PositionManager.monitor_position Scenario.blind_manager
                 Scenario.winning_position Scenario.quiet_tick))
    as [new_sl|] eqn:Es; [|vm_compute in Es; discriminate].
  exists new_sl. split; [reflexivity|].
  destruct (trailing_stop_only_tightens Scenario.blind_manager
              Scenario.winning_position Scenario.quiet_tick new_sl Es)
    as (Hopen & _ & _ & Hsl).
  split; [exact Hopen | exact Hsl].
Defined.

Lemma overdue_position_is_closed_instance :
  PositionManager.max_hold_minutes Scenario.blind_manager * 60
    <= Terminal.now Scenario.late_tick
       - Position.entry_time Scenario.winning_position /\
  (PositionManager.close_reason
     (PositionManager.monitor_position Scenario.blind_manager
        Scenario.winning_position Scenario.late_tick)
     = Ok (Some "EXHAUSTION"%string) \/
   PositionManager.close_reason
     (PositionManager.monitor_position Scenario.blind_manager
        Scenario.winning_position Scenario.late_tick)
     = Ok (Some "TIME_LIMIT"%string)) /\
  PositionManager.sl_request
    (PositionManager.monitor_position Scenario.blind_manager
       Scenario.winning_position Scenario.late_tick) = None.
Proof.
  assert (Hlate : PositionManager.max_hold_minutes Scenario.blind_manager * 60
                  <= Terminal.now Scenario.late_tick
                     - Position.entry_time Scenario.winning_position)
    by by_evaluation.
  split; [exact Hlate|].
  exact (overdue_position_is_closed Scenario.blind_manager
           Scenario.winning_position Scenario.late_tick Hlate).
Defined.

Lemma open_positions_are_the_bots_instance :
  exists ps,
    PositionManager.get_open_positions Scenario.first_tick_manager
      Scenario.quiet_tick = Ok ps /\
    map Position.ticket ps = [2%Z] /\
    Forall (fun p =>
              Position.magic p
                = PositionManager.magic_number Scenario.first_tick_manager) ps.
Proof.
  destruct (PositionManager.get_open_positions Scenario.first_tick_manager
              Scenario.quiet_tick) as [ps|e] eqn:Eo;
    [|vm_compute in Eo; discriminate].
  exists ps. split; [reflexivity|].
  destruct (open_positions_are_the_bots Scenario.first_tick_manager
              Scenario.quiet_tick ps Eo) as [Htickets Hall].
  split; [exact Htickets|].
  eapply Forall_impl; [|exact Hall]. intros p [Hm _]. exact Hm.
Defined.

Lemma stop_hunt_signal_fades_the_breakout_instance :
  0 < SignalGenerator.pip_value Scenario.generator /\
  exists signal,
    SignalGenerator._check_stop_hunt_pattern Scenario.generator
      Scenario.breakout_snapshot Scenario.hunt_morning = Some signal /\
    TradeSignal.confidence signal = 92 /\
    TradeSignal.entry_price signal = MarketData.bid Scenario.breakout_snapshot /\
    TradeSignal.correlation_details signal = TradeSignal.DetailsStopHunt.
Proof.
  assert (Hpip : 0 < SignalGenerator.pip_value Scenario.generator) by by_evaluation.
  split; [exact Hpip|].
  destruct (SignalGenerator._check_stop_hunt_pattern Scenario.generator
              Scenario.breakout_snapshot Scenario.hunt_morning)
    as [signal|] eqn:Eh; [|vm_compute in Eh; discriminate].
  exists signal. split; [reflexivity|].
  destruct (stop_hunt_signal_fades_the_breakout Scenario.generator
              Scenario.breakout_snapshot Scenario.hunt_morning signal Hpip Eh)
    as (_ & _ & Hc & He & Hd & _).
  split; [exact Hc|]. split; [exact He | exact Hd].
Defined.

Lemma correlation_refuses_only_an_opposite_trend_instance :
  TradeSignal.confirmed
    (fst (SignalGenerator._check_correlation Scenario.generator LONG
            Scenario.dollar_rising)) = false /\
  SignalGenerator.correlation_enabled Scenario.generator = true /\
  TradeSignal.status
    (fst (SignalGenerator._check_correlation Scenario.generator LONG
            Scenario.dollar_rising)) = "CONFLICTING"%string.
Proof.
  assert (Hc : TradeSignal.confirmed
                 (fst (SignalGenerator._check_correlation Scenario.generator LONG
                         Scenario.dollar_rising)) = false) by reflexivity.
  split; [exact Hc|].
  destruct (correlation_refuses_only_an_opposite_trend Scenario.generator LONG
              Scenario.dollar_rising Hc) as (He & Hs & _).
  split; [exact He | exact Hs].
Defined.

Lemma emitted_signal_passed_every_gate_instance :
  exists signal self' rs',
    SignalGenerator.scan_and_generate Scenario.generator Scenario.snapshot
      Scenario.no_dollar_index Scenario.constant_draws
      = Ok ((Some signal, self'), rs') /\
    SignalGenerator._is_blackout_period Scenario.generator
      Scenario.no_dollar_index = false /\
    SignalGenerator._is_active_session Scenario.generator
      Scenario.no_dollar_index = true.
Proof.
  destruct (SignalGenerator.scan_and_generate Scenario.generator Scenario.snapshot
              Scenario.no_dollar_index Scenario.constant_draws)
    as [[[[signal|] self'] rs']|e] eqn:Eg;
    [|vm_compute in Eg; discriminate|vm_compute in Eg; discriminate].
  exists signal, self', rs'. split; [reflexivity|].
  destruct (emitted_signal_passed_every_gate Scenario.generator self'
              Scenario.snapshot Scenario.no_dollar_index Scenario.constant_draws
              rs' signal Eg) as (Hb & Ha & _).
  split; [exact Hb | exact Ha].
Defined.

Lemma conflicting_signal_is_never_emitted_instance :
  85 < SignalGenerator.min_score Scenario.generator /\
  exists signal self' rs',
    SignalGenerator.scan_and_generate Scenario.generator Scenario.snapshot
      Scenario.dollar_rising Scenario.constant_draws
      = Ok ((Some signal, self'), rs') /\
    TradeSignal.correlation_confirmed signal = true.
Proof.
  assert (Hmin : 85 < SignalGenerator.min_score Scenario.generator)
    by by_evaluation.
  split; [exact Hmin|].
  destruct (SignalGenerator.scan_and_generate Scenario.generator Scenario.snapshot
              Scenario.dollar_rising Scenario.constant_draws)
    as [[[[signal|] self'] rs']|e] eqn:Eg;
    [|vm_compute in Eg; discriminate|vm_compute in Eg; discriminate].
  exists signal, self', rs'. split; [reflexivity|].
  exact (conflicting_signal_is_never_emitted Scenario.generator self'
           Scenario.snapshot Scenario.dollar_rising Scenario.constant_draws rs'
           signal Hmin Eg).
Defined.

Lemma fibonacci_levels_between_the_swings_instance :
  Forall (fun b => DataCollector.rate_low b <= DataCollector.rate_high b)
    Scenario.daily_bars /\
  let '(swing_high, swing_low) :=
    DataCollector._get_swing_levels (Ok (Some Scenario.daily_bars)) in
  swing_low <= swing_high /\
  Forall (fun level => swing_low <= snd level /\ snd level <= swing_high)
    (DataCollector._calculate_fibonacci swing_high swing_low).
Proof.
  assert (Hbars : Forall (fun b => DataCollector.rate_low b
                                   <= DataCollector.rate_high b)
                    Scenario.daily_bars)
    by (repeat (constructor; [by_evaluation|]); constructor).
  split; [exact Hbars|].
  assert (Hall : forall rates,
             Ok (Some Scenario.daily_bars) = Ok (Some rates) ->
             Forall (fun b => DataCollector.rate_low b <= DataCollector.rate_high b)
               rates).
  { intros rates H. injection H as <-. exact Hbars. }
  pose proof (fibonacci_levels_between_the_swings (Ok (Some Scenario.daily_bars))
                Hall) as H.
  destruct (DataCollector._get_swing_levels (Ok (Some Scenario.daily_bars)))
    as [swing_high swing_low].
  destruct H as (Hle & Hlevels & _). split; [exact Hle|].
  eapply Forall_impl; [|exact Hlevels]. intros level (H1 & H2 & _).
  split; [exact H1 | exact H2].
Defined.

Lemma vwap_within_the_price_range_instance :
  0 <= 1.0798 /\
  Forall (fun b => 0 <= DataCollector.rate_tick_volume b /\
                   (1.0798 <= DataCollector.rate_low b /\
                    DataCollector.rate_low b <= 1.0808) /\
                   (1.0798 <= DataCollector.rate_high b /\
                    DataCollector.rate_high b <= 1.0808) /\
                   (1.0798 <= DataCollector.rate_close b /\
                    DataCollector.rate_close b <= 1.0808)) Scenario.minute_bars /\
  1.0798 <= DataCollector._calculate_vwap (Ok (Some Scenario.minute_bars)) /\
  DataCollector._calculate_vwap (Ok (Some Scenario.minute_bars)) <= 1.0808.
Proof.
  assert (Hlo : 0 <= 1.0798) by by_evaluation.
  assert (Hbars : Forall (fun b => 0 <= DataCollector.rate_tick_volume b /\
                   (1.0798 <= DataCollector.rate_low b /\
                    DataCollector.rate_low b <= 1.0808) /\
                   (1.0798 <= DataCollector.rate_high b /\
                    DataCollector.rate_high b <= 1.0808) /\
                   (1.0798 <= DataCollector.rate_close b /\
                    DataCollector.rate_close b <= 1.0808)) Scenario.minute_bars)
    by (repeat (constructor; [repeat split; by_evaluation|]); constructor).
  split; [exact Hlo|]. split; [exact Hbars|].
  assert (Hall : forall rates,
             Ok (Some Scenario.minute_bars) = Ok (Some rates) ->
             Forall (fun b => 0 <= DataCollector.rate_tick_volume b /\
                   (1.0798 <= DataCollector.rate_low b /\
                    DataCollector.rate_low b <= 1.0808) /\
                   (1.0798 <= DataCollector.rate_high b /\
                    DataCollector.rate_high b <= 1.0808) /\
                   (1.0798 <= DataCollector.rate_close b /\
                    DataCollector.rate_close b <= 1.0808)) rates).
  { intros rates H. injection H as <-. exact Hbars. }
  destruct (vwap_within_the_price_range (Ok (Some Scenario.minute_bars))
              1.0798 1.0808 Hlo Hall) as [_ Hin].
  apply Hin. by_evaluation.
Defined.

Lemma backtest_stop_out_costs_the_stop_distance_instance :
  exists pos,
    OfflineBacktester._open_position OfflineBacktester.__init__
      Scenario.backtest_zone Scenario.entry_bar 10000 = Ok pos /\
    let trade :=
      OfflineBacktester._close_position OfflineBacktester.__init__ pos
        Scenario.stop_bar "STOP_LOSS" in
    OfflineBacktester.trade_pips trade
      == - OfflineBacktester.stop_loss_pips OfflineBacktester.__init__ /\
    OfflineBacktester.trade_profit trade
      == - (OfflineBacktester.stop_loss_pips OfflineBacktester.__init__
            * OfflineBacktester.pip_dollar * OfflineBacktester.pos_lot pos).
Proof.
  destruct (OfflineBacktester._open_position OfflineBacktester.__init__
              Scenario.backtest_zone Scenario.entry_bar 10000)
    as [pos|e] eqn:Eo; [|vm_compute in Eo; discriminate].
  exists pos. split; [reflexivity|].
  destruct (backtest_stop_out_costs_the_stop_distance OfflineBacktester.__init__
              Scenario.backtest_zone Scenario.entry_bar Scenario.stop_bar 10000
              pos Eo) as (_ & Hpips & Hprofit & _).
  cbv zeta. split; [exact Hpips | exact Hprofit].
Defined.
